(** * dionysus-trainer: the training harness of [src/dionysus/training.py]

    A shallow embedding of [TrainingConfig.__post_init__], [run_epoch] and
    [train].  Python objects that the harness mutates (the model, the
    optimizer, the results dictionary, the root logger, the file system) live
    in one explicit store [World]; every function of the source is a
    computation in a state-and-exception monad over that store.  What torch,
    numpy, sklearn and pathlib compute is taken as an interface
    ([Collaborators]), and so is the latency helper of [dionysus.utils]
    ([Helpers]); the control flow, the name bindings and the bookkeeping are
    the source's. *)

From Stdlib Require Import ZArith Bool Lia.
From stdpp Require Import base gmap strings list.

(** ** Python values the harness inspects *)

(** [torch.device]: a device type and an optional index;
    [torch.device("cuda:0")] has index 0, [torch.device("cpu")] has none. *)
Record torch_device := TorchDevice { dev_type : string; dev_index : option Z }.

Definition cpu : torch_device := TorchDevice "cpu" None.
Definition cuda0 : torch_device := TorchDevice "cuda" (Some 0%Z).

Definition torch_device_eqb (a b : torch_device) : bool :=
  String.eqb (dev_type a) (dev_type b) &&
  match dev_index a, dev_index b with
  | None, None => true
  | Some i, Some j => Z.eqb i j
  | _, _ => false
  end.

(** The [device] field is annotated [str] but is compared against a
    [torch.device] and overwritten with one: it holds either. *)
Inductive device_val :=
  | DevStr (s : string)
  | DevTorch (d : torch_device).

(** Python [==] on the values a [device] field can hold: a [str] and a
    [torch.device] are never equal. *)
Definition device_py_eq (a b : device_val) : bool :=
  match a, b with
  | DevStr s, DevStr t => String.eqb s t
  | DevTorch d, DevTorch e => torch_device_eqb d e
  | _, _ => false
  end.

(** Truthiness of a [torch.device] object: the class defines neither
    [__bool__] nor [__len__], so every instance is truthy. *)
Definition torch_device_truthy (d : torch_device) : bool := true.

Inductive optimizer_kind := SGD | AdamW.

(** Python exceptions the harness itself can raise.  [UnboundLocalError] is a
    subclass of [NameError]. *)
Inductive exn :=
  | UnboundLocalError (name : string)
  | AttributeError (type_name attr : string)
  | KeyError (key : string)
  | TypeError (what : string)
  | FileExistsError (path : string)
  | ValueError (what : string)
  | IndexError (what : string)
  | OSError (path : string).

Inductive result (A : Type) :=
  | Ok (a : A)
  | Raise (e : exn).
Arguments Ok {A} a.
Arguments Raise {A} e.

Inductive ckpt_tag :=
  | TagEpoch (epoch : Z)
  | TagLast.

(** ** External collaborators

    What the harness calls but does not define.  Each operation is a
    function of its arguments: a forward pass, a loss or a metric reads the
    parameters and the batch and writes nothing.  The calls the harness
    makes with arguments it does not control can fail: building an optimizer,
    slicing the sample, opening the log file. *)

Class Collaborators := {
  (** tensors and other batch payloads: inputs, targets, model outputs *)
  data : Type;
  (** the loss tensor returned by [config.loss_func] *)
  loss : Type;
  (** the model's parameter tensors, their [.grad] buffers, optimizer state *)
  params : Type;
  grads : Type;
  ostate : Type;
  (** Python floats *)
  scalar : Type;
  (** elements of [ndarray.tolist()] *)
  item : Type;
  ndarray : Type;

  moveTo : data -> device_val -> data;
  forward : params -> bool -> data -> data;
  loss_func : data -> data -> loss;
  loss_item : loss -> scalar;
  loss_backward : params -> loss -> grads -> grads;
  (** [torch.optim.K(params, lr=lr)]: [None] when the constructor rejects
      the learning rate or the parameter list (it raises [ValueError]) *)
  optimizer_init : optimizer_kind -> params -> scalar -> option ostate;
  optimizer_step : ostate -> params -> grads -> params * ostate;
  zero_grad : grads -> grads;
  isinstance_Tensor : data -> bool;
  tolist : data -> list item;
  np_asarray : list item -> ndarray;
  np_shape : ndarray -> list Z;
  np_argmax_axis1 : ndarray -> ndarray;
  np_mean : list scalar -> scalar;
  (** [classification_report(..., output_dict=True)]: accuracy and the
      "macro avg" recall, precision and f1-score *)
  report_accuracy : list item -> ndarray -> scalar;
  report_macro_recall : list item -> ndarray -> scalar;
  report_macro_precision : list item -> ndarray -> scalar;
  report_macro_f1 : list item -> ndarray -> scalar;
  (** [x[0, :].unsqueeze(0)]: [None] when [x] has fewer than two dimensions
      (the indexing raises [IndexError]) *)
  first_row : data -> option data;
  (** [time.time()] at the n-th reading of the clock, float arithmetic *)
  clock : nat -> scalar;
  scalar_zero : scalar;
  scalar_add : scalar -> scalar -> scalar;
  scalar_sub : scalar -> scalar -> scalar;
  (** [datetime.now().strftime("%Y%m%d_%H%M%S")] at the n-th clock reading *)
  timestamp : nat -> string;
  (** [Path(a).joinpath(b)] and [os.path.join(a, b)], as strings *)
  joinpath : string -> string -> string;
  (** [Path(p).parents]: the ancestors of a path *)
  parents : string -> list string;
  (** whether [open(path, "w")] succeeds *)
  can_open : string -> bool;
  (** [constants.LOG_FILE] *)
  LOG_FILE : string;
  (** [dionysus.utils.compute_size] *)
  compute_size : params -> scalar;
}.

Section Harness.
Context `{Collaborators}.

(** One batch of a [DataLoader]: the pair [(x, y)] the loop unpacks. *)
Definition batch : Type := data * data.

(** The optimizer field starts as the selector string (or an optimizer the
    caller built) and [__post_init__] may replace it by a torch optimizer. *)
Inductive optimizer_val :=
  | OptStr (s : string)
  | OptObj (k : optimizer_kind).

Definition optimizer_py_eq_str (o : optimizer_val) (s : string) : bool :=
  match o with
  | OptStr t => String.eqb t s
  | OptObj _ => false
  end.

(** The [(y_true, y_pred)] pair of the last validation epoch. *)
Definition snapshot : Type := list item * ndarray.

(** Entries of the result series: [epoch] holds ints, the others floats. *)
Inductive rval :=
  | RInt (z : Z)
  | RFloat (s : scalar).

Inductive log_msg :=
  | LogUsingDevice (d : torch_device)
  | LogDeviceUnavailable (d : device_val)
  | LogText (text : string)
  | LogFinishedEpoch (number : Z) (elapsed : scalar)
  | LogLast (epoch : Z)
  | LogConfusionMatrix (s : snapshot)
  | LogBaselineReport (y_true : list item)
  | LogReport (s : snapshot)
  | LogFinishedTraining (time_training : scalar)
  | LogModelSize (mb : scalar)
  | LogLatency (avg std : scalar).

(** Calls into the persistence and reporting helpers of [dionysus.utils]. *)
Inductive event :=
  | SaveCheckpoint (tag : ckpt_tag) (results : gmap string (list rval))
                   (validation_result : option snapshot) (x_sample : data)
  | SaveLoss (results : gmap string (list rval))
  | SaveMetrics (results : gmap string (list rval)) (split : string)
  | SaveConfusionMatrix (s : snapshot)
  | ZipResults.

Record TrainingConfig := mkConfig {
  training_loader : list batch;
  validation_loader : option (list batch);
  lr : scalar;
  optimizer : optimizer_val;
  epochs : Z;
  device : device_val;
  save_model : bool;
  colab : bool;
  zip_result : bool;
  save_path : option string;
  model_name : option string;
  classification_metrics : bool;
  class_names : option (list string);
  progress_bar : bool;
  checkpoint_epochs : option (list Z);
  (** set by [__post_init__] when [save_model] holds *)
  save_path_final : option string;
}.

Definition set_optimizer (o : optimizer_val) (c : TrainingConfig) :=
  mkConfig (training_loader c) (validation_loader c) (lr c) o (epochs c)
    (device c) (save_model c) (colab c) (zip_result c) (save_path c)
    (model_name c) (classification_metrics c) (class_names c)
    (progress_bar c) (checkpoint_epochs c) (save_path_final c).

Definition set_device (d : device_val) (c : TrainingConfig) :=
  mkConfig (training_loader c) (validation_loader c) (lr c) (optimizer c)
    (epochs c) d (save_model c) (colab c) (zip_result c) (save_path c)
    (model_name c) (classification_metrics c) (class_names c)
    (progress_bar c) (checkpoint_epochs c) (save_path_final c).

Definition set_save_path_final (p : string) (c : TrainingConfig) :=
  mkConfig (training_loader c) (validation_loader c) (lr c) (optimizer c)
    (epochs c) (device c) (save_model c) (colab c) (zip_result c)
    (save_path c) (model_name c) (classification_metrics c) (class_names c)
    (progress_bar c) (checkpoint_epochs c) (Some p).

(** ** The store *)

Record World := mkWorld {
  (** [config.model]: parameters, gradients, the [training] flag, placement *)
  parameters : params;
  grad : grads;
  training : bool;
  placed_on : option device_val;
  (** internal state of the optimizer object *)
  opt_state : ostate;
  (** the [results] dictionary shared by [train] and [run_epoch] *)
  results : gmap string (list rval);
  (** messages passed to [logging.info], oldest first *)
  log : list log_msg;
  (** file of the root logger's handler, once [basicConfig] installed one *)
  log_handler : option string;
  (** helper calls, oldest first *)
  events : list event;
  (** directories that exist *)
  dirs : gset string;
  (** number of clock readings so far *)
  ticks : nat;
  (** [torch.is_grad_enabled()] *)
  grad_enabled : bool;
  (** [torch.cuda.is_available()] *)
  cuda_available : bool;
}.

Definition M (A : Type) : Type := World -> result A * World.

#[export] Instance M_ret : MRet M := fun A (a : A) w => (Ok a, w).

#[export] Instance M_bind : MBind M := fun A B (k : A -> M B) (m : M A) w =>
  match m w with
  | (Ok a, w') => k a w'
  | (Raise e, w') => (Raise e, w')
  end.

Definition raise {A} (e : exn) : M A := fun w => (Raise e, w).

(** *** Store updates *)

Definition set_model (p : params) (g : grads) (w : World) : World :=
  mkWorld p g (training w) (placed_on w) (opt_state w) (results w) (log w)
    (log_handler w) (events w) (dirs w) (ticks w) (grad_enabled w)
    (cuda_available w).

Definition set_training (b : bool) (w : World) : World :=
  mkWorld (parameters w) (grad w) b (placed_on w) (opt_state w) (results w)
    (log w) (log_handler w) (events w) (dirs w) (ticks w) (grad_enabled w)
    (cuda_available w).

Definition set_placed_on (d : device_val) (w : World) : World :=
  mkWorld (parameters w) (grad w) (training w) (Some d) (opt_state w)
    (results w) (log w) (log_handler w) (events w) (dirs w) (ticks w)
    (grad_enabled w) (cuda_available w).

Definition set_opt_state (o : ostate) (w : World) : World :=
  mkWorld (parameters w) (grad w) (training w) (placed_on w) o
    (results w) (log w) (log_handler w) (events w) (dirs w) (ticks w)
    (grad_enabled w) (cuda_available w).

Definition set_results (r : gmap string (list rval)) (w : World) : World :=
  mkWorld (parameters w) (grad w) (training w) (placed_on w) (opt_state w) r
    (log w) (log_handler w) (events w) (dirs w) (ticks w) (grad_enabled w)
    (cuda_available w).

Definition set_log (l : list log_msg) (w : World) : World :=
  mkWorld (parameters w) (grad w) (training w) (placed_on w) (opt_state w)
    (results w) l (log_handler w) (events w) (dirs w) (ticks w)
    (grad_enabled w) (cuda_available w).

Definition set_log_handler (f : string) (w : World) : World :=
  mkWorld (parameters w) (grad w) (training w) (placed_on w) (opt_state w)
    (results w) (log w) (Some f) (events w) (dirs w) (ticks w)
    (grad_enabled w) (cuda_available w).

Definition set_events (e : list event) (w : World) : World :=
  mkWorld (parameters w) (grad w) (training w) (placed_on w) (opt_state w)
    (results w) (log w) (log_handler w) e (dirs w) (ticks w) (grad_enabled w)
    (cuda_available w).

Definition set_dirs (d : gset string) (w : World) : World :=
  mkWorld (parameters w) (grad w) (training w) (placed_on w) (opt_state w)
    (results w) (log w) (log_handler w) (events w) d (ticks w)
    (grad_enabled w) (cuda_available w).

Definition set_ticks (n : nat) (w : World) : World :=
  mkWorld (parameters w) (grad w) (training w) (placed_on w) (opt_state w)
    (results w) (log w) (log_handler w) (events w) (dirs w) n
    (grad_enabled w) (cuda_available w).

Definition set_grad_enabled (b : bool) (w : World) : World :=
  mkWorld (parameters w) (grad w) (training w) (placed_on w) (opt_state w)
    (results w) (log w) (log_handler w) (events w) (dirs w) (ticks w) b
    (cuda_available w).

(** *** Primitive effects *)

Definition gets {A} (f : World -> A) : M A := fun w => (Ok (f w), w).

Definition modify (f : World -> World) : M unit := fun w => (Ok tt, f w).

(** [logging.info(msg)] *)
Definition logging_info (msg : log_msg) : M unit :=
  modify (fun w => set_log (log w ++ [msg]) w).

(** a call of one of the [dionysus.utils] helpers *)
Definition emit (e : event) : M unit :=
  modify (fun w => set_events (events w ++ [e]) w).

(** [time.time()] *)
Definition time_time : M scalar :=
  fun w => (Ok (clock (ticks w)), set_ticks (S (ticks w)) w).

(** [datetime.datetime.now().strftime("%Y%m%d_%H%M%S")] *)
Definition strftime_now : M string :=
  fun w => (Ok (timestamp (ticks w)), set_ticks (S (ticks w)) w).

(** Reading a local name: unbound names raise [UnboundLocalError]. *)
Definition read_local {A} (name : string) (binding : option A) : M A :=
  match binding with
  | Some v => mret v
  | None => raise (UnboundLocalError name)
  end.

(** [results[key].append(v)] *)
Definition results_append (key : string) (v : rval) : M unit :=
  fun w => match results w !! key with
           | Some l => (Ok tt, set_results (<[key := l ++ [v]]> (results w)) w)
           | None => (Raise (KeyError key), w)
           end.

(** [with torch.no_grad(): body]: the previous mode is restored on exit,
    also when [body] raises. *)
Definition with_no_grad {A} (body : M A) : M A :=
  fun w => let prev := grad_enabled w in
           let '(r, w') := body (set_grad_enabled false w) in
           (r, set_grad_enabled prev w').

(** [Path.mkdir(parents=True, exist_ok=False)]: raises when [path] exists;
    otherwise the directory is made, and so is every ancestor that is
    missing. *)
Definition mkdir (path : string) : M unit :=
  fun w => if decide (path ∈ dirs w)
           then (Raise (FileExistsError path), w)
           else (Ok tt,
                 set_dirs ({[path]} ∪ list_to_set (parents path) ∪ dirs w) w).

(** [logging.basicConfig(..., handlers=[FileHandler(logfile, mode="w")],
    force=force)]: the handler is built, and its file opened, before
    [basicConfig] is entered, so a file that cannot be opened raises
    whatever the state of the root logger.  After that nothing happens when
    the root logger already has a handler, unless [force] is set. *)
Definition logging_basicConfig (logfile : string) (force : bool) : M unit :=
  fun w => if can_open logfile then
             match log_handler w with
             | Some _ => if force then (Ok tt, set_log_handler logfile w)
                         else (Ok tt, w)
             | None => (Ok tt, set_log_handler logfile w)
             end
           else (Raise (OSError logfile), w).

(** [v is not None] *)
Definition is_not_None {A} (v : option A) : bool :=
  match v with Some _ => true | None => false end.

(** [str(v)] for an optional string: [None] prints as "None". *)
Definition str_of (v : option string) : string :=
  match v with Some s => s | None => "None" end.

(** ** [TrainingConfig.__post_init__] *)

(** [self.optimizer = torch.optim.K(self.model.parameters(), lr=self.lr)]:
    when the constructor of the optimizer raises, the field keeps the
    selector. *)
Definition bind_optimizer (k : optimizer_kind) (self : TrainingConfig)
  : M TrainingConfig :=
  fun w => match optimizer_init k (parameters w) (lr self) with
           | Some st => (Ok (set_optimizer (OptObj k) self), set_opt_state st w)
           | None => (Raise (ValueError "torch.optim"), w)
           end.

(** Lines 55-58: only the two recognised selectors are replaced. *)
Definition resolve_optimizer (self : TrainingConfig) : M TrainingConfig :=
  if optimizer_py_eq_str (optimizer self) "SGD" then
    bind_optimizer SGD self
  else if optimizer_py_eq_str (optimizer self) "AdamW" then
    bind_optimizer AdamW self
  else mret self.

(** Lines 60-70: the run directory and the log file. *)
Definition prepare_log_file (self : TrainingConfig)
  : M (TrainingConfig * string) :=
  if save_model self then
    stamp ← strftime_now;
    base ← match save_path self with
           | Some p => mret p
           | None => raise (TypeError "Path(None)")
           end;
    let final := joinpath base (stamp +:+ "_" +:+ str_of (model_name self)) in
    mkdir final;;
    mret (set_save_path_final final self, joinpath final LOG_FILE)
  else mret (self, LOG_FILE).

(** Lines 79-86. *)
Definition resolve_device (self : TrainingConfig) : M TrainingConfig :=
  if device_py_eq (device self) (DevStr "gpu")
     || device_py_eq (device self) (DevTorch cuda0) then
    cuda ← gets cuda_available;
    let d := if cuda : bool then cuda0 else cpu in
    logging_info (LogUsingDevice d);;
    mret (set_device (DevTorch d) self)
  else if device_py_eq (device self) (DevStr "cpu")
          || torch_device_truthy cpu then
    logging_info (LogUsingDevice cpu);;
    mret (set_device (DevTorch cpu) self)
  else
    logging_info (LogDeviceUnavailable (device self));;
    mret self.

Definition post_init (self : TrainingConfig) : M TrainingConfig :=
  self ← resolve_optimizer self;
  '(self, logfile) ← prepare_log_file self;
  logging_basicConfig logfile (colab self);;
  resolve_device self.

(** ** [run_epoch] *)

(** The loop's running locals: the three accumulators and the loop variable
    [x], which stays unbound while no batch has been drawn. *)
Record epoch_acc := mkAcc {
  running_loss : list scalar;
  y_true : list item;
  y_pred : list item;
  x_last : option data;
}.

(** [config.optimizer.step()]: a [str] has no such method. *)
Definition optimizer_step_call (config : TrainingConfig) : M unit :=
  match optimizer config with
  | OptStr _ => raise (AttributeError "str" "step")
  | OptObj _ =>
      fun w => let '(p, st) := optimizer_step (opt_state w) (parameters w) (grad w) in
               (Ok tt, set_opt_state st (set_model p (grad w) w))
  end.

(** [config.optimizer.zero_grad()] *)
Definition optimizer_zero_grad_call (config : TrainingConfig) : M unit :=
  match optimizer config with
  | OptStr _ => raise (AttributeError "str" "zero_grad")
  | OptObj _ => modify (fun w => set_model (parameters w) (zero_grad (grad w)) w)
  end.

(** [loss.backward()] *)
Definition loss_backward_call (l : loss) : M unit :=
  modify (fun w => set_model (parameters w) (loss_backward (parameters w) l (grad w)) w).

(** The body of the batch loop, lines 188-207. *)
Definition run_batch (config : TrainingConfig) (acc : epoch_acc) (b : batch)
  : M epoch_acc :=
  let x := moveTo b.1 (device config) in
  let y := moveTo b.2 (device config) in
  p ← gets parameters;
  mode ← gets training;
  let y_hat := forward p mode x in
  let l := loss_func y_hat y in
  (if mode : bool then
     loss_backward_call l;;
     optimizer_step_call config;;
     optimizer_zero_grad_call config
   else mret tt);;
  let running_loss := running_loss acc ++ [loss_item l] in
  if classification_metrics config && isinstance_Tensor y then
    mret (mkAcc running_loss (y_true acc ++ tolist y)
                (y_pred acc ++ tolist y_hat) (Some x))
  else
    mret (mkAcc running_loss (y_true acc) (y_pred acc) (Some x)).

(** A Python [for] over a finite sequence, threading the loop's locals. *)
Fixpoint for_each {A S} (body : S -> A -> M S) (l : list A) (s : S) : M S :=
  match l with
  | [] => mret s
  | a :: l' => s' ← body s a; for_each body l' s'
  end.

(** Iterating the object bound to [data_loader]: [None] is not iterable. *)
Definition iterate (loader : option (list batch)) : M (list batch) :=
  match loader with
  | Some bs => mret bs
  | None => raise (TypeError "'NoneType' object is not iterable")
  end.

(** Lines 211-215: predictions with more than one column become labels. *)
Definition as_labels (y_pred : list item) : ndarray :=
  let a := np_asarray y_pred in
  if (Z.of_nat (length (np_shape a)) =? 2)%Z
     && (1 <? nth 1 (np_shape a) 0)%Z
  then np_argmax_axis1 a else a.

Definition run_epoch (config : TrainingConfig) (epoch : Z) (prefix : string)
  : M (scalar * option snapshot * data) :=
  let data_loader : option (option (list batch)) :=
    if String.eqb prefix "training" then Some (Some (training_loader config))
    else None in
  let data_loader :=
    if String.eqb prefix "validation" then Some (validation_loader config)
    else data_loader in
  start ← time_time;
  loader ← read_local "data_loader" data_loader;
  batches ← iterate loader;
  acc ← for_each (run_batch config) batches (mkAcc [] [] [] None);
  end_ ← time_time;
  let y_pred := as_labels (y_pred acc) in
  (if classification_metrics config then
     results_append (prefix +:+ "_accuracy")
       (RFloat (report_accuracy (y_true acc) y_pred));;
     results_append (prefix +:+ "_macro_recall")
       (RFloat (report_macro_recall (y_true acc) y_pred));;
     results_append (prefix +:+ "_macro_precision")
       (RFloat (report_macro_precision (y_true acc) y_pred));;
     results_append (prefix +:+ "_macro_f1score")
       (RFloat (report_macro_f1 (y_true acc) y_pred))
   else mret tt);;
  results_append (prefix +:+ "_loss") (RFloat (np_mean (running_loss acc)));;
  let time_elapsed := scalar_sub end_ start in
  (if negb (progress_bar config) && String.eqb prefix "training" then
     logging_info (LogFinishedEpoch (epoch + 1) time_elapsed)
   else mret tt);;
  validation_result ←
    (if (epochs config - 1 =? epoch)%Z && String.eqb prefix "validation" then
       logging_info (LogLast epoch);;
       mret (Some (y_true acc, y_pred))
     else mret None);
  x ← read_local "x" (x_last acc);
  mret (time_elapsed, validation_result, x).

(** ** Specification vocabulary *)

(** A frame: [m] leaves the observation [f] of the store unchanged,
    whatever its outcome. *)
Definition preserves {X A} (f : World -> X) (m : M A) : Prop :=
  forall w r w', m w = (r, w') -> f w' = f w.

(** Which exceptions a computation can raise. *)
Definition raises_only {A} (P : exn -> Prop) (m : M A) : Prop :=
  forall w e w', m w = (Raise e, w') -> P e.

(** The series one [run_epoch] call appends to. *)
Definition epoch_keys (prefix : string) : list string :=
  [prefix +:+ "_accuracy"; prefix +:+ "_macro_recall";
   prefix +:+ "_macro_precision"; prefix +:+ "_macro_f1score";
   prefix +:+ "_loss"].

(** The part of the store a training step writes. *)
Definition model_state (w : World) : params * grads * ostate :=
  (parameters w, grad w, opt_state w).

(** Every exception but the unbound [data_loader]. *)
Definition not_data_loader (e : exn) : Prop :=
  e <> UnboundLocalError "data_loader".

(** ** [train] *)

(** Locals of [train] that the epoch loop rebinds; [validation_result] and
    [x_sample] are unbound until first assigned. *)
Record train_locals := mkLocals {
  time_training : scalar;
  validation_result : option (option snapshot);
  x_sample : option data;
}.

Definition metric_names : list string :=
  ["accuracy"; "macro_recall"; "macro_precision"; "macro_f1score"].

(** Lines 91-99. *)
Definition to_track (config : TrainingConfig) : list string :=
  let tracked := ["epoch"; "epoch_time"; "training_loss"] in
  let tracked := if is_not_None (validation_loader config)
                 then tracked ++ ["validation_loss"] else tracked in
  if classification_metrics config then
    foldl (fun tracked name =>
             let tracked := tracked ++ ["training_" +:+ name] in
             if is_not_None (validation_loader config)
             then tracked ++ ["validation_" +:+ name] else tracked)
          tracked metric_names
  else tracked.

(** Lines 101-103: a fresh dictionary with an empty list per tracked name. *)
Definition fresh_results (names : list string) : gmap string (list rval) :=
  foldl (fun d name => <[name := []]> d) ∅ names.

(** [save_checkpoint(tag, config, results, validation_result, x_sample)]:
    the arguments are read left to right. *)
Definition save_checkpoint (tag : ckpt_tag) (loc : train_locals) : M unit :=
  res ← gets results;
  vr ← read_local "validation_result" (validation_result loc);
  xs ← read_local "x_sample" (x_sample loc);
  emit (SaveCheckpoint tag res vr xs).

(** Lines 115-120: the validation pass, in evaluation mode and under
    [torch.no_grad()]; without a validation loader [validation_result] keeps
    whatever binding it had. *)
Definition validation_pass (config : TrainingConfig) (loc : train_locals)
    (epoch : Z) : M (option (option snapshot)) :=
  if is_not_None (validation_loader config) then
    modify (set_training false);;
    '(_, vr, _) ← with_no_grad (run_epoch config epoch "validation");
    mret (Some vr)
  else mret (validation_result loc).

(** [config.checkpoint_epochs is not None and epoch in config.checkpoint_epochs] *)
Definition checkpointed (config : TrainingConfig) (epoch : Z) : bool :=
  match checkpoint_epochs config with
  | Some l => bool_decide (epoch ∈ l)
  | None => false
  end.

(** Line 112, [x_sample[0, :].unsqueeze(0)]. *)
Definition first_row_call (x : data) : M data :=
  match first_row x with
  | Some row => mret row
  | None => raise (IndexError "too many indices for tensor")
  end.

(** One iteration of the epoch loop, lines 110-126. *)
Definition train_epoch (config : TrainingConfig) (loc : train_locals) (epoch : Z)
  : M train_locals :=
  modify (set_training true);;
  '(epoch_time, _, x) ← run_epoch config epoch "training";
  x_sample ← first_row_call x;
  let time_training := scalar_add (time_training loc) epoch_time in
  validation_result ← validation_pass config loc epoch;
  let loc := mkLocals time_training validation_result (Some x_sample) in
  results_append "epoch" (RInt (epoch + 1));;
  results_append "epoch_time" (RFloat epoch_time);;
  (if checkpointed config epoch then save_checkpoint (TagEpoch epoch) loc
   else mret tt);;
  mret loc.

(** [range(n)] *)
Definition range (n : Z) : list Z := Z.of_nat <$> seq 0 (Z.to_nat n).

(** The checkpoint events among the helper calls, by tag. *)
Definition checkpoint_tag_of (ev : event) : option ckpt_tag :=
  match ev with
  | SaveCheckpoint tag _ _ _ => Some tag
  | _ => None
  end.

Definition checkpoint_tags (evs : list event) : list ckpt_tag :=
  omap checkpoint_tag_of evs.

(** The checkpoints triggered so far. *)
Definition checkpoints (w : World) : list ckpt_tag := checkpoint_tags (events w).

(** Every tracked series exists in the results dictionary. *)
Definition tracked (config : TrainingConfig) (w : World) : Prop :=
  forall k, k ∈ to_track config -> is_Some (results w !! k).

(** The names of the result series. *)
Definition series_keys (w : World) : gset string := dom (results w).

(** Lines 131-161. *)
Definition report_classification (config : TrainingConfig) (loc : train_locals)
  : M unit :=
  vr ← read_local "validation_result" (validation_result loc);
  s ← match vr with
      | Some s => mret s
      | None => raise (TypeError "cannot unpack non-iterable NoneType object")
      end;
  logging_info (LogText "confusion matrix: ");;
  logging_info (LogConfusionMatrix s);;
  logging_info (LogText "classification report baseline: ");;
  logging_info (LogBaselineReport s.1);;
  logging_info (LogText "classification report: ");;
  logging_info (LogReport s);;
  if save_model config then
    res ← gets results;
    emit (SaveLoss res);;
    emit (SaveMetrics res "training");;
    emit (SaveMetrics res "validation");;
    emit (SaveConfusionMatrix s)
  else mret tt.

(** [dionysus.utils.time_pipeline(config)], line 168.  Its source is not
    part of [src/]: it is taken as a function of the configuration and of
    the store that returns the average and the deviation of the latency, or
    raises, and leaves the store as it is. *)
Class Helpers := {
  time_pipeline : TrainingConfig -> World -> result (scalar * scalar);
}.

Context `{Helpers}.

Definition time_pipeline_call (config : TrainingConfig) : M (scalar * scalar) :=
  fun w => (time_pipeline config w, w).

Definition train (config : TrainingConfig) : M unit :=
  logging_info (LogText "starting training");;
  modify (set_results (fresh_results (to_track config)));;
  modify (set_placed_on (device config));;
  loc ← for_each (train_epoch config) (range (epochs config))
          (mkLocals scalar_zero None None);
  (if save_model config then save_checkpoint TagLast loc else mret tt);;
  (if classification_metrics config then report_classification config loc
   else mret tt);;
  logging_info (LogFinishedTraining (time_training loc));;
  p ← gets parameters;
  logging_info (LogModelSize (compute_size p));;
  latency ← time_pipeline_call config;
  logging_info (LogLatency latency.1 latency.2);;
  if zip_result config then emit ZipResults else mret tt.

(** ** Pure descriptions of one pass *)

(** The batch as the loop body sees it after [utils.moveTo]. *)
Definition moved_input (config : TrainingConfig) (b : batch) : data :=
  moveTo b.1 (device config).

Definition moved_target (config : TrainingConfig) (b : batch) : data :=
  moveTo b.2 (device config).

(** [loss.item()] of one batch under parameters [p] in mode [mode]. *)
Definition batch_loss (config : TrainingConfig) (p : params) (mode : bool)
    (b : batch) : scalar :=
  loss_item (loss_func (forward p mode (moved_input config b))
                       (moved_target config b)).

(** What lines 201-207 add to [y_true] and to [y_pred] for one batch. *)
Definition batch_labels (config : TrainingConfig) (b : batch) : list item :=
  if classification_metrics config && isinstance_Tensor (moved_target config b)
  then tolist (moved_target config b) else [].

Definition batch_predictions (config : TrainingConfig) (p : params)
    (mode : bool) (b : batch) : list item :=
  if classification_metrics config && isinstance_Tensor (moved_target config b)
  then tolist (forward p mode (moved_input config b)) else [].

(** Lines 209-241 of [run_epoch]: everything after the batch loop. *)
Definition finish_epoch (config : TrainingConfig) (epoch : Z) (prefix : string)
    (start : scalar) (acc : epoch_acc) : M (scalar * option snapshot * data) :=
  end_ ← time_time;
  let y_pred := as_labels (y_pred acc) in
  (if classification_metrics config then
     results_append (prefix +:+ "_accuracy")
       (RFloat (report_accuracy (y_true acc) y_pred));;
     results_append (prefix +:+ "_macro_recall")
       (RFloat (report_macro_recall (y_true acc) y_pred));;
     results_append (prefix +:+ "_macro_precision")
       (RFloat (report_macro_precision (y_true acc) y_pred));;
     results_append (prefix +:+ "_macro_f1score")
       (RFloat (report_macro_f1 (y_true acc) y_pred))
   else mret tt);;
  results_append (prefix +:+ "_loss") (RFloat (np_mean (running_loss acc)));;
  let time_elapsed := scalar_sub end_ start in
  (if negb (progress_bar config) && String.eqb prefix "training" then
     logging_info (LogFinishedEpoch (epoch + 1) time_elapsed)
   else mret tt);;
  validation_result ←
    (if (epochs config - 1 =? epoch)%Z && String.eqb prefix "validation" then
       logging_info (LogLast epoch);;
       mret (Some (y_true acc, y_pred))
     else mret None);
  x ← read_local "x" (x_last acc);
  mret (time_elapsed, validation_result, x).

(** The entries one pass appends, in the order of the appends. *)
Definition epoch_entries (config : TrainingConfig) (prefix : string)
    (acc : epoch_acc) : list (string * rval) :=
  let y_pred := as_labels (y_pred acc) in
  (if classification_metrics config then
     [(prefix +:+ "_accuracy", RFloat (report_accuracy (y_true acc) y_pred));
      (prefix +:+ "_macro_recall",
       RFloat (report_macro_recall (y_true acc) y_pred));
      (prefix +:+ "_macro_precision",
       RFloat (report_macro_precision (y_true acc) y_pred));
      (prefix +:+ "_macro_f1score",
       RFloat (report_macro_f1 (y_true acc) y_pred))]
   else [])
  ++ [(prefix +:+ "_loss", RFloat (np_mean (running_loss acc)))].

(** The series a pass appends to under [config]. *)
Definition active_keys (config : TrainingConfig) (prefix : string)
  : list string :=
  (if classification_metrics config then
     [prefix +:+ "_accuracy"; prefix +:+ "_macro_recall";
      prefix +:+ "_macro_precision"; prefix +:+ "_macro_f1score"]
   else [])
  ++ [prefix +:+ "_loss"].

(** [d[k].append(v)] on a dictionary that has the key. *)
Definition push (d : gmap string (list rval)) (kv : string * rval)
  : gmap string (list rval) :=
  <[kv.1 := default [] (d !! kv.1) ++ [kv.2]]> d.

(** The notices one pass logs. *)
Definition epoch_messages (config : TrainingConfig) (epoch : Z)
    (prefix : string) (elapsed : scalar) : list log_msg :=
  (if negb (progress_bar config) && String.eqb prefix "training"
   then [LogFinishedEpoch (epoch + 1) elapsed] else [])
  ++ (if (epochs config - 1 =? epoch)%Z && String.eqb prefix "validation"
      then [LogLast epoch] else []).

(** The snapshot a pass returns. *)
Definition epoch_snapshot (config : TrainingConfig) (epoch : Z)
    (prefix : string) (acc : epoch_acc) : option snapshot :=
  if (epochs config - 1 =? epoch)%Z && String.eqb prefix "validation"
  then Some (y_true acc, as_labels (y_pred acc)) else None.

(** The store after the part of a pass that follows the loop. *)
Definition finished_world (config : TrainingConfig) (epoch : Z)
    (prefix : string) (start : scalar) (acc : epoch_acc) (w : World) : World :=
  set_log (log w ++ epoch_messages config epoch prefix
                      (scalar_sub (clock (ticks w)) start))
    (set_results (foldl push (results w) (epoch_entries config prefix acc))
       (set_ticks (S (ticks w)) w)).

(** The loader a prefix selects, when it selects one. *)
Definition selected_loader (config : TrainingConfig) (prefix : string)
  : option (option (list batch)) :=
  if String.eqb prefix "validation" then Some (validation_loader config)
  else if String.eqb prefix "training" then Some (Some (training_loader config))
  else None.

(** The sample a pass leaves in [x]: the input of the last batch drawn. *)
Definition last_input (config : TrainingConfig) (bs : list batch)
    (x : option data) : option data :=
  match last bs with
  | Some b => Some (moved_input config b)
  | None => x
  end.

(** One optimisation step on the model state: backward, step, reset. *)
Definition train_step (config : TrainingConfig) (s : params * grads * ostate)
    (b : batch) : params * grads * ostate :=
  let l := loss_func (forward s.1.1 true (moved_input config b))
                     (moved_target config b) in
  let g := loss_backward s.1.1 l s.1.2 in
  let ps := optimizer_step s.2 s.1.1 g in
  (ps.1, zero_grad g, ps.2).

(** Lines 62-66: the run directory a construction with [save_model] makes,
    from the clock reading it takes. *)
Definition run_directory (self : TrainingConfig) (base : string) (w : World)
  : string :=
  joinpath base (timestamp (ticks w) +:+ "_" +:+ str_of (model_name self)).

(** The handler the root logger has after [basicConfig] was asked for
    [logfile]. *)
Definition handler_after (force : bool) (logfile : string)
    (before : option string) : string :=
  match before with
  | Some f => if force then logfile else f
  | None => logfile
  end.

(** Lines 79-86: the device a selector resolves to.  The second test of the
    [elif] is always truthy, so there are two outcomes only. *)
Definition resolved_device (d : device_val) (cuda : bool) : torch_device :=
  if (device_py_eq d (DevStr "gpu") || device_py_eq d (DevTorch cuda0)) && cuda
  then cuda0 else cpu.

(** Lines 55-58: the optimizer a selector names, if it names one. *)
Definition selected_optimizer (self : TrainingConfig) : option optimizer_kind :=
  if optimizer_py_eq_str (optimizer self) "SGD" then Some SGD
  else if optimizer_py_eq_str (optimizer self) "AdamW" then Some AdamW
  else None.

(** The constructor of the selected optimizer accepts the model's parameters
    and the learning rate. *)
Definition optimizer_accepted (self : TrainingConfig) (w : World) : Prop :=
  forall k, selected_optimizer self = Some k ->
    is_Some (optimizer_init k (parameters w) (lr self)).

(** Lines 128-172 of [train]: everything after the epoch loop. *)
Definition finish_train (config : TrainingConfig) (loc : train_locals)
  : M unit :=
  (if save_model config then save_checkpoint TagLast loc else mret tt);;
  (if classification_metrics config then report_classification config loc
   else mret tt);;
  logging_info (LogFinishedTraining (time_training loc));;
  p ← gets parameters;
  logging_info (LogModelSize (compute_size p));;
  latency ← time_pipeline_call config;
  logging_info (LogLatency latency.1 latency.2);;
  if zip_result config then emit ZipResults else mret tt.

(** Line 112 slices the input of the last training batch: the slice exists
    when that tensor has a first row. *)
Definition sliceable (config : TrainingConfig) : Prop :=
  forall b, last (training_loader config) = Some b ->
    is_Some (first_row (moved_input config b)).

(** The latency helper returns for [config], whatever the store. *)
Definition latency_measured (config : TrainingConfig) : Prop :=
  forall w, exists r, time_pipeline config w = Ok r.

End Harness.

(** ** A small concrete instance

    Integers stand for tensors and floats: the model is [y_hat = p * x], the
    loss is [y_hat - y], a step subtracts the gradient.  A negative learning
    rate is rejected by the optimizers, a negative integer stands for a
    tensor of one dimension, every file can be opened, and the latency helper
    returns. *)
Module Demo.

(** The ancestors of a relative path: its proper prefixes that end before a
    separator. *)
Fixpoint ancestors (seen rest : string) : list string :=
  match rest with
  | EmptyString => []
  | String c rest' =>
      (if String.eqb (String c EmptyString) "/" then [seen] else [])
      ++ ancestors (seen +:+ String c EmptyString) rest'
  end.

#[export] Instance toy : Collaborators := {|
  data := Z; loss := Z; params := Z; grads := Z; ostate := nat;
  scalar := Z; item := Z; ndarray := list Z;
  moveTo := fun x _ => x;
  forward := fun p _ x => (p * x)%Z;
  loss_func := fun y_hat y => (y_hat - y)%Z;
  loss_item := fun l => l;
  loss_backward := fun _ l g => (g + l)%Z;
  optimizer_init := fun _ _ lr => if (lr <? 0)%Z then None else Some 0;
  optimizer_step := fun st p g => ((p - g)%Z, S st);
  zero_grad := fun _ => 0%Z;
  isinstance_Tensor := fun _ => true;
  tolist := fun d => [d];
  np_asarray := fun l => l;
  np_shape := fun a => [Z.of_nat (length a)];
  np_argmax_axis1 := fun a => a;
  np_mean := fun l => (foldr Z.add 0 l / Z.of_nat (length l))%Z;
  report_accuracy := fun _ _ => 0%Z;
  report_macro_recall := fun _ _ => 0%Z;
  report_macro_precision := fun _ _ => 0%Z;
  report_macro_f1 := fun _ _ => 0%Z;
  first_row := fun x => if (x <? 0)%Z then None else Some x;
  clock := Z.of_nat;
  scalar_zero := 0%Z;
  scalar_add := Z.add;
  scalar_sub := Z.sub;
  timestamp := fun _ => "20240101_000000";
  joinpath := fun a b => a +:+ "/" +:+ b;
  parents := ancestors "";
  can_open := fun _ => true;
  LOG_FILE := "training.log";
  compute_size := fun _ => 0%Z;
|}.

#[export] Instance toy_helpers : Helpers := {|
  time_pipeline := fun _ _ => Ok (0%Z, 0%Z);
|}.

(** A fresh process: parameter 2, no gradient, evaluation mode, nothing
    logged, no handler installed, no CUDA device. *)
Definition world0 : World :=
  mkWorld 2%Z 0%Z false None 0 ∅ [] None [] ∅ 0 true false.

Definition two_batches : list batch := [(1, 1); (2, 5)]%Z.

(** A configuration over [two_batches]; the remaining fields keep the
    defaults of the dataclass. *)
Definition config (optimizer : optimizer_val) (device : device_val)
    (validation_loader : option (list batch)) (epochs : Z) (save_model : bool)
    (checkpoint_epochs : option (list Z)) : TrainingConfig :=
  mkConfig two_batches validation_loader 1%Z optimizer epochs device
    save_model false false (Some "runs") (Some "toy") false None true
    checkpoint_epochs None.

(** What [__post_init__] leaves in [self], when it returns. *)
Definition constructed (c : TrainingConfig) : TrainingConfig :=
  match (post_init c world0).1 with
  | Ok c' => c'
  | Raise _ => c
  end.

(** A store holding an empty "validation_loss" series, model in evaluation
    mode. *)
Definition world_eval : World :=
  mkWorld 2%Z 0%Z false None 0 {["validation_loss" := []]} [] None [] ∅ 0
    true false.

(** An optimizer selector the constructor does not know. *)
Definition adam_config : TrainingConfig :=
  config (OptStr "Adam") (DevStr "cpu") None 2 false None.

(** A device selector the constructor does not know. *)
Definition tpu_config : TrainingConfig :=
  config (OptStr "SGD") (DevStr "tpu") None 2 false None.

(** Two epochs, no validation, no checkpoints, as constructed. *)
Definition plain_config : TrainingConfig :=
  config (OptObj SGD) (DevTorch cpu) None 2 false None.

(** Three epochs with validation, checkpoints at 0 and 2 and at the end. *)
Definition checkpointing_config : TrainingConfig :=
  config (OptObj SGD) (DevTorch cpu) (Some [(3, 4)]%Z) 3 true (Some [0; 2]%Z).

(** Two epochs with a validation loader. *)
Definition validating_config : TrainingConfig :=
  config (OptObj SGD) (DevTorch cpu) (Some two_batches) 2 false None.

(** Checkpoints requested, but no validation loader. *)
Definition unvalidated_config : TrainingConfig :=
  config (OptObj SGD) (DevTorch cpu) None 3 true (Some [0; 2]%Z).

(** With [classification_metrics] off nothing is accumulated. *)
Definition empty_snapshot : option snapshot := Some ([], []).

(** The selector "gpu" on a machine without CUDA. *)
Definition gpu_config : TrainingConfig :=
  config (OptStr "SGD") (DevStr "gpu") None 2 false None.

(** [save_model] with the default [save_path]. *)
Definition pathless_config : TrainingConfig :=
  mkConfig two_batches None 1%Z (OptStr "SGD") 2 (DevStr "cpu") true false
    false None None false None true None None.

(** [save_model] under "runs". *)
Definition saving_config : TrainingConfig :=
  config (OptStr "SGD") (DevStr "cpu") None 2 true None.

(** A process in which the run directory of [saving_config] exists. *)
Definition world_with_run_directory : World :=
  mkWorld 2%Z 0%Z false None 0 ∅ [] None [] {["runs/20240101_000000_toy"]} 0
    true false.

(** A process whose root logger has a handler. *)
Definition world_logging : World :=
  mkWorld 2%Z 0%Z false None 0 ∅ [] (Some "first.log") [] ∅ 0 true false.

(** No training batches. *)
Definition empty_config : TrainingConfig :=
  mkConfig [] None 1%Z (OptObj SGD) 2 (DevTorch cpu) false false false
    (Some "runs") (Some "toy") false None true None None.

(** A store holding an empty "training_loss" series, model in training
    mode. *)
Definition world_training : World :=
  mkWorld 2%Z 0%Z true None 0 {["training_loss" := []]} [] None [] ∅ 0
    true false.


(** Classification metrics without a validation loader. *)
Definition metrics_config : TrainingConfig :=
  mkConfig two_batches None 1%Z (OptObj SGD) 2 (DevTorch cpu) false false
    false (Some "runs") (Some "toy") true None true None None.

(** The selectors "SGD" and "gpu" with a validation loader. *)
Definition selecting_config : TrainingConfig :=
  config (OptStr "SGD") (DevStr "gpu") (Some two_batches) 2 false None.

(** The store at the start of the epoch loop of [checkpointing_config]. *)
Definition world_tracking : World :=
  mkWorld 2%Z 0%Z false None 0 (fresh_results (to_track checkpointing_config))
    [] None [] ∅ 0 true false.

(** The locals of [train] before the first epoch and after epoch 0 of
    [checkpointing_config]. *)
Definition locals_before : train_locals := mkLocals 0%Z None None.

Definition locals_after : train_locals := mkLocals 1%Z (Some None) (Some 2%Z).

(** A store without any series, model in training mode. *)
Definition world_fitting : World :=
  mkWorld 2%Z 0%Z true None 0 ∅ [] None [] ∅ 0 true false.




(** A learning rate the optimizers reject. *)
Definition negative_rate_config : TrainingConfig :=
  mkConfig two_batches None (-1)%Z (OptStr "SGD") 2 (DevStr "cpu") false false
    false None None false None true None None.

(** A training loader whose inputs have one dimension, checkpoints
    requested, no validation loader. *)
Definition flat_config : TrainingConfig :=
  mkConfig [(-1, 1)]%Z None 1%Z (OptObj SGD) 3 (DevTorch cpu) true false false
    (Some "runs") (Some "toy") false None true (Some [0; 2]%Z) None.

End Demo.

(** * Properties *)

(** ** Reasoning about computations *)

Section Binding.
Context `{Collaborators}.

Lemma bind_inv {A B} (m : M A) (k : A -> M B) w r w' :
  (m ≫= k) w = (r, w') ->
  (exists a w1, m w = (Ok a, w1) /\ k a w1 = (r, w'))
  \/ (exists e, m w = (Raise e, w') /\ r = Raise e).
Proof.
  unfold mbind, M_bind. destruct (m w) as [[a|e] w1]; intros E.
  - left. eauto.
  - right. inversion E; subst. eauto.
Qed.

Lemma bind_ok {A B} (m : M A) (k : A -> M B) w a w1 :
  m w = (Ok a, w1) -> (m ≫= k) w = k a w1.
Proof. unfold mbind, M_bind. intros ->. reflexivity. Qed.

Lemma bind_raise {A B} (m : M A) (k : A -> M B) w e w1 :
  m w = (Raise e, w1) -> (m ≫= k) w = (Raise e, w1).
Proof. unfold mbind, M_bind. intros ->. reflexivity. Qed.

Lemma outcome_pair {A} (m : M A) w r : (m w).1 = r -> m w = (r, (m w).2).
Proof. destruct (m w). simpl. by intros ->. Qed.

(** Forward execution: a primitive at the head of a computation takes one
    step. *)
Lemma run_assoc {A B C} (m : M A) (k1 : A -> M B) (k2 : B -> M C) w :
  ((m ≫= k1) ≫= k2) w = (m ≫= (fun a => k1 a ≫= k2)) w.
Proof. unfold mbind, M_bind. destruct (m w) as [[a|e] w1]; reflexivity. Qed.

Lemma run_ret {A B} (a : A) (k : A -> M B) w : (mret a ≫= k) w = k a w.
Proof. reflexivity. Qed.

Lemma run_gets {A B} (f : World -> A) (k : A -> M B) w :
  (gets f ≫= k) w = k (f w) w.
Proof. reflexivity. Qed.

Lemma run_modify {B} f (k : unit -> M B) w : (modify f ≫= k) w = k tt (f w).
Proof. reflexivity. Qed.

Lemma run_logging_info {B} msg (k : unit -> M B) w :
  (logging_info msg ≫= k) w = k tt (set_log (log w ++ [msg]) w).
Proof. reflexivity. Qed.

Lemma run_emit {B} ev (k : unit -> M B) w :
  (emit ev ≫= k) w = k tt (set_events (events w ++ [ev]) w).
Proof. reflexivity. Qed.

Lemma run_time_time {B} (k : scalar -> M B) w :
  (time_time ≫= k) w = k (clock (ticks w)) (set_ticks (S (ticks w)) w).
Proof. reflexivity. Qed.

Lemma run_raise {A B} e (k : A -> M B) w : (raise e ≫= k) w = (Raise e, w).
Proof. reflexivity. Qed.

Lemma run_loss_backward_call {B} l (k : unit -> M B) w :
  (loss_backward_call l ≫= k) w =
  k tt (set_model (parameters w) (loss_backward (parameters w) l (grad w)) w).
Proof. reflexivity. Qed.

End Binding.

Create Rewrite HintDb run.
#[export] Hint Rewrite @run_assoc @run_ret @run_gets @run_modify
  @run_logging_info @run_emit @run_time_time @run_raise
  @run_loss_backward_call : run.

Ltac run :=
  repeat (autorewrite with run;
          cbn [parameters grad training placed_on opt_state results log
               log_handler events dirs ticks grad_enabled cuda_available
               set_model set_training set_placed_on set_opt_state set_results
               set_log set_log_handler set_events set_dirs set_ticks
               set_grad_enabled read_local iterate for_each fst snd]).

(** Unfolds a primitive effect in [E : m w = (r, w')] and solves for the
    outcome. *)
Ltac prim E :=
  cbv [time_time strftime_now read_local iterate logging_info emit modify gets
       mret M_ret raise loss_backward_call first_row_call
       time_pipeline_call] in E;
  repeat match type of E with
         | context [match ?x with _ => _ end] => destruct x eqn:?
         end;
  simplify_eq.

Ltac is_prim E :=
  lazymatch type of E with
  | time_time _ = _ => idtac
  | strftime_now _ = _ => idtac
  | read_local _ _ _ = _ => idtac
  | iterate _ _ = _ => idtac
  | logging_info _ _ = _ => idtac
  | emit _ _ = _ => idtac
  | modify _ _ = _ => idtac
  | gets _ _ = _ => idtac
  | mret _ _ = _ => idtac
  | raise _ _ = _ => idtac
  | loss_backward_call _ _ = _ => idtac
  | first_row_call _ _ = _ => idtac
  | time_pipeline_call _ _ = _ => idtac
  end.

(** One step of symbolic execution: splits [H : (m ≫= k) w = (r, w')] into
    the run where [m] returns and the run where it raises. *)
Tactic Notation "step" hyp(H) "as" ident(a) ident(w1) ident(E) :=
  let e := fresh "e" in
  let Er := fresh "Er" in
  apply bind_inv in H as [(a & w1 & E & H) | (e & E & Er)];
  [ try (is_prim E; prim E)
  | first [ discriminate Er
          | try (injection Er as <-); try subst; try (is_prim E; prim E) ] ].

(** *** Frames: what a computation leaves alone, whatever its outcome *)

Section Frames.
Context `{Collaborators} `{!Helpers}.

Lemma preserves_bind {X A B} (f : World -> X) (m : M A) (k : A -> M B) :
  preserves f m -> (forall a, preserves f (k a)) -> preserves f (m ≫= k).
Proof.
  intros Hm Hk w r w' E. step E as a w1 E1.
  - rewrite (Hk _ _ _ _ E). eauto.
  - eauto.
Qed.

Lemma preserves_ret {X A} (f : World -> X) (a : A) : preserves f (mret a).
Proof. intros w r w' E. prim E. reflexivity. Qed.

Lemma preserves_raise {X A} (f : World -> X) e : preserves f (@raise _ A e).
Proof. intros w r w' E. prim E. reflexivity. Qed.

Lemma preserves_gets {X A} (f : World -> X) (g : World -> A) :
  preserves f (gets g).
Proof. intros w r w' E. prim E. reflexivity. Qed.

Lemma preserves_read_local {X A} (f : World -> X) name (b : option A) :
  preserves f (read_local name b).
Proof. intros w r w' E. prim E; reflexivity. Qed.

Lemma preserves_iterate {X} (f : World -> X) loader :
  preserves f (iterate loader).
Proof. intros w r w' E. prim E; reflexivity. Qed.

Lemma preserves_first_row_call {X} (f : World -> X) x :
  preserves f (first_row_call x).
Proof. intros w r w' E. prim E; reflexivity. Qed.

Lemma preserves_time_pipeline_call {X} (f : World -> X) config :
  preserves f (time_pipeline_call config).
Proof. intros w r w' E. prim E. reflexivity. Qed.

Lemma preserves_modify {X} (f : World -> X) g :
  (forall w, f (g w) = f w) -> preserves f (modify g).
Proof. intros Hg w r w' E. prim E. apply Hg. Qed.

Lemma preserves_logging_info {X} (f : World -> X) msg :
  (forall l w, f (set_log l w) = f w) -> preserves f (logging_info msg).
Proof. intros Hf. apply preserves_modify. intros; apply Hf. Qed.

Lemma preserves_emit {X} (f : World -> X) ev :
  (forall l w, f (set_events l w) = f w) -> preserves f (emit ev).
Proof. intros Hf. apply preserves_modify. intros; apply Hf. Qed.

Lemma preserves_time_time {X} (f : World -> X) :
  (forall n w, f (set_ticks n w) = f w) -> preserves f time_time.
Proof. intros Hf w r w' E. prim E. apply Hf. Qed.

Lemma preserves_results_append {X} (f : World -> X) key v :
  (forall r w, f (set_results r w) = f w) -> preserves f (results_append key v).
Proof.
  intros Hf w r w' E. unfold results_append in E.
  destruct (results w !! key); simplify_eq; [apply Hf | reflexivity].
Qed.

Lemma preserves_with_no_grad {X A} (f : World -> X) (body : M A) :
  (forall b w, f (set_grad_enabled b w) = f w) ->
  preserves f body -> preserves f (with_no_grad body).
Proof.
  intros Hf Hb w r w' E. unfold with_no_grad in E.
  destruct (body _) as [r1 w1] eqn:E1. simplify_eq.
  rewrite Hf. rewrite (Hb _ _ _ E1). apply Hf.
Qed.


Lemma preserves_for_each {X A S} (f : World -> X) (body : S -> A -> M S) l s :
  (forall s a, preserves f (body s a)) -> preserves f (for_each body l s).
Proof.
  intros Hb. revert s. induction l as [|a l IH]; intros s; simpl.
  - apply preserves_ret.
  - apply preserves_bind; auto.
Qed.

Lemma raises_only_bind {A B} P (m : M A) (k : A -> M B) :
  raises_only P m -> (forall a, raises_only P (k a)) -> raises_only P (m ≫= k).
Proof.
  intros Hm Hk w e w' E. step E as a w1 E1.
  - eapply Hk; eauto.
  - eapply Hm; eauto.
Qed.

Lemma raises_only_for_each {A S} P (body : S -> A -> M S) l s :
  (forall s a, raises_only P (body s a)) -> raises_only P (for_each body l s).
Proof.
  intros Hb. revert s. induction l as [|a l IH]; intros s; simpl.
  - intros w e w' E. prim E.
  - apply raises_only_bind; auto.
Qed.

Lemma raises_only_ret {A} P (a : A) : raises_only P (mret a).
Proof. intros w e w' E. prim E. Qed.

Lemma raises_only_gets {A} P (f : World -> A) : raises_only P (gets f).
Proof. intros w e w' E. prim E. Qed.

Lemma raises_only_modify P f : raises_only P (modify f).
Proof. intros w e w' E. prim E. Qed.

Lemma raises_only_logging_info P msg : raises_only P (logging_info msg).
Proof. apply raises_only_modify. Qed.

Lemma raises_only_emit P ev : raises_only P (emit ev).
Proof. apply raises_only_modify. Qed.

Lemma raises_only_time_time P : raises_only P time_time.
Proof. intros w e w' E. prim E. Qed.

Lemma raises_only_raise {A} (P : exn -> Prop) e : P e -> raises_only P (@raise _ A e).
Proof. intros HP w e' w' E. prim E. done. Qed.

Lemma raises_only_read_local {A} (P : exn -> Prop) name (b : option A) :
  (b = None -> P (UnboundLocalError name)) -> raises_only P (read_local name b).
Proof. intros HP w e w' E. prim E. auto. Qed.

Lemma raises_only_iterate (P : exn -> Prop) loader :
  P (TypeError "'NoneType' object is not iterable") ->
  raises_only P (iterate loader).
Proof. intros HP w e w' E. prim E. done. Qed.

Lemma raises_only_results_append (P : exn -> Prop) key v :
  P (KeyError key) -> raises_only P (results_append key v).
Proof.
  intros HP w e w' E. unfold results_append in E.
  destruct (results w !! key); simplify_eq. done.
Qed.

Lemma raises_only_with_no_grad {A} P (body : M A) :
  raises_only P body -> raises_only P (with_no_grad body).
Proof.
  intros Hb w e w' E. unfold with_no_grad in E.
  destruct (body _) as [r1 w1] eqn:E1. simplify_eq. eauto.
Qed.

Lemma raises_only_weaken {A} (P Q : exn -> Prop) (m : M A) :
  raises_only P m -> (forall e, P e -> Q e) -> raises_only Q m.
Proof. intros Hm HPQ w e w' E. eauto. Qed.

End Frames.

(** Solves frame goals for computations built from the primitives. *)
Ltac frame :=
  repeat first
    [ apply preserves_ret
    | apply preserves_raise
    | apply preserves_gets
    | apply preserves_read_local
    | apply preserves_iterate
    | apply preserves_first_row_call
    | apply preserves_time_pipeline_call
    | apply preserves_logging_info; reflexivity
    | apply preserves_emit; reflexivity
    | apply preserves_time_time; reflexivity
    | apply preserves_results_append; reflexivity
    | apply preserves_modify; reflexivity
    | apply preserves_with_no_grad; [reflexivity|]
    | simple apply preserves_for_each; intros ? ?
    | simple apply preserves_bind; [|intros ?]
    | match goal with
      | |- preserves _ (if ?b then _ else _) => destruct b
      | |- preserves _ (match ?x with _ => _ end) => destruct x
      end ].

Ltac raises :=
  repeat first
    [ apply raises_only_ret
    | apply raises_only_gets
    | apply raises_only_logging_info
    | apply raises_only_emit
    | apply raises_only_time_time
    | apply raises_only_modify
    | apply raises_only_with_no_grad
    | simple apply raises_only_for_each; intros ? ?
    | simple apply raises_only_bind; [|intros ?]
    | match goal with
      | |- raises_only _ (if ?b then _ else _) => destruct b
      | |- raises_only _ (match ?x with _ => _ end) => destruct x
      end ].

(** Applies a frame to [E : m w = (r, w')], turning it into [f w' = f w]. *)
Ltac frame_in E f :=
  match type of E with
  | ?m ?w0 = _ =>
      let Hp := fresh "Hp" in
      assert (Hp : preserves f m) by frame;
      apply Hp in E
  end.

(** Membership of a concrete name in the keys one [run_epoch] appends to. *)
Ltac not_a_key :=
  let Hin := fresh "Hin" in
  unfold epoch_keys; simpl; intros Hin;
  repeat (apply elem_of_cons in Hin as [Hin|Hin]; [discriminate Hin|]);
  by apply elem_of_nil in Hin.

(** Membership of a concrete name in [to_track config]. *)
Ltac in_to_track :=
  unfold to_track;
  repeat match goal with
         | |- context [is_not_None ?v] => destruct (is_not_None v)
         | |- context [classification_metrics ?c] => destruct (classification_metrics c)
         end;
  simpl; try discriminate; repeat constructor.

Section Properties.
Context `{Collaborators} `{!Helpers}.

(** ** [__post_init__] *)

Lemma elif_cpu_always_true (d : device_val) :
  device_py_eq d (DevStr "cpu") || torch_device_truthy cpu = true.
Proof. unfold torch_device_truthy. apply orb_true_r. Qed.

Lemma device_py_eq_true a b : device_py_eq a b = true -> a = b.
Proof.
  destruct a as [s|[ta ia]], b as [t|[tb ib]]; simpl; try discriminate.
  - intros E%String.eqb_eq. congruence.
  - unfold torch_device_eqb. simpl. intros [E1%String.eqb_eq E2]%andb_true_iff.
    destruct ia, ib; try discriminate; [apply Z.eqb_eq in E2|]; congruence.
Qed.

Lemma resolve_optimizer_inv self w self' w' :
  resolve_optimizer self w = (Ok self', w') ->
  optimizer self' =
    (if optimizer_py_eq_str (optimizer self) "SGD" then OptObj SGD
     else if optimizer_py_eq_str (optimizer self) "AdamW" then OptObj AdamW
     else optimizer self)
  /\ device self' = device self /\ colab self' = colab self
  /\ log w' = log w /\ cuda_available w' = cuda_available w
  /\ (optimizer self' = optimizer self -> opt_state w' = opt_state w).
Proof.
  unfold resolve_optimizer, bind_optimizer.
  destruct (optimizer_py_eq_str _ "SGD") eqn:E1;
    [|destruct (optimizer_py_eq_str _ "AdamW") eqn:E2];
    intros E; prim E; simpl; repeat split; try done.
  all: intros Ho; rewrite <- Ho in *; discriminate.
Qed.

Lemma prepare_log_file_inv self w self' f w' :
  prepare_log_file self w = (Ok (self', f), w') ->
  device self' = device self /\ optimizer self' = optimizer self
  /\ log w' = log w /\ cuda_available w' = cuda_available w
  /\ opt_state w' = opt_state w.
Proof.
  unfold prepare_log_file. destruct (save_model self); intros E.
  - step E as stamp w1 E1. step E as base w2 E2. step E as u w3 E3.
    prim E. unfold mkdir in E3. case_decide; simplify_eq.
    destruct (save_path self); prim E2. done.
  - prim E. done.
Qed.

Lemma logging_basicConfig_inv f force w r w' :
  logging_basicConfig f force w = (r, w') ->
  log w' = log w /\ cuda_available w' = cuda_available w
  /\ opt_state w' = opt_state w.
Proof.
  unfold logging_basicConfig. intros E.
  destruct (can_open f), (log_handler w), force; simplify_eq; done.
Qed.

Lemma resolve_device_inv self w r w' :
  resolve_device self w = (r, w') ->
  let gpu := device_py_eq (device self) (DevStr "gpu")
             || device_py_eq (device self) (DevTorch cuda0) in
  let d := if gpu && cuda_available w then cuda0 else cpu in
  r = Ok (set_device (DevTorch d) self)
  /\ log w' = log w ++ [LogUsingDevice d] /\ opt_state w' = opt_state w.
Proof.
  unfold resolve_device. simpl.
  destruct (_ || device_py_eq _ (DevTorch cuda0)); simpl; intros E.
  - step E as cuda w1 E1. step E as u w2 E2; prim E; done.
  - rewrite elif_cpu_always_true in E. step E as u w2 E2. prim E. done.
Qed.

Lemma post_init_inv self w self' w' :
  post_init self w = (Ok self', w') ->
  let gpu := device_py_eq (device self) (DevStr "gpu")
             || device_py_eq (device self) (DevTorch cuda0) in
  let d := if gpu && cuda_available w then cuda0 else cpu in
  device self' = DevTorch d
  /\ log w' = log w ++ [LogUsingDevice d]
  /\ optimizer self' =
       (if optimizer_py_eq_str (optimizer self) "SGD" then OptObj SGD
        else if optimizer_py_eq_str (optimizer self) "AdamW" then OptObj AdamW
        else optimizer self)
  /\ (optimizer self' = optimizer self -> opt_state w' = opt_state w).
Proof.
  unfold post_init. intros E.
  step E as self1 w1 E1.
  apply resolve_optimizer_inv in E1 as (Ho & Hd & Hc & Hl & Hcu & Hst).
  step E as p w2 E2. destruct p as [self2 f].
  apply prepare_log_file_inv in E2 as (Hd2 & Ho2 & Hl2 & Hcu2 & Hst2).
  step E as u w3 E3.
  apply logging_basicConfig_inv in E3 as (Hl3 & Hcu3 & Hst3).
  apply resolve_device_inv in E as (E & Hl4 & Hst4). simplify_eq. simpl.
  rewrite Hl4, Hl3, Hl2, Hl, Hd2, Hd, Hcu3, Hcu2, Hcu, Ho2, Ho.
  repeat split; try done.
  intros Heq. rewrite Hst4, Hst3, Hst2. apply Hst. congruence.
Qed.

(** C9: after every construction that completes, [config.device] is
    [torch.device("cpu")] or [torch.device("cuda:0")].  The second test of
    the [elif] is truthy for every selector, so every selector other than
    "gpu" and [cuda:0] resolves to the CPU, and the only notice logged is
    "using device ...": the "is not available" branch is never taken. *)
Theorem post_init_device_cpu_or_cuda0 self w self' w' :
  post_init self w = (Ok self', w') ->
  (device self' = DevTorch cpu \/ device self' = DevTorch cuda0)
  /\ (forall d, device_py_eq d (DevStr "cpu") || torch_device_truthy cpu = true)
  /\ (device self <> DevStr "gpu" -> device self <> DevTorch cuda0 ->
      device self' = DevTorch cpu)
  /\ (exists d, log w' = log w ++ [LogUsingDevice d])
  /\ (forall d, log w' <> log w ++ [LogDeviceUnavailable d]).
Proof.
  intros E. apply post_init_inv in E as (Hd & Hl & _). simpl in *.
  split_and!.
  - rewrite Hd. destruct (_ && _); auto.
  - apply elif_cpu_always_true.
  - intros Hg Hc. rewrite Hd.
    destruct (device_py_eq (device self) (DevStr "gpu")) eqn:E1;
      [apply device_py_eq_true in E1; done|].
    destruct (device_py_eq (device self) (DevTorch cuda0)) eqn:E2;
      [apply device_py_eq_true in E2; done|].
    reflexivity.
  - eauto.
  - intros d Hl'. rewrite Hl in Hl'. apply app_inv_head in Hl'. discriminate.
Qed.

(** ** Runs with an unresolved optimizer selector *)

Lemma range_pos n : (1 <= n)%Z -> exists rest, range n = 0%Z :: rest.
Proof.
  intros Hn. unfold range.
  destruct (Z.to_nat n) as [|k] eqn:E; [lia|].
  simpl. eauto.
Qed.

Lemma run_batch_unbound_optimizer config s acc b w :
  optimizer config = OptStr s -> training w = true ->
  exists w', run_batch config acc b w = (Raise (AttributeError "str" "step"), w').
Proof.
  intros Ho Ht. unfold run_batch. run. rewrite Ht. run.
  unfold optimizer_step_call. rewrite Ho. run. eauto.
Qed.

Lemma run_epoch_unbound_optimizer config s epoch w :
  optimizer config = OptStr s -> training w = true ->
  training_loader config <> [] ->
  exists w', run_epoch config epoch "training" w
             = (Raise (AttributeError "str" "step"), w').
Proof.
  intros Ho Ht Hl. destruct (training_loader config) as [|b bs] eqn:Hb; [done|].
  unfold run_epoch. rewrite Hb. simpl String.eqb. cbv iota. run.
  edestruct (run_batch_unbound_optimizer config s) as (w' & E); [done| |].
  2:{ erewrite bind_raise; [eauto|]. apply E. }
  done.
Qed.

Lemma train_epoch_unbound_optimizer config s loc epoch w :
  optimizer config = OptStr s -> training_loader config <> [] ->
  exists w', train_epoch config loc epoch w
             = (Raise (AttributeError "str" "step"), w').
Proof.
  intros Ho Hl. unfold train_epoch. run.
  edestruct (run_epoch_unbound_optimizer config s epoch) as (w' & E);
    [done| |done|].
  2:{ erewrite bind_raise; [eauto|]. apply E. }
  done.
Qed.

Lemma train_unbound_optimizer config s w :
  optimizer config = OptStr s -> training_loader config <> [] ->
  (1 <= epochs config)%Z ->
  exists w', train config w = (Raise (AttributeError "str" "step"), w').
Proof.
  intros Ho Hl He. destruct (range_pos _ He) as [rest Hr].
  unfold train. rewrite Hr. run.
  edestruct (train_epoch_unbound_optimizer config s) as (w' & E); [done..|].
  erewrite bind_raise; [eauto|]. apply E.
Qed.

Lemma optimizer_py_eq_str_false s t :
  s <> t -> optimizer_py_eq_str (OptStr s) t = false.
Proof. intros Hs. simpl. by apply String.eqb_neq. Qed.

(** C1 (amended): a selector string other than "SGD" and "AdamW" is left in
    the [optimizer] field as it is: no optimizer is bound, the optimizer
    state is untouched and the only notice logged is the device's.  A later
    [train] with at least one epoch and a non-empty training loader raises
    [AttributeError] at the first [config.optimizer.step()]. *)
Theorem unrecognized_optimizer_left_unbound self s w self' w' :
  optimizer self = OptStr s -> s <> "SGD" -> s <> "AdamW" ->
  post_init self w = (Ok self', w') ->
  optimizer self' = OptStr s
  /\ opt_state w' = opt_state w
  /\ (exists d, log w' = log w ++ [LogUsingDevice d])
  /\ (training_loader self' <> [] -> (1 <= epochs self')%Z ->
      forall w0, exists w1,
        train self' w0 = (Raise (AttributeError "str" "step"), w1)).
Proof.
  intros Ho H1 H2 E. apply post_init_inv in E as (_ & Hl & Ho' & Hst).
  rewrite Ho in Ho'. rewrite !optimizer_py_eq_str_false in Ho' by done.
  split_and!; eauto.
  - apply Hst. congruence.
  - intros Hne He w0. by eapply train_unbound_optimizer.
Qed.

(** ** [run_epoch] *)

Lemma optimizer_step_call_raises config :
  raises_only (fun e => e = AttributeError "str" "step") (optimizer_step_call config).
Proof.
  unfold optimizer_step_call. destruct (optimizer config).
  - by apply raises_only_raise.
  - intros w e w' E. destruct (optimizer_step _ _ _). simplify_eq.
Qed.

Lemma optimizer_zero_grad_call_after_step config w w' :
  optimizer_step_call config w = (Ok tt, w') ->
  raises_only (fun _ => False) (optimizer_zero_grad_call config).
Proof.
  unfold optimizer_step_call, optimizer_zero_grad_call.
  destruct (optimizer config); intros E; [prim E|]. apply raises_only_modify.
Qed.

Lemma run_batch_raises config acc b :
  raises_only (fun e => e = AttributeError "str" "step") (run_batch config acc b).
Proof.
  intros w e w' E. unfold run_batch in E.
  step E as p w1 E1. step E as mode w2 E2. step E as u w3 E3.
  - destruct (_ && _); prim E.
  - destruct (training _); [|prim E3].
    step E3 as u1 w4 E4. step E3 as u2 w5 E5.
    + destruct u2. eapply optimizer_zero_grad_call_after_step in E5.
      by apply E5 in E3.
    + by apply optimizer_step_call_raises in E5.
Qed.

Lemma run_batch_eval config acc b w :
  training w = false ->
  exists acc', run_batch config acc b w = (Ok acc', w)
    /\ x_last acc' = Some (moveTo b.1 (device config)).
Proof.
  intros Ht. unfold run_batch. run. rewrite Ht. run.
  destruct (_ && _); eexists; split; reflexivity.
Qed.

Lemma for_each_run_batch_eval config bs acc w :
  training w = false ->
  exists acc', for_each (run_batch config) bs acc w = (Ok acc', w).
Proof.
  intros Ht. revert acc. induction bs as [|b bs IH]; intros acc; simpl.
  - eexists. reflexivity.
  - destruct (run_batch_eval config acc b w Ht) as (acc1 & E & _).
    rewrite (bind_ok _ _ _ _ _ E). apply IH.
Qed.


(** C5: a [run_epoch] call made while the model is in evaluation mode leaves
    the parameters unchanged, for every loader and whatever the outcome:
    no backward pass, optimizer step or gradient reset happens, so the
    gradients and the optimizer state are unchanged too. *)
Theorem run_epoch_eval_keeps_parameters config epoch prefix w r w' :
  training w = false ->
  run_epoch config epoch prefix w = (r, w') ->
  parameters w' = parameters w /\ grad w' = grad w
  /\ opt_state w' = opt_state w.
Proof.
  intros Ht E.
  cut (model_state w' = model_state w).
  { unfold model_state. intros [= -> -> ->]. done. }
  unfold run_epoch in E.
  step E as start w1 E1. step E as loader w2 E2; [|done]. 
  step E as batches w3 E3; [|done].
  destruct (for_each_run_batch_eval config batches (mkAcc [] [] [] None)
              (set_ticks (S (ticks w)) w) Ht) as (acc & Eloop).
  rewrite (bind_ok _ _ _ _ _ Eloop) in E.
  frame_in E model_state. rewrite E. reflexivity.
Qed.

(** C6: when [run_epoch] returns, its second component is the pair of the
    accumulated true labels and predictions exactly when [epoch] is
    [config.epochs - 1] and the prefix is "validation"; otherwise it is
    [None]. *)
Theorem run_epoch_snapshot config epoch prefix w elapsed vr x w' :
  run_epoch config epoch prefix w = (Ok (elapsed, vr, x), w') ->
  exists batches acc w1,
    (prefix = "training" /\ batches = training_loader config
     \/ prefix = "validation" /\ validation_loader config = Some batches)
    /\ for_each (run_batch config) batches (mkAcc [] [] [] None)
         (set_ticks (S (ticks w)) w) = (Ok acc, w1)
    /\ (vr = Some (y_true acc, as_labels (y_pred acc))
          /\ epoch = (epochs config - 1)%Z /\ prefix = "validation"
        \/ vr = None
          /\ ~ (epoch = (epochs config - 1)%Z /\ prefix = "validation")).
Proof.
  intros E. unfold run_epoch in E.
  step E as start w1 E1. step E as loader w2 E2. step E as batches w3 E3.
  step E as acc w4 E4. step E as end_ w5 E5. step E as u1 w6 E6.
  step E as u2 w7 E7. step E as u3 w8 E8. step E as vr' w9 E9.
  step E as x' w10 E10. prim E.
  exists batches, acc, w4. split_and!.
  - destruct (String.eqb_spec prefix "validation") as [->|Hv].
    + right. simpl in Heqo. simplify_eq. done.
    + destruct (String.eqb_spec prefix "training") as [->|Ht]; [|done].
      left. simplify_eq. done.
  - done.
  - destruct ((epochs config - 1 =? epoch)%Z && String.eqb prefix "validation") eqn:Ec.
    + apply andb_true_iff in Ec as [Ee%Z.eqb_eq Ep%String.eqb_eq].
      step E9 as u4 w11 E11. prim E9. left. done.
    + prim E9. right. split; [done|]. intros [-> ->].
      rewrite Z.eqb_refl in Ec. done.
Qed.

Lemma run_epoch_bound_loader config epoch prefix :
  prefix = "training" \/ prefix = "validation" ->
  raises_only not_data_loader (run_epoch config epoch prefix).
Proof.
  intros Hp. unfold run_epoch.
  assert (exists l, (if String.eqb prefix "validation"
                     then Some (validation_loader config)
                     else if String.eqb prefix "training"
                          then Some (Some (training_loader config)) else None)
                    = Some l) as [l ->].
  { destruct Hp as [-> | ->]; simpl; eauto. }
  raises.
  all: try (apply raises_only_results_append; done).
  all: try (apply raises_only_read_local; done).
  - by apply raises_only_iterate.
  - eapply raises_only_weaken; [apply run_batch_raises|]. by intros ? ->.
Qed.

(** C10: [run_epoch] raises the [UnboundLocalError] (a [NameError]) for
    [data_loader] exactly when the prefix is neither "training" nor
    "validation"; so it can only return under that precondition. *)
Theorem run_epoch_prefix_precondition config epoch prefix w :
  ((run_epoch config epoch prefix w).1 = Raise (UnboundLocalError "data_loader")
   <-> prefix <> "training" /\ prefix <> "validation")
  /\ (forall v, (run_epoch config epoch prefix w).1 = Ok v ->
      prefix = "training" \/ prefix = "validation").
Proof.
  assert (Hother : prefix <> "training" -> prefix <> "validation" ->
            (run_epoch config epoch prefix w).1
            = Raise (UnboundLocalError "data_loader")).
  { intros Ht%String.eqb_neq Hv%String.eqb_neq. unfold run_epoch.
    rewrite Ht, Hv. run. reflexivity. }
  assert (Hcases : prefix = "training" \/ prefix = "validation"
                   \/ (prefix <> "training" /\ prefix <> "validation")).
  { destruct (decide (prefix = "training")); [by left|].
    destruct (decide (prefix = "validation")); [by right; left|].
    by right; right. }
  split; [split|].
  - intros E. destruct Hcases as [Hp|[Hp|Hp]]; [| |done].
    all: destruct (run_epoch config epoch prefix w) as [r w'] eqn:Er;
      simpl in E; subst r;
      apply run_epoch_bound_loader in Er; [done|auto].
  - intros [Ht Hv]. auto.
  - intros v E. destruct Hcases as [Hp|[Hp|[Ht Hv]]]; auto.
    rewrite Hother in E by done. discriminate.
Qed.
(** *** What [run_epoch] does to the shared store *)

Lemma preserves_optimizer_step_call {X} (f : World -> X) config :
  (forall st p g w, f (set_opt_state st (set_model p g w)) = f w) ->
  preserves f (optimizer_step_call config).
Proof.
  intros Hf. unfold optimizer_step_call. destruct (optimizer config).
  - apply preserves_raise.
  - intros w r w' E. destruct (optimizer_step _ _ _). simplify_eq. apply Hf.
Qed.

Lemma preserves_run_batch {X} (f : World -> X) config acc b :
  (forall st p g w, f (set_opt_state st (set_model p g w)) = f w) ->
  (forall p g w, f (set_model p g w) = f w) ->
  preserves f (run_batch config acc b).
Proof.
  intros Hf1 Hf2. unfold run_batch, loss_backward_call, optimizer_zero_grad_call.
  repeat first [ apply preserves_optimizer_step_call; assumption
               | apply preserves_modify; intros; apply Hf2
               | progress frame ].
Qed.

Lemma preserves_run_epoch {X} (f : World -> X) config epoch prefix :
  (forall st p g w, f (set_opt_state st (set_model p g w)) = f w) ->
  (forall p g w, f (set_model p g w) = f w) ->
  (forall n w, f (set_ticks n w) = f w) ->
  (forall l w, f (set_log l w) = f w) ->
  (forall key v, key ∈ epoch_keys prefix -> preserves f (results_append key v)) ->
  preserves f (run_epoch config epoch prefix).
Proof.
  intros Hf1 Hf2 Hf3 Hf4 Hf5. unfold run_epoch.
  repeat first [ apply preserves_run_batch; assumption
               | apply preserves_time_time; assumption
               | apply preserves_logging_info; assumption
               | apply Hf5; unfold epoch_keys; set_solver
               | progress frame ].
Qed.

Lemma preserves_lookup_results_append k key v :
  k <> key -> preserves (fun w => results w !! k) (results_append key v).
Proof.
  intros Hk w r w'. unfold results_append.
  destruct (results w !! key); intros [= <- <-]; [|done].
  simpl. by rewrite lookup_insert_ne.
Qed.

Lemma preserves_dom_results_append key v :
  preserves (fun w => dom (results w)) (results_append key v).
Proof.
  intros w r w'. unfold results_append.
  destruct (results w !! key) eqn:Ek; intros [= <- <-]; [|done].
  simpl. rewrite dom_insert_L. apply subseteq_union_1_L.
  apply singleton_subseteq_l. by eapply elem_of_dom_2.
Qed.

Lemma results_append_ok key v w w' :
  results_append key v w = (Ok tt, w') ->
  exists l, results w !! key = Some l
    /\ w' = set_results (<[key := l ++ [v]]> (results w)) w.
Proof.
  unfold results_append. destruct (results w !! key) eqn:Ek; intros E; simplify_eq.
  eauto.
Qed.

Lemma string_app_inv_head (p a b : string) : p +:+ a = p +:+ b -> a = b.
Proof. induction p as [|c p IH]; simpl; [done|]. intros [= E]. auto. Qed.

Lemma run_epoch_preserves_other_series config epoch prefix k :
  k ∉ epoch_keys prefix ->
  preserves (fun w => results w !! k) (run_epoch config epoch prefix).
Proof.
  intros Hk. apply preserves_run_epoch; try reflexivity.
  intros key v Hkey. apply preserves_lookup_results_append. by intros ->.
Qed.

Lemma run_epoch_preserves_dom config epoch prefix :
  preserves (fun w => dom (results w)) (run_epoch config epoch prefix).
Proof.
  apply preserves_run_epoch; try reflexivity.
  intros. apply preserves_dom_results_append.
Qed.

Lemma run_epoch_preserves_events config epoch prefix :
  preserves events (run_epoch config epoch prefix).
Proof.
  apply preserves_run_epoch; try reflexivity.
  intros. apply preserves_results_append. reflexivity.
Qed.

Lemma run_epoch_appends_loss config epoch prefix w r w' :
  run_epoch config epoch prefix w = (Ok r, w') ->
  exists l v, results w !! (prefix +:+ "_loss") = Some l
    /\ results w' !! (prefix +:+ "_loss") = Some (l ++ [v]).
Proof.
  intros E. unfold run_epoch in E.
  step E as start w1 E1. step E as loader w2 E2. step E as batches w3 E3.
  step E as acc w4 E4. step E as end_ w5 E5. step E as u1 w6 E6.
  step E as u2 w7 E7. destruct u2.
  apply results_append_ok in E7 as (l & Hl & ->).
  frame_in E results. rewrite E. exists l. eexists.
  split; [|by simpl; rewrite lookup_insert_eq].
  rewrite <- Hl.
  assert (Hloop : preserves (fun w => results w !! (prefix +:+ "_loss"))
            (for_each (run_batch config) batches (mkAcc [] [] [] None))).
  { apply preserves_for_each. intros. by apply preserves_run_batch. }
  apply Hloop in E4. simpl in E4. rewrite <- E4.
  destruct (classification_metrics config); [|by prim E6].
  match type of E6 with ?m _ = _ =>
    assert (Hm : preserves (fun w => results w !! (prefix +:+ "_loss")) m) end.
  { frame; apply preserves_lookup_results_append;
      intros E'%string_app_inv_head; discriminate. }
  by apply Hm in E6.
Qed.
(** ** [train] *)

Lemma validation_pass_preserves_other_series config loc epoch k :
  k ∉ epoch_keys "validation" ->
  preserves (fun w => results w !! k) (validation_pass config loc epoch).
Proof.
  intros Hk. unfold validation_pass.
  repeat first [ by apply run_epoch_preserves_other_series | progress frame ].
Qed.

Lemma validation_pass_preserves_events config loc epoch :
  preserves events (validation_pass config loc epoch).
Proof.
  unfold validation_pass.
  repeat first [ by apply run_epoch_preserves_events | progress frame ].
Qed.

Lemma validation_pass_appends_loss config loc epoch w r w' :
  is_not_None (validation_loader config) = true ->
  validation_pass config loc epoch w = (Ok r, w') ->
  exists l v, results w !! "validation_loss" = Some l
    /\ results w' !! "validation_loss" = Some (l ++ [v]).
Proof.
  intros Hv E. unfold validation_pass in E. rewrite Hv in E.
  step E as u w1 E1. step E as r1 w2 E2. destruct r1 as [[t vr] x]. prim E.
  unfold with_no_grad in E2. destruct (run_epoch _ _ _ _) as [r2 w3] eqn:E3.
  simplify_eq. apply run_epoch_appends_loss in E3. exact E3.
Qed.

Lemma save_checkpoint_ok tag loc w w' :
  save_checkpoint tag loc w = (Ok tt, w') ->
  results w' = results w
  /\ checkpoint_tags (events w') = checkpoint_tags (events w) ++ [tag].
Proof.
  unfold save_checkpoint. intros E.
  step E as res w1 E1. step E as vr w2 E2. step E as xs w3 E3. prim E.
  split; [done|]. simpl. unfold checkpoint_tags. by rewrite omap_app.
Qed.

Lemma train_epoch_ok config loc epoch w loc' w' :
  train_epoch config loc epoch w = (Ok loc', w') ->
  (exists l, results w !! "epoch" = Some l
     /\ results w' !! "epoch" = Some (l ++ [RInt (epoch + 1)]))
  /\ (exists l v, results w !! "epoch_time" = Some l
     /\ results w' !! "epoch_time" = Some (l ++ [v]))
  /\ (is_not_None (validation_loader config) = true ->
      exists l v, results w !! "validation_loss" = Some l
        /\ results w' !! "validation_loss" = Some (l ++ [v]))
  /\ checkpoint_tags (events w') =
     checkpoint_tags (events w)
     ++ (if checkpointed config epoch then [TagEpoch epoch] else []).
Proof.
  intros E. unfold train_epoch in E.
  step E as u w1 E1. step E as r1 w2 E2. destruct r1 as [[epoch_time vr0] x].
  step E as row w2' Erow.
  step E as vr w3 E3. step E as u1 w4 E4. step E as u2 w5 E5.
  step E as u3 w6 E6. prim E. destruct u1, u2, u3.
  apply results_append_ok in E4 as (le & Hle & ->).
  apply results_append_ok in E5 as (lt & Hlt & ->).
  simpl in Hlt. rewrite lookup_insert_ne in Hlt by done.
  assert (Hck : results w' = <["epoch_time":=lt ++ [RFloat epoch_time]]>
                               (<["epoch":=le ++ [RInt (epoch + 1)]]> (results w3))
                /\ checkpoint_tags (events w') =
                   checkpoint_tags (events w3)
                   ++ (if checkpointed config epoch then [TagEpoch epoch] else [])).
  { destruct (checkpointed config epoch).
    - apply save_checkpoint_ok in E6 as [-> ->]. done.
    - prim E6. simpl. by rewrite app_nil_r. }
  destruct Hck as [Hres Hev].
  assert (Hpre : forall k, k ∉ epoch_keys "training" -> k ∉ epoch_keys "validation" ->
                   results w3 !! k = results w !! k).
  { intros k Hk1 Hk2.
    apply (validation_pass_preserves_other_series _ _ _ k Hk2) in E3 as ->.
    by apply (run_epoch_preserves_other_series _ _ _ k Hk1) in E2 as ->. }
  assert (Hev3 : events w3 = events w).
  { apply validation_pass_preserves_events in E3 as ->.
    by apply run_epoch_preserves_events in E2 as ->. }
  rewrite Hres, Hev, Hev3. split_and!.
  - exists le. rewrite <- Hpre, Hle by not_a_key. split; [done|].
    rewrite lookup_insert_ne by done. by rewrite lookup_insert_eq.
  - exists lt. eexists. rewrite <- Hpre, Hlt by not_a_key. split; [done|].
    by rewrite lookup_insert_eq.
  - intros Hv. destruct (validation_pass_appends_loss _ _ _ _ _ _ Hv E3)
      as (l & v & Hl & Hl').
    exists l, v. rewrite !lookup_insert_ne by done. split; [|done].
    rewrite <- Hl. symmetry.
    by apply (run_epoch_preserves_other_series _ _ _ "validation_loss") in E2;
      [|not_a_key].
  - done.
Qed.

Lemma epochs_loop_ok config es : forall loc w loc' w',
  for_each (train_epoch config) es loc w = (Ok loc', w') ->
  (forall l, results w !! "epoch" = Some l ->
     results w' !! "epoch" = Some (l ++ ((fun e => RInt (e + 1)) <$> es)))
  /\ (forall l, results w !! "epoch_time" = Some l ->
     exists l', results w' !! "epoch_time" = Some (l ++ l')
       /\ length l' = length es)
  /\ (is_not_None (validation_loader config) = true ->
      forall l, results w !! "validation_loss" = Some l ->
      exists l', results w' !! "validation_loss" = Some (l ++ l')
        /\ length l' = length es)
  /\ checkpoint_tags (events w') =
     checkpoint_tags (events w)
     ++ (TagEpoch <$> List.filter (checkpointed config) es).
Proof.
  induction es as [|e es IH]; intros loc w loc' w' E; simpl in E.
  - prim E. split_and!.
    + intros l ->. by rewrite app_nil_r.
    + intros l ->. exists []. by rewrite app_nil_r.
    + intros _ l ->. exists []. by rewrite app_nil_r.
    + simpl. by rewrite app_nil_r.
  - step E as loc1 w1 E1.
    apply train_epoch_ok in E1 as ((le & Hle & Hle') & (lt & vt & Hlt & Hlt') & Hv & Hev).
    apply IH in E as (IHe & IHt & IHv & IHev). split_and!.
    + intros l Hl. rewrite Hle in Hl. injection Hl as ->.
      rewrite (IHe _ Hle'). by rewrite <- app_assoc.
    + intros l Hl. rewrite Hlt in Hl. injection Hl as ->.
      destruct (IHt _ Hlt') as (l' & -> & Hlen).
      exists (vt :: l'). rewrite <- app_assoc. split; [done|]. simpl. by rewrite Hlen.
    + intros Hval l Hl. destruct (Hv Hval) as (lv & vv & Hlv & Hlv').
      rewrite Hlv in Hl. injection Hl as ->.
      destruct (IHv Hval _ Hlv') as (l' & -> & Hlen).
      exists (vv :: l'). rewrite <- app_assoc. split; [done|]. simpl. by rewrite Hlen.
    + rewrite IHev, Hev, <- app_assoc. f_equal. simpl.
      by destruct (checkpointed config e).
Qed.

Lemma lookup_fresh_results_aux names : forall (d : gmap string (list rval)) k,
  foldl (fun d name => <[name := []]> d) d names !! k
  = if decide (k ∈ names) then Some [] else d !! k.
Proof.
  induction names as [|n names IH]; intros d k; cbn [foldl].
  - rewrite decide_False; [done|]. apply not_elem_of_nil.
  - rewrite IH. destruct (decide (k ∈ names)) as [Hin|Hnin].
    + rewrite decide_True; [done|]. apply elem_of_cons. by right.
    + destruct (decide (k = n)) as [->|Hne].
      * rewrite lookup_insert_eq. rewrite decide_True; [done|].
        apply elem_of_cons. by left.
      * rewrite lookup_insert_ne by done. rewrite decide_False; [done|].
        by intros [?|?]%elem_of_cons.
Qed.

Lemma lookup_fresh_results names k :
  fresh_results names !! k = if decide (k ∈ names) then Some [] else None.
Proof. unfold fresh_results. by rewrite lookup_fresh_results_aux, lookup_empty. Qed.

Lemma length_range n : length (range n) = Z.to_nat n.
Proof. unfold range. by rewrite length_fmap, length_seq. Qed.

Lemma to_track_epoch config : "epoch" ∈ to_track config.
Proof. in_to_track. Qed.

Lemma to_track_epoch_time config : "epoch_time" ∈ to_track config.
Proof. in_to_track. Qed.

Lemma to_track_validation_loss config :
  is_not_None (validation_loader config) = true ->
  "validation_loss" ∈ to_track config.
Proof. in_to_track. Qed.

Lemma save_checkpoint_preserves_results tag loc :
  preserves results (save_checkpoint tag loc).
Proof. unfold save_checkpoint. frame. Qed.

Lemma report_classification_preserves_results config loc :
  preserves results (report_classification config loc).
Proof. unfold report_classification. frame. Qed.

Lemma train_ok config w w' :
  train config w = (Ok tt, w') ->
  results w' !! "epoch" = Some ((fun e => RInt (e + 1)) <$> range (epochs config))
  /\ (exists l, results w' !! "epoch_time" = Some l
        /\ length l = Z.to_nat (epochs config))
  /\ (is_not_None (validation_loader config) = true ->
      exists l, results w' !! "validation_loss" = Some l
        /\ length l = Z.to_nat (epochs config)).
Proof.
  intros E. unfold train in E.
  step E as u1 w1 E1. step E as u2 w2 E2. step E as u3 w3 E3.
  step E as loc w4 E4.
  apply epochs_loop_ok in E4 as (He & Ht & Hv & _). simpl in *.
  assert (Hres : results w' = results w4).
  { revert E. 
    match goal with |- ?m _ = _ -> _ =>
      assert (Hp : preserves results m)
    end.
    { repeat first [ apply save_checkpoint_preserves_results
                   | apply report_classification_preserves_results
                   | progress frame ]. }
    apply Hp. }
  rewrite Hres. split_and!.
  - rewrite (He []); [done|]. rewrite lookup_fresh_results.
    rewrite decide_True; [done|]. apply to_track_epoch.
  - destruct (Ht []) as (l & -> & Hl).
    { rewrite lookup_fresh_results.
      rewrite decide_True; [done|]. apply to_track_epoch_time. }
    exists l. by rewrite Hl, length_range.
  - intros Hval. destruct (Hv Hval []) as (l & -> & Hl).
    { rewrite lookup_fresh_results.
      rewrite decide_True; [done|]. by apply to_track_validation_loss. }
    exists l. by rewrite Hl, length_range.
Qed.
Lemma preserves_tags_emit ev :
  checkpoint_tag_of ev = None -> preserves checkpoints (emit ev).
Proof.
  intros Hev w r w' E. prim E. unfold checkpoints, checkpoint_tags. simpl.
  rewrite omap_app. simpl. rewrite Hev. apply app_nil_r.
Qed.

Lemma report_classification_preserves_tags config loc :
  preserves checkpoints (report_classification config loc).
Proof.
  unfold report_classification.
  repeat first [ by apply preserves_tags_emit | progress frame ].
Qed.

Lemma train_tags config w w' :
  train config w = (Ok tt, w') ->
  checkpoints w' = checkpoints w
    ++ (TagEpoch <$> List.filter (checkpointed config) (range (epochs config)))
    ++ (if save_model config then [TagLast] else []).
Proof.
  intros E. unfold train in E.
  step E as u1 w1 E1. step E as u2 w2 E2. step E as u3 w3 E3.
  step E as loc w4 E4. step E as u4 w5 E5. destruct u4.
  apply epochs_loop_ok in E4 as (_ & _ & _ & Hloop). simpl in Hloop.
  assert (Hlast : checkpoints w5 = checkpoints w4 ++ (if save_model config then [TagLast] else [])).
  { destruct (save_model config).
    - by apply save_checkpoint_ok in E5 as [_ ?].
    - prim E5. by rewrite app_nil_r. }
  assert (Hrest : checkpoints w' = checkpoints w5).
  { revert E.
    match goal with |- ?m _ = _ -> _ => assert (Hp : preserves checkpoints m) end.
    { repeat first [ apply report_classification_preserves_tags
                   | by apply preserves_tags_emit
                   | progress frame ]. }
    apply Hp. }
  rewrite Hrest, Hlast. unfold checkpoints at 1. rewrite Hloop. by rewrite <- app_assoc.
Qed.

Lemma train_epoch_preserves_events config loc epoch :
  checkpoint_epochs config = None ->
  preserves events (train_epoch config loc epoch).
Proof.
  intros Hc. unfold train_epoch, checkpointed. rewrite Hc.
  repeat first [ apply run_epoch_preserves_events
               | apply validation_pass_preserves_events
               | progress frame ].
Qed.


Lemma validation_pass_preserves_dom config loc epoch :
  preserves series_keys (validation_pass config loc epoch).
Proof.
  unfold validation_pass.
  repeat first [ apply run_epoch_preserves_dom | progress frame ].
Qed.

Lemma train_epoch_preserves_dom config loc epoch :
  preserves series_keys (train_epoch config loc epoch).
Proof.
  unfold train_epoch, save_checkpoint.
  repeat first [ apply run_epoch_preserves_dom
               | apply validation_pass_preserves_dom
               | apply preserves_dom_results_append
               | progress frame ].
Qed.

Lemma train_series_keys config w r w' :
  train config w = (r, w') ->
  forall k, is_Some (results w' !! k) <-> k ∈ to_track config.
Proof.
  intros E k. unfold train in E.
  step E as u1 w1 E1. step E as u2 w2 E2.
  assert (Hdom : series_keys w' = dom (fresh_results (to_track config))).
  { revert E.
    match goal with |- ?m _ = _ -> _ => assert (Hp : preserves series_keys m) end.
    { unfold save_checkpoint, report_classification.
      repeat first [ apply preserves_for_each; intros ? ?
                   | apply train_epoch_preserves_dom
                   | progress frame ]. }
    intros E. by apply Hp in E. }
  rewrite <- elem_of_dom. fold (series_keys w'). rewrite Hdom, elem_of_dom.
  rewrite lookup_fresh_results. case_decide; [by split|].
  split; [by intros [? ?]|done].
Qed.

Lemma to_track_without_validation config k :
  validation_loader config = None -> k ∈ to_track config ->
  String.prefix "validation" k = false.
Proof.
  intros Hv. unfold to_track. rewrite Hv.
  destruct (classification_metrics config); simpl; intros Hin;
    repeat (apply elem_of_cons in Hin as [->|Hin]; [reflexivity|]);
    by apply elem_of_nil in Hin.
Qed.
Lemma epoch_numbers_from_one n :
  (fun e => RInt (e + 1)) <$> range n = RInt <$> seqZ 1 n.
Proof.
  unfold range, seqZ. rewrite <- !list_fmap_compose.
  apply list_fmap_ext. intros i x _. reflexivity.
Qed.

(** C2: for every epoch count [E >= 1], after [train] completes the "epoch"
    and "epoch_time" series have exactly [E] entries each. *)
Theorem train_epoch_series_lengths config w w' :
  (1 <= epochs config)%Z ->
  train config w = (Ok tt, w') ->
  exists le lt,
    results w' !! "epoch" = Some le
    /\ results w' !! "epoch_time" = Some lt
    /\ Z.of_nat (length le) = epochs config
    /\ Z.of_nat (length lt) = epochs config.
Proof.
  intros HE E. apply train_ok in E as (He & (lt & Ht & Hlt) & _).
  eexists _, lt. split_and!; [exact He|exact Ht| |lia].
  rewrite length_fmap, length_range. lia.
Qed.

(** C3 (amended): [train] visits the epochs [0, ..., E-1] in order and
    records [epoch + 1] for each, so after a successful run the "epoch"
    series is [1, 2, ..., E]. *)
Theorem train_epoch_series_one_based config w w' :
  (1 <= epochs config)%Z ->
  train config w = (Ok tt, w') ->
  results w' !! "epoch" = Some (RInt <$> seqZ 1 (epochs config)).
Proof.
  intros _ E. apply train_ok in E as (He & _).
  by rewrite He, epoch_numbers_from_one.
Qed.



(** C7: with a validation loader, "validation_loss" has exactly [E] entries
    after [train] completes; without one, no name starting with
    "validation" is a key of the results, whatever the outcome of the run. *)
Theorem train_validation_series config w :
  (forall v w',
     validation_loader config = Some v ->
     (0 <= epochs config)%Z ->
     train config w = (Ok tt, w') ->
     exists l, results w' !! "validation_loss" = Some l
       /\ Z.of_nat (length l) = epochs config)
  /\ (forall r w' k,
       validation_loader config = None ->
       train config w = (r, w') ->
       String.prefix "validation" k = true ->
       results w' !! k = None).
Proof.
  split.
  - intros v w' Hv HE E. apply train_ok in E as (_ & _ & Hval).
    destruct Hval as (l & Hl & Hlen); [by rewrite Hv|].
    exists l. split; [done|lia].
  - intros r w' k Hv E Hk.
    destruct (results w' !! k) eqn:Ek; [|done].
    assert (Hin : k ∈ to_track config).
    { eapply train_series_keys; [exact E|]. by rewrite Ek. }
    apply (to_track_without_validation _ _ Hv) in Hin. congruence.
Qed.

(** *** Runs without a validation loader *)

Lemma save_checkpoint_unbound tag loc w :
  validation_result loc = None ->
  save_checkpoint tag loc w = (Raise (UnboundLocalError "validation_result"), w).
Proof. intros Hv. unfold save_checkpoint. run. rewrite Hv. reflexivity. Qed.

Lemma validation_pass_without_loader config loc epoch w :
  validation_loader config = None ->
  validation_pass config loc epoch w = (Ok (validation_result loc), w).
Proof. intros Hv. unfold validation_pass. rewrite Hv. reflexivity. Qed.

Lemma train_epoch_without_validation config loc epoch w r w' :
  validation_loader config = None -> validation_result loc = None ->
  train_epoch config loc epoch w = (r, w') ->
  events w' = events w
  /\ (forall loc', r = Ok loc' ->
        validation_result loc' = None /\ checkpointed config epoch = false).
Proof.
  intros Hv Hvr E. unfold train_epoch in E.
  step E as u w1 E1.
  step E as r1 w2 E2; [|by apply run_epoch_preserves_events in E2].
  destruct r1 as [[epoch_time vr0] x].
  step E as row w2' Erow; [|by apply run_epoch_preserves_events in E2].
  apply run_epoch_preserves_events in E2. simpl in E2.
  rewrite (bind_ok _ _ _ _ _ (validation_pass_without_loader _ _ _ _ Hv)) in E.
  rewrite Hvr in E.
  step E as u1 w4 E4; [|by frame_in E4 events; rewrite E4].
  frame_in E4 events.
  step E as u2 w5 E5; [|by frame_in E5 events; rewrite E5, E4].
  frame_in E5 events.
  destruct (checkpointed config epoch).
  - erewrite bind_raise in E by (by apply save_checkpoint_unbound).
    simplify_eq. split; [congruence|done].
  - rewrite run_ret in E. prim E. split; [congruence|]. by intros ? [= <-].
Qed.

Lemma epochs_loop_without_validation config es : forall loc w r w',
  validation_loader config = None -> validation_result loc = None ->
  for_each (train_epoch config) es loc w = (r, w') ->
  events w' = events w
  /\ (forall loc', r = Ok loc' ->
        validation_result loc' = None
        /\ forall e, e ∈ es -> checkpointed config e = false).
Proof.
  induction es as [|e es IH]; intros loc w r w' Hv Hvr E; simpl in E.
  - prim E. split; [done|]. intros ? [= <-]. split; [done|].
    by intros e ?%elem_of_nil.
  - step E as loc1 w1 E1.
    + apply (train_epoch_without_validation _ _ _ _ _ _ Hv Hvr) in E1 as [Hev Hok].
      destruct (Hok _ eq_refl) as [Hvr1 Hck].
      apply (IH _ _ _ _ Hv Hvr1) in E as [Hev' Hok'].
      split; [congruence|]. intros loc' ->.
      destruct (Hok' _ eq_refl) as [? Hall]. split; [done|].
      intros e' [->|?]%elem_of_cons; auto.
    + apply (train_epoch_without_validation _ _ _ _ _ _ Hv Hvr) in E1 as [Hev _].
      done.
Qed.



(** ** The outcome of one pass *)

Lemma run_epoch_unfold config epoch prefix :
  run_epoch config epoch prefix =
  (start ← time_time;
   loader ← read_local "data_loader" (selected_loader config prefix);
   batches ← iterate loader;
   acc ← for_each (run_batch config) batches (mkAcc [] [] [] None);
   finish_epoch config epoch prefix start acc).
Proof. reflexivity. Qed.

Lemma push_is_Some (d : gmap string (list rval)) kv k :
  is_Some (d !! k) -> is_Some (push d kv !! k).
Proof.
  intros Hk. unfold push. destruct (decide (kv.1 = k)) as [->|Hne].
  - rewrite lookup_insert_eq. eauto.
  - by rewrite lookup_insert_ne.
Qed.

Lemma run_results_append_push {B} key v (k : unit -> M B) w :
  is_Some (results w !! key) ->
  (results_append key v ≫= k) w
  = k tt (set_results (push (results w) (key, v)) w).
Proof.
  intros [l Hl]. unfold mbind, M_bind, results_append, push.
  simpl. by rewrite Hl.
Qed.

Lemma finish_epoch_run config epoch prefix start acc w :
  (forall k, k ∈ active_keys config prefix -> is_Some (results w !! k)) ->
  finish_epoch config epoch prefix start acc w =
  (match x_last acc with
   | Some x => Ok (scalar_sub (clock (ticks w)) start,
                   epoch_snapshot config epoch prefix acc, x)
   | None => Raise (UnboundLocalError "x")
   end,
   finished_world config epoch prefix start acc w).
Proof.
  intros Hk. unfold finish_epoch, finished_world, epoch_entries,
    epoch_messages, epoch_snapshot.
  unfold active_keys in Hk. run.
  destruct (classification_metrics config); simpl in Hk.
  - run. rewrite run_results_append_push
      by (simpl; apply Hk; rewrite !elem_of_cons; auto).
    run. rewrite run_results_append_push
      by (simpl; apply push_is_Some, Hk; rewrite !elem_of_cons; auto).
    run. rewrite run_results_append_push
      by (simpl; do 2 apply push_is_Some; apply Hk; rewrite !elem_of_cons; auto).
    run. rewrite run_results_append_push
      by (simpl; do 3 apply push_is_Some; apply Hk; rewrite !elem_of_cons; auto).
    run. rewrite run_results_append_push
      by (simpl; do 4 apply push_is_Some; apply Hk; rewrite !elem_of_cons; auto 10).
    destruct (negb (progress_bar config) && String.eqb prefix "training"),
      ((epochs config - 1 =? epoch)%Z && String.eqb prefix "validation"),
      (x_last acc); run; try reflexivity.
    all: simpl; rewrite ?app_nil_r, <- ?app_assoc; reflexivity.
  - run. rewrite run_results_append_push
      by (simpl; apply Hk; rewrite !elem_of_cons; auto).
    destruct (negb (progress_bar config) && String.eqb prefix "training"),
      ((epochs config - 1 =? epoch)%Z && String.eqb prefix "validation"),
      (x_last acc); run; try reflexivity.
    all: simpl; rewrite ?app_nil_r, <- ?app_assoc; reflexivity.
Qed.

Lemma results_append_ok_keys key v w w' k :
  results_append key v w = (Ok tt, w') ->
  is_Some (results w !! key)
  /\ (is_Some (results w' !! k) -> is_Some (results w !! k)).
Proof.
  intros E. apply results_append_ok in E as (l & Hl & ->). split; [eauto|].
  simpl. destruct (decide (key = k)) as [->|Hne].
  - eauto.
  - by rewrite lookup_insert_ne.
Qed.

Lemma finish_epoch_ok_keys config epoch prefix start acc w r w' :
  finish_epoch config epoch prefix start acc w = (Ok r, w') ->
  forall k, k ∈ active_keys config prefix -> is_Some (results w !! k).
Proof.
  intros E k Hk. unfold finish_epoch in E. unfold active_keys in Hk.
  step E as end_ w1 E1. step E as u1 w2 E2. step E as u2 w3 E3. destruct u2.
  apply (results_append_ok_keys _ _ _ _ k) in E3 as [Hloss Hback3].
  destruct (classification_metrics config); simpl in Hk.
  - step E2 as u3 w4 E4. step E2 as u4 w5 E5. step E2 as u5 w6 E6.
    destruct u1, u3, u4, u5.
    apply (results_append_ok_keys _ _ _ _ k) in E4 as [H4 Hb4].
    pose proof (results_append_ok_keys _ _ _ _ (prefix +:+ "_loss") E5) as [_ Hl5].
    apply (results_append_ok_keys _ _ _ _ k) in E5 as [H5 Hb5].
    pose proof (results_append_ok_keys _ _ _ _ (prefix +:+ "_loss") E6) as [_ Hl6].
    apply (results_append_ok_keys _ _ _ _ k) in E6 as [H6 Hb6].
    pose proof (results_append_ok_keys _ _ _ _ (prefix +:+ "_loss") E2) as [_ Hl2].
    apply (results_append_ok_keys _ _ _ _ k) in E2 as [H2 Hb2].
    rewrite !elem_of_cons, elem_of_nil in Hk.
    destruct Hk as [->|[->|[->|[->|[->|[]]]]]]; auto.
  - prim E2. rewrite !elem_of_cons, elem_of_nil in Hk.
    destruct Hk as [->|[]]. done.
Qed.

Lemma finish_epoch_ok_inv config epoch prefix start acc w t vr x w' :
  finish_epoch config epoch prefix start acc w = (Ok (t, vr, x), w') ->
  (forall k, k ∈ active_keys config prefix -> is_Some (results w !! k))
  /\ x_last acc = Some x
  /\ t = scalar_sub (clock (ticks w)) start
  /\ vr = epoch_snapshot config epoch prefix acc
  /\ w' = finished_world config epoch prefix start acc w.
Proof.
  intros E. pose proof (finish_epoch_ok_keys _ _ _ _ _ _ _ _ E) as Hk.
  rewrite (finish_epoch_run _ _ _ _ _ _ Hk) in E.
  destruct (x_last acc); simplify_eq. done.
Qed.

(** One batch, whatever the mode. *)
Lemma run_batch_ok_inv config acc b w acc' w' :
  run_batch config acc b w = (Ok acc', w') ->
  acc' = mkAcc (running_loss acc
                ++ [batch_loss config (parameters w) (training w) b])
               (y_true acc ++ batch_labels config b)
               (y_pred acc
                ++ batch_predictions config (parameters w) (training w) b)
               (Some (moved_input config b)).
Proof.
  intros E. unfold run_batch in E.
  step E as p w1 E1. step E as mode w2 E2. step E as u w3 E3.
  unfold batch_labels, batch_predictions, batch_loss, moved_input, moved_target.
  destruct (_ && _); prim E.
  - reflexivity.
  - by rewrite !app_nil_r.
Qed.

Lemma for_each_run_batch_ok_inv config bs : forall acc w acc' w',
  for_each (run_batch config) bs acc w = (Ok acc', w') ->
  y_true acc' = y_true acc ++ flat_map (batch_labels config) bs
  /\ x_last acc' = last_input config bs (x_last acc)
  /\ length (running_loss acc') = length (running_loss acc) + length bs
  /\ training w' = training w.
Proof.
  induction bs as [|b bs IH]; intros acc w acc' w' E; simpl in E.
  - prim E. simpl. rewrite app_nil_r. split_and!; try done; lia.
  - step E as acc1 w1 E1.
    assert (Hmode : training w1 = training w).
    { assert (Hp : preserves training (run_batch config acc b))
        by (apply preserves_run_batch; reflexivity).
      by apply Hp in E1. }
    apply run_batch_ok_inv in E1 as ->.
    apply IH in E as (Hy & Hx & Hl & Ht). simpl in *.
    rewrite Hy, Hx, Hl, Ht, Hmode, length_app, <- app_assoc. simpl.
    split_and!; try done; try lia.
    unfold last_input. destruct bs as [|b' bs']; [done|].
    rewrite last_cons_cons.
    destruct (last (b' :: bs')) eqn:El; [done|]. by apply last_None in El.
Qed.

(** In evaluation mode the loop is a map over the batches. *)
Lemma for_each_run_batch_eval_acc config bs : forall acc w,
  training w = false ->
  for_each (run_batch config) bs acc w =
  (Ok (mkAcc (running_loss acc
              ++ (batch_loss config (parameters w) false <$> bs))
             (y_true acc ++ flat_map (batch_labels config) bs)
             (y_pred acc
              ++ flat_map (batch_predictions config (parameters w) false) bs)
             (last_input config bs (x_last acc))), w).
Proof.
  induction bs as [|b bs IH]; intros acc w Ht; simpl.
  - rewrite !app_nil_r. by destruct acc.
  - destruct (run_batch_eval config acc b w Ht) as (acc1 & E1 & _).
    rewrite (bind_ok _ _ _ _ _ E1). pose proof E1 as ->%run_batch_ok_inv.
    rewrite (IH _ _ Ht). simpl. rewrite Ht, <- !app_assoc. simpl.
    do 3 f_equal. unfold last_input. destruct bs as [|b' bs']; [done|].
    rewrite last_cons_cons.
    destruct (last (b' :: bs')) eqn:El; [done|]. by apply last_None in El.
Qed.

Lemma run_epoch_ok_inv config epoch prefix w t vr x w' :
  run_epoch config epoch prefix w = (Ok (t, vr, x), w') ->
  exists batches acc w1,
    selected_loader config prefix = Some (Some batches)
    /\ for_each (run_batch config) batches (mkAcc [] [] [] None)
         (set_ticks (S (ticks w)) w) = (Ok acc, w1)
    /\ (forall k, k ∈ active_keys config prefix -> is_Some (results w1 !! k))
    /\ x_last acc = Some x
    /\ t = scalar_sub (clock (ticks w1)) (clock (ticks w))
    /\ vr = epoch_snapshot config epoch prefix acc
    /\ w' = finished_world config epoch prefix (clock (ticks w)) acc w1.
Proof.
  rewrite run_epoch_unfold. intros E.
  step E as start w1 E1. step E as loader w2 E2. step E as batches w3 E3.
  step E as acc w4 E4.
  apply finish_epoch_ok_inv in E as (Hk & Hx & Ht & Hvr & Hw).
  by exists batches, acc, w4.
Qed.

Lemma results_append_tracked config key v w :
  tracked config w -> key ∈ to_track config ->
  exists w', results_append key v w = (Ok tt, w') /\ tracked config w'.
Proof.
  intros Ht Hk. destruct (Ht _ Hk) as [l Hl]. unfold results_append. rewrite Hl.
  eexists. split; [done|]. intros k Hin. simpl.
  destruct (decide (key = k)) as [->|Hne].
  - rewrite lookup_insert_eq. eauto.
  - rewrite lookup_insert_ne by done. auto.
Qed.

Lemma run_batch_bound_optimizer config k acc b w :
  optimizer config = OptObj k ->
  exists acc' w', run_batch config acc b w = (Ok acc', w')
    /\ results w' = results w /\ is_Some (x_last acc').
Proof.
  intros Ho. unfold run_batch. run.
  unfold optimizer_step_call, optimizer_zero_grad_call. rewrite Ho.
  destruct (training w).
  - run. unfold mbind at 1, M_bind at 1. simpl. 
    destruct (optimizer_step _ _ _) as [p st]. run.
    destruct (_ && _); eexists _, _; (split; [reflexivity|]); simpl; eauto.
  - run. destruct (_ && _); eexists _, _; (split; [reflexivity|]); simpl; eauto.
Qed.

Lemma for_each_run_batch_total config k bs : forall acc w,
  optimizer config = OptObj k ->
  exists acc' w', for_each (run_batch config) bs acc w = (Ok acc', w')
    /\ results w' = results w
    /\ (bs <> [] \/ is_Some (x_last acc) -> is_Some (x_last acc')).
Proof.
  induction bs as [|b bs IH]; intros acc w Ho; simpl.
  - eexists _, _. split; [reflexivity|]. split; [done|]. by intros [?|?].
  - destruct (run_batch_bound_optimizer config k acc b w Ho) as (acc1 & w1 & E1 & Hr1 & Hx1).
    rewrite (bind_ok _ _ _ _ _ E1).
    destruct (IH acc1 w1 Ho) as (acc2 & w2 & E2 & Hr2 & Hx2).
    eexists _, _. split; [exact E2|]. split; [congruence|]. auto.
Qed.

Lemma run_epoch_training_total config k epoch w :
  optimizer config = OptObj k -> training_loader config <> [] ->
  tracked config w ->
  exists t x w', run_epoch config epoch "training" w = (Ok (t, None, x), w')
    /\ tracked config w'.
Proof.
  intros Ho Hl Ht. unfold run_epoch. simpl String.eqb. cbv iota. run.
  destruct (for_each_run_batch_total config k (training_loader config)
              (mkAcc [] [] [] None) (set_ticks (S (ticks w)) w) Ho)
    as (acc & w1 & E1 & Hr1 & Hx1).
  rewrite (bind_ok _ _ _ _ _ E1). run.
  assert (Ht1 : tracked config (set_ticks (S (ticks w1)) w1)).
  { intros key Hkey. simpl. rewrite Hr1. by apply Ht. }
  destruct Hx1 as [x Hx]; [by left|]. rewrite Hx.
  rewrite andb_false_r.
  cbn [String.append].
  destruct (classification_metrics config) eqn:Hcm.
  - run. edestruct (results_append_tracked config "training_accuracy") as (w2 & E2 & Ht2);
      [exact Ht1|revert Hcm; in_to_track|].
    rewrite (bind_ok _ _ _ _ _ E2); run.
    edestruct (results_append_tracked config "training_macro_recall") as (w3 & E3 & Ht3);
      [exact Ht2|revert Hcm; in_to_track|].
    rewrite (bind_ok _ _ _ _ _ E3); run.
    edestruct (results_append_tracked config "training_macro_precision") as (w4 & E4 & Ht4);
      [exact Ht3|revert Hcm; in_to_track|].
    rewrite (bind_ok _ _ _ _ _ E4); run.
    edestruct (results_append_tracked config "training_macro_f1score") as (w5 & E5 & Ht5);
      [exact Ht4|revert Hcm; in_to_track|].
    rewrite (bind_ok _ _ _ _ _ E5); run.
    edestruct (results_append_tracked config "training_loss") as (w6 & E6 & Ht6);
      [exact Ht5|revert Hcm; in_to_track|].
    rewrite (bind_ok _ _ _ _ _ E6); run.
    destruct (negb (progress_bar config) && true); run; eauto.
  - run.
    edestruct (results_append_tracked config "training_loss") as (w6 & E6 & Ht6);
      [exact Ht1|revert Hcm; in_to_track|].
    rewrite (bind_ok _ _ _ _ _ E6); run.
    destruct (negb (progress_bar config) && true); run; eauto.
Qed.

(** The pass that trains returns the input of the last batch. *)
Lemma run_epoch_training_sample config k epoch w :
  optimizer config = OptObj k -> training_loader config <> [] ->
  tracked config w ->
  exists t b w',
    last (training_loader config) = Some b
    /\ run_epoch config epoch "training" w
       = (Ok (t, None, moved_input config b), w')
    /\ tracked config w'.
Proof.
  intros Ho Hl Ht.
  destruct (run_epoch_training_total config k epoch w Ho Hl Ht)
    as (t & x & w' & E & Ht').
  pose proof E as E'.
  apply run_epoch_ok_inv in E'
    as (bs & acc & w1 & Hsel & Eloop & _ & Hx & _).
  apply for_each_run_batch_ok_inv in Eloop as (_ & Hlast & _).
  unfold selected_loader in Hsel. simpl in Hsel. injection Hsel as <-.
  rewrite Hx in Hlast. unfold last_input in Hlast. simpl in Hlast.
  destruct (last (training_loader config)) as [b|] eqn:Hb; [|done].
  injection Hlast as ->. by exists t, b, w'.
Qed.

Lemma first_row_call_ok x row w :
  first_row x = Some row -> first_row_call x w = (Ok row, w).
Proof. intros Hrow. unfold first_row_call. by rewrite Hrow. Qed.

Lemma train_epoch_without_validation_total config k loc epoch w :
  validation_loader config = None -> validation_result loc = None ->
  optimizer config = OptObj k -> training_loader config <> [] ->
  sliceable config ->
  tracked config w ->
  exists w', tracked config w'
    /\ if checkpointed config epoch
       then train_epoch config loc epoch w
            = (Raise (UnboundLocalError "validation_result"), w')
       else exists loc', train_epoch config loc epoch w = (Ok loc', w')
              /\ validation_result loc' = None.
Proof.
  intros Hv Hvr Ho Hl Hsl Ht. unfold train_epoch. run.
  destruct (run_epoch_training_sample config k epoch (set_training true w) Ho Hl)
    as (t & b & w1 & Hb & E1 & Ht1); [exact Ht|].
  rewrite (bind_ok _ _ _ _ _ E1); run.
  destruct (Hsl b Hb) as [row Hrow].
  rewrite (bind_ok _ _ _ _ _ (first_row_call_ok _ _ _ Hrow)); run.
  rewrite (bind_ok _ _ _ _ _ (validation_pass_without_loader _ _ _ _ Hv)); run.
  edestruct (results_append_tracked config "epoch") as (w2 & E2 & Ht2);
    [exact Ht1|apply to_track_epoch|].
  rewrite (bind_ok _ _ _ _ _ E2); run.
  edestruct (results_append_tracked config "epoch_time") as (w3 & E3 & Ht3);
    [exact Ht2|apply to_track_epoch_time|].
  rewrite (bind_ok _ _ _ _ _ E3); run.
  exists w3. split; [done|]. rewrite Hvr.
  destruct (checkpointed config epoch).
  - erewrite bind_raise; [done|]. by apply save_checkpoint_unbound.
  - run. eauto.
Qed.

Lemma epochs_loop_without_validation_total config k es : forall loc w,
  validation_loader config = None -> validation_result loc = None ->
  optimizer config = OptObj k -> training_loader config <> [] ->
  sliceable config ->
  tracked config w ->
  exists w',
    if existsb (checkpointed config) es
    then for_each (train_epoch config) es loc w
         = (Raise (UnboundLocalError "validation_result"), w')
    else exists loc', for_each (train_epoch config) es loc w = (Ok loc', w')
           /\ validation_result loc' = None.
Proof.
  induction es as [|e es IH]; intros loc w Hv Hvr Ho Hl Hsl Ht; simpl.
  - eexists. eauto.
  - destruct (train_epoch_without_validation_total config k loc e w)
      as (w1 & Ht1 & E1); [done..|].
    destruct (checkpointed config e); simpl.
    + exists w1. by rewrite (bind_raise _ _ _ _ _ E1).
    + destruct E1 as (loc1 & E1 & Hvr1). rewrite (bind_ok _ _ _ _ _ E1).
      by apply IH.
Qed.

Lemma tracked_fresh_results config w :
  tracked config (set_results (fresh_results (to_track config)) w).
Proof.
  intros k Hk. simpl. rewrite lookup_fresh_results. by rewrite decide_True.
Qed.






(** *** Runs with a validation loader complete *)

Lemma for_each_run_batch_eval_bound config bs : forall acc w,
  training w = false ->
  exists acc', for_each (run_batch config) bs acc w = (Ok acc', w)
    /\ (bs <> [] \/ is_Some (x_last acc) -> is_Some (x_last acc')).
Proof.
  induction bs as [|b bs IH]; intros acc w Ht; simpl.
  - eexists. split; [reflexivity|]. by intros [?|?].
  - destruct (run_batch_eval config acc b w Ht) as (acc1 & E1 & Hx1).
    rewrite (bind_ok _ _ _ _ _ E1).
    destruct (IH acc1 w Ht) as (acc2 & E2 & Hx2).
    exists acc2. split; [done|]. intros _. apply Hx2. right. by rewrite Hx1.
Qed.

Lemma run_epoch_validation_total config v epoch w :
  validation_loader config = Some v -> v <> [] ->
  training w = false -> tracked config w ->
  exists t vr x w',
    run_epoch config epoch "validation" w = (Ok (t, vr, x), w')
    /\ tracked config w'
    /\ (epoch = (epochs config - 1)%Z -> is_Some vr).
Proof.
  intros Hv Hne Hmode Ht. unfold run_epoch. simpl String.eqb. cbv iota.
  rewrite Hv. run.
  destruct (for_each_run_batch_eval_bound config v (mkAcc [] [] [] None)
              (set_ticks (S (ticks w)) w) Hmode) as (acc & E1 & Hx1).
  rewrite (bind_ok _ _ _ _ _ E1). run.
  assert (Ht1 : tracked config (set_ticks (S (S (ticks w))) w)) by exact Ht.
  destruct Hx1 as [x Hx]; [by left|]. rewrite Hx.
  rewrite andb_false_r, andb_true_r.
  assert (Hn : is_not_None (validation_loader config) = true) by by rewrite Hv.
  cbn [String.append].
  destruct (classification_metrics config) eqn:Hcm.
  - run. edestruct (results_append_tracked config "validation_accuracy") as (w2 & E2 & Ht2);
      [exact Ht1|revert Hcm Hn; in_to_track|].
    rewrite (bind_ok _ _ _ _ _ E2); run.
    edestruct (results_append_tracked config "validation_macro_recall") as (w3 & E3 & Ht3);
      [exact Ht2|revert Hcm Hn; in_to_track|].
    rewrite (bind_ok _ _ _ _ _ E3); run.
    edestruct (results_append_tracked config "validation_macro_precision") as (w4 & E4 & Ht4);
      [exact Ht3|revert Hcm Hn; in_to_track|].
    rewrite (bind_ok _ _ _ _ _ E4); run.
    edestruct (results_append_tracked config "validation_macro_f1score") as (w5 & E5 & Ht5);
      [exact Ht4|revert Hcm Hn; in_to_track|].
    rewrite (bind_ok _ _ _ _ _ E5); run.
    edestruct (results_append_tracked config "validation_loss") as (w6 & E6 & Ht6);
      [exact Ht5|revert Hcm Hn; in_to_track|].
    rewrite (bind_ok _ _ _ _ _ E6); run.
    destruct (Z.eqb_spec (epochs config - 1) epoch) as [He|He]; run;
      eexists _, _, _, _; (split; [reflexivity|]); (split; [exact Ht6|]);
      [eauto|lia].
  - run.
    edestruct (results_append_tracked config "validation_loss") as (w6 & E6 & Ht6);
      [exact Ht1|revert Hcm Hn; in_to_track|].
    rewrite (bind_ok _ _ _ _ _ E6); run.
    destruct (Z.eqb_spec (epochs config - 1) epoch) as [He|He]; run;
      eexists _, _, _, _; (split; [reflexivity|]); (split; [exact Ht6|]);
      [eauto|lia].
Qed.

Lemma with_no_grad_ok {A} (body : M A) w a w' :
  body (set_grad_enabled false w) = (Ok a, w') ->
  with_no_grad body w = (Ok a, set_grad_enabled (grad_enabled w) w').
Proof. intros E. unfold with_no_grad. by rewrite E. Qed.

Lemma save_checkpoint_bound tag loc w :
  is_Some (validation_result loc) -> is_Some (x_sample loc) ->
  exists w', save_checkpoint tag loc w = (Ok tt, w') /\ results w' = results w.
Proof.
  intros [vr Hvr] [xs Hxs]. unfold save_checkpoint. run. rewrite Hvr, Hxs. run.
  eexists. split; reflexivity.
Qed.

Lemma train_epoch_with_validation_total config k v loc epoch w :
  validation_loader config = Some v -> v <> [] ->
  optimizer config = OptObj k -> training_loader config <> [] ->
  sliceable config ->
  tracked config w ->
  exists loc' w',
    train_epoch config loc epoch w = (Ok loc', w')
    /\ tracked config w'
    /\ is_Some (x_sample loc')
    /\ exists vr, validation_result loc' = Some vr
         /\ (epoch = (epochs config - 1)%Z -> is_Some vr).
Proof.
  intros Hv Hne Ho Hl Hsl Ht. unfold train_epoch. run.
  destruct (run_epoch_training_sample config k epoch (set_training true w) Ho Hl)
    as (t & b & w1 & Hb & E1 & Ht1); [exact Ht|].
  rewrite (bind_ok _ _ _ _ _ E1); run.
  destruct (Hsl b Hb) as [row Hrow].
  rewrite (bind_ok _ _ _ _ _ (first_row_call_ok _ _ _ Hrow)); run.
  unfold validation_pass. rewrite Hv. cbn [is_not_None]. run.
  match goal with
  | |- context [(with_no_grad _ ≫= _) ?w0] =>
      destruct (run_epoch_validation_total config v epoch
                  (set_grad_enabled false w0) Hv Hne eq_refl)
        as (t2 & vr & x2 & w2 & E2 & Ht2 & Hvr); [exact Ht1|];
      rewrite (bind_ok _ _ _ _ _ (with_no_grad_ok _ w0 _ _ E2))
  end.
  run.
  match goal with
  | |- context [(results_append "epoch" _ ≫= _) ?w0] =>
      destruct (results_append_tracked config "epoch" (RInt (epoch + 1)) w0)
        as (w3 & E3 & Ht3); [exact Ht2|apply to_track_epoch|]
  end.
  rewrite (bind_ok _ _ _ _ _ E3); run.
  edestruct (results_append_tracked config "epoch_time") as (w4 & E4 & Ht4);
    [exact Ht3|apply to_track_epoch_time|].
  rewrite (bind_ok _ _ _ _ _ E4); run.
  destruct (checkpointed config epoch).
  - edestruct (save_checkpoint_bound (TagEpoch epoch)) as (w5 & E5 & Hr5);
      [..|rewrite (bind_ok _ _ _ _ _ E5)]; [simpl; eauto..|].
    run. eexists _, _. split; [reflexivity|]. simpl.
    split; [|eauto]. intros key Hkey. rewrite Hr5. by apply Ht4.
  - run. eexists _, _. split; [reflexivity|]. simpl. eauto.
Qed.

Lemma epochs_loop_with_validation_total config k v es : forall loc w,
  validation_loader config = Some v -> v <> [] ->
  optimizer config = OptObj k -> training_loader config <> [] ->
  sliceable config ->
  tracked config w ->
  exists loc' w',
    for_each (train_epoch config) es loc w = (Ok loc', w')
    /\ tracked config w'
    /\ (es = [] -> loc' = loc)
    /\ (es <> [] ->
        is_Some (x_sample loc')
        /\ exists vr, validation_result loc' = Some vr
             /\ (last es = Some (epochs config - 1)%Z -> is_Some vr)).
Proof.
  induction es as [|e es IH]; intros loc w Hv Hne Ho Hl Hsl Ht; simpl.
  - eexists _, _. split; [reflexivity|]. by repeat split.
  - destruct (train_epoch_with_validation_total config k v loc e w)
      as (loc1 & w1 & E1 & Ht1 & Hx1 & vr1 & Hvr1 & Hlast1); [done..|].
    rewrite (bind_ok _ _ _ _ _ E1).
    destruct (IH loc1 w1) as (loc2 & w2 & E2 & Ht2 & Hnil & Hcons); [done..|].
    exists loc2, w2. split; [done|]. split; [done|]. split; [done|].
    intros _. destruct es as [|e' es'].
    + rewrite (Hnil eq_refl). split; [done|]. exists vr1. split; [done|].
      simpl. intros [= ->]. by apply Hlast1.
    + by apply Hcons.
Qed.

Lemma last_range n : (1 <= n)%Z -> last (range n) = Some (n - 1)%Z.
Proof.
  intros Hn. unfold range. destruct (Z.to_nat n) as [|m] eqn:E; [lia|].
  rewrite seq_S, fmap_app. change (Z.of_nat <$> [0 + m]) with [Z.of_nat m].
  rewrite last_snoc. f_equal. lia.
Qed.

(** The part of [train] after the epoch loop. *)
Lemma train_unfold config :
  train config =
  (logging_info (LogText "starting training");;
   modify (set_results (fresh_results (to_track config)));;
   modify (set_placed_on (device config));;
   loc ← for_each (train_epoch config) (range (epochs config))
           (mkLocals scalar_zero None None);
   finish_train config loc).
Proof. reflexivity. Qed.

Lemma time_pipeline_call_ok config r w :
  time_pipeline config w = Ok r -> time_pipeline_call config w = (Ok r, w).
Proof. intros Hr. unfold time_pipeline_call. by rewrite Hr. Qed.

(** After the report block the outcome is the latency helper's. *)
Lemma measure_ok config loc w :
  latency_measured config ->
  exists w',
    (logging_info (LogFinishedTraining (time_training loc));;
     p ← gets parameters;
     logging_info (LogModelSize (compute_size p));;
     latency ← time_pipeline_call config;
     logging_info (LogLatency latency.1 latency.2);;
     if zip_result config then emit ZipResults else mret tt) w = (Ok tt, w').
Proof.
  intros Hlat. run.
  match goal with
  | |- context [(time_pipeline_call _ ≫= _) ?w0] =>
      destruct (Hlat w0) as [r Hr];
      rewrite (bind_ok _ _ _ _ _ (time_pipeline_call_ok _ _ _ Hr))
  end.
  run. destruct (zip_result config); run; eauto.
Qed.

Lemma finish_train_ok config loc s xs w :
  validation_result loc = Some (Some s) -> x_sample loc = Some xs ->
  latency_measured config ->
  exists w', finish_train config loc w = (Ok tt, w').
Proof.
  intros Hvr Hxs Hlat. unfold finish_train.
  assert (Hsave : exists w2,
            (if save_model config then save_checkpoint TagLast loc else mret tt) w
            = (Ok tt, w2)).
  { destruct (save_model config); [|by eexists].
    edestruct (save_checkpoint_bound TagLast loc) as (w2 & E2 & _);
      [by rewrite Hvr|by rewrite Hxs|eauto]. }
  destruct Hsave as (w2 & E2). rewrite (bind_ok _ _ _ _ _ E2).
  assert (Hrep : exists w3,
            (if classification_metrics config
             then report_classification config loc else mret tt) w2
            = (Ok tt, w3)).
  { destruct (classification_metrics config); [|by eexists].
    unfold report_classification. rewrite Hvr.
    destruct (save_model config);
      cbv [mbind M_bind mret M_ret read_local logging_info emit modify gets];
      eauto. }
  destruct Hrep as (w3 & E3). rewrite (bind_ok _ _ _ _ _ E3).
  by apply measure_ok.
Qed.

(** With a non-empty validation loader, a non-empty training loader whose
    last input can be sliced, a bound optimizer, at least one epoch and a
    latency helper that returns, [train] returns: the hypothesis "the run
    completes" of the properties above is met by every such configuration. *)
Lemma train_completes config k v w :
  validation_loader config = Some v -> v <> [] ->
  optimizer config = OptObj k -> training_loader config <> [] ->
  sliceable config -> latency_measured config ->
  (1 <= epochs config)%Z ->
  exists w', train config w = (Ok tt, w').
Proof.
  intros Hv Hne Ho Hl Hsl Hlat HE. rewrite train_unfold. run.
  match goal with
  | |- context [(for_each _ _ _ ≫= _) ?w0] =>
      destruct (epochs_loop_with_validation_total config k v
                  (range (epochs config)) (mkLocals scalar_zero None None) w0)
        as (loc & w1 & E1 & Ht1 & _ & Hloc);
        [done..|apply (tracked_fresh_results config w)|]
  end.
  rewrite (bind_ok _ _ _ _ _ E1).
  destruct Hloc as ([xs Hxs] & vr & Hvr & Hlast).
  { destruct (range_pos _ HE) as [rest ->]. done. }
  destruct (Hlast (last_range _ HE)) as [s Hs]. subst vr.
  by eapply finish_train_ok.
Qed.
End Properties.

(** * Further properties of the three functions *)

Section Behaviour.
Context `{Collaborators} `{!Helpers}.

(** ** [__post_init__], outcome by outcome *)


Lemma resolve_optimizer_run self w :
  resolve_optimizer self w =
  match selected_optimizer self with
  | None => (Ok self, w)
  | Some k =>
      match optimizer_init k (parameters w) (lr self) with
      | Some st => (Ok (set_optimizer (OptObj k) self), set_opt_state st w)
      | None => (Raise (ValueError "torch.optim"), w)
      end
  end.
Proof.
  unfold resolve_optimizer, selected_optimizer, bind_optimizer.
  destruct (optimizer_py_eq_str _ "SGD");
    [|destruct (optimizer_py_eq_str _ "AdamW")]; reflexivity.
Qed.

Lemma logging_basicConfig_run f force w :
  logging_basicConfig f force w
  = if can_open f
    then (Ok tt, set_log_handler (handler_after force f (log_handler w)) w)
    else (Raise (OSError f), w).
Proof.
  unfold logging_basicConfig, handler_after.
  destruct (can_open f); [|done].
  destruct (log_handler w) eqn:Eh, force; try reflexivity.
  destruct w; simpl in *. by rewrite Eh.
Qed.

Lemma resolve_device_run self w :
  let d := resolved_device (device self) (cuda_available w) in
  resolve_device self w
  = (Ok (set_device (DevTorch d) self), set_log (log w ++ [LogUsingDevice d]) w).
Proof.
  unfold resolve_device, resolved_device.
  destruct (_ || device_py_eq _ (DevTorch cuda0)); simpl.
  - reflexivity.
  - by rewrite elif_cpu_always_true.
Qed.

(** What the last two steps of a construction do once the log file is
    known. *)
Lemma post_init_tail self logfile w :
  let d := resolved_device (device self) (cuda_available w) in
  (logging_basicConfig logfile (colab self) ≫= fun _ => resolve_device self) w
  = if can_open logfile
    then (Ok (set_device (DevTorch d) self),
          set_log (log w ++ [LogUsingDevice d])
            (set_log_handler
               (handler_after (colab self) logfile (log_handler w)) w))
    else (Raise (OSError logfile), w).
Proof.
  unfold mbind, M_bind. rewrite logging_basicConfig_run.
  destruct (can_open logfile); [|done]. by rewrite resolve_device_run.
Qed.

Lemma prepare_log_file_run self w :
  prepare_log_file self w =
  if save_model self then
    match save_path self with
    | None => (Raise (TypeError "Path(None)"), set_ticks (S (ticks w)) w)
    | Some base =>
        let final := run_directory self base w in
        if decide (final ∈ dirs w)
        then (Raise (FileExistsError final), set_ticks (S (ticks w)) w)
        else (Ok (set_save_path_final final self, joinpath final LOG_FILE),
              set_dirs ({[final]} ∪ list_to_set (parents final) ∪ dirs w)
                (set_ticks (S (ticks w)) w))
    end
  else (Ok (self, LOG_FILE), w).
Proof.
  unfold prepare_log_file, run_directory.
  destruct (save_model self); [|done].
  unfold mbind, M_bind, strftime_now, mkdir, mret, M_ret, raise.
  destruct (save_path self) as [base|]; [|done]. simpl.
  by destruct (decide _).
Qed.

(** The whole construction, outcome by outcome. *)
Lemma post_init_run self w :
  post_init self w =
  match resolve_optimizer self w with
  | (Raise e, w1) => (Raise e, w1)
  | (Ok self1, w1) =>
      let d := resolved_device (device self1) (cuda_available w1) in
      if save_model self1 then
        match save_path self1 with
        | None => (Raise (TypeError "Path(None)"), set_ticks (S (ticks w1)) w1)
        | Some base =>
            let final := run_directory self1 base w1 in
            if decide (final ∈ dirs w1)
            then (Raise (FileExistsError final), set_ticks (S (ticks w1)) w1)
            else
              let w2 :=
                set_dirs ({[final]} ∪ list_to_set (parents final) ∪ dirs w1)
                  (set_ticks (S (ticks w1)) w1) in
              if can_open (joinpath final LOG_FILE)
              then
                (Ok (set_device (DevTorch d) (set_save_path_final final self1)),
                 set_log (log w1 ++ [LogUsingDevice d])
                   (set_log_handler
                      (handler_after (colab self1) (joinpath final LOG_FILE)
                         (log_handler w1)) w2))
              else (Raise (OSError (joinpath final LOG_FILE)), w2)
        end
      else if can_open LOG_FILE
      then (Ok (set_device (DevTorch d) self1),
            set_log (log w1 ++ [LogUsingDevice d])
              (set_log_handler
                 (handler_after (colab self1) LOG_FILE (log_handler w1)) w1))
      else (Raise (OSError LOG_FILE), w1)
  end.
Proof.
  unfold post_init. unfold mbind at 1, M_bind at 1.
  destruct (resolve_optimizer self w) as [[self1|e] w1]; [|done].
  unfold mbind at 1, M_bind at 1. rewrite prepare_log_file_run.
  destruct (save_model self1).
  - destruct (save_path self1) as [base|]; [|done]. simpl.
    destruct (decide _); [done|]. by rewrite post_init_tail.
  - by rewrite post_init_tail.
Qed.

(** Splits [E : post_init self w = (r, w')] into the outcomes of the
    construction. *)
Ltac construction E :=
  rewrite post_init_run, resolve_optimizer_run in E;
  destruct (selected_optimizer _) as [?k|] eqn:?Hsel;
    [destruct (optimizer_init _ _ _) as [?st|] eqn:?Hinit|];
    cbn [save_model save_path set_optimizer device colab] in E;
    repeat match type of E with
           | context [if save_model ?c then _ else _] =>
               destruct (save_model c) eqn:?Hsave
           | context [match save_path ?c with _ => _ end] =>
               destruct (save_path c) as [?base|] eqn:?Hpath
           | context [if decide ?P then _ else _] =>
               destruct (decide P) as [?Hin|?Hnotin]
           | context [if can_open ?f then _ else _] =>
               destruct (can_open f) eqn:?Hopen
           end;
    cbv zeta in E; simplify_eq.

(** X1: a recognised selector ("SGD" or "AdamW") is replaced by the optimizer
    of that kind, built from the model's parameters at construction and [lr];
    the later steps of the constructor leave it alone. *)
Theorem post_init_binds_recognised_optimizer self k w self' w' :
  (optimizer self = OptStr "SGD" /\ k = SGD
   \/ optimizer self = OptStr "AdamW" /\ k = AdamW) ->
  post_init self w = (Ok self', w') ->
  optimizer self' = OptObj k
  /\ optimizer_init k (parameters w) (lr self) = Some (opt_state w').
Proof.
  intros Hsel E.
  assert (Hk : selected_optimizer self = Some k).
  { unfold selected_optimizer.
    by destruct Hsel as [[-> ->]|[-> ->]]. }
  construction E; by simplify_eq.
Qed.

(** X2: the selectors "gpu" and [cuda:0] resolve to [cuda:0] exactly when CUDA
    is available, and silently to the CPU otherwise; the notice logged names
    the device chosen. *)
Theorem post_init_gpu_selector self w self' w' :
  device self = DevStr "gpu" \/ device self = DevTorch cuda0 ->
  post_init self w = (Ok self', w') ->
  let d := if cuda_available w then cuda0 else cpu in
  device self' = DevTorch d /\ log w' = log w ++ [LogUsingDevice d].
Proof.
  intros Hd E. apply post_init_inv in E as (Hdev & Hlog & _).
  simpl in *. rewrite Hdev, Hlog.
  by destruct Hd as [-> | ->].
Qed.


(** X4: [save_model] with [save_path] left at its default [None] fails at
    [Path(self.save_path)] with a [TypeError], before any directory is made
    and before logging is configured (the optimizer is built first: its
    constructor has to accept its arguments). *)
Theorem post_init_save_model_without_path self w :
  optimizer_accepted self w ->
  save_model self = true -> save_path self = None ->
  exists w',
    post_init self w = (Raise (TypeError "Path(None)"), w')
    /\ dirs w' = dirs w
    /\ log_handler w' = log_handler w
    /\ log w' = log w.
Proof.
  intros Hacc Hs Hp. destruct (post_init self w) as [r w'] eqn:E.
  exists w'. construction E; try done.
  destruct (Hacc _ Hsel) as [st Hst]. by rewrite Hinit in Hst.
Qed.

(** X5: when the run directory [save_path/<timestamp>_<model_name>] exists
    already, [mkdir(exist_ok=False)] raises [FileExistsError] for it; logging
    is not configured and nothing is logged. *)
Theorem post_init_existing_directory self base w :
  optimizer_accepted self w ->
  save_model self = true -> save_path self = Some base ->
  run_directory self base w ∈ dirs w ->
  exists w',
    post_init self w = (Raise (FileExistsError (run_directory self base w)), w')
    /\ dirs w' = dirs w
    /\ log_handler w' = log_handler w
    /\ log w' = log w.
Proof.
  intros Hacc Hs Hp Hin. destruct (post_init self w) as [r w'] eqn:E.
  exists w'. construction E; try done.
  destruct (Hacc _ Hsel) as [st Hst]. by rewrite Hinit in Hst.
Qed.

(** X6: a construction with [save_model] that completes had a [save_path];
    the run directory [save_path/<timestamp>_<model_name>] did not exist
    before, and the construction made it together with its ancestors
    ([parents=True]); it stored the directory in [save_path_final], took one
    timestamp, and opened the log file inside that directory. *)
Theorem post_init_creates_run_directory self w self' w' :
  save_model self = true ->
  post_init self w = (Ok self', w') ->
  exists base,
    save_path self = Some base
    /\ (run_directory self base w ∉ dirs w)
    /\ dirs w' = {[run_directory self base w]}
                 ∪ list_to_set (parents (run_directory self base w))
                 ∪ dirs w
    /\ save_path_final self' = Some (run_directory self base w)
    /\ ticks w' = S (ticks w)
    /\ can_open (joinpath (run_directory self base w) LOG_FILE) = true
    /\ log_handler w'
       = Some (handler_after (colab self)
                 (joinpath (run_directory self base w) LOG_FILE)
                 (log_handler w)).
Proof.
  intros Hs E. construction E; eexists; split_and!; done.
Qed.

(** X7: two constructions of the same configuration within one timestamp
    collide: the second raises [FileExistsError] for the directory the first
    one made. *)
Theorem post_init_twice_same_timestamp self w self' w1 w2 :
  save_model self = true ->
  post_init self w = (Ok self', w1) ->
  optimizer_accepted self w2 ->
  dirs w1 ⊆ dirs w2 ->
  timestamp (ticks w2) = timestamp (ticks w) ->
  exists path w3, post_init self w2 = (Raise (FileExistsError path), w3)
    /\ save_path_final self' = Some path.
Proof.
  intros Hs E Hacc Hsub Hts.
  assert (Hfirst : exists base,
            save_path self = Some base
            /\ run_directory self base w ∈ dirs w1
            /\ save_path_final self' = Some (run_directory self base w)).
  { construction E; eexists; (split; [done|]); (split; [|done]); simpl;
      apply elem_of_union_l, elem_of_union_l, elem_of_singleton; reflexivity. }
  destruct Hfirst as (base & Hp & Hmade & Hf).
  destruct (post_init self w2) as [r w3] eqn:E2.
  exists (run_directory self base w), w3. split; [|done].
  construction E2; unfold run_directory in *; simpl in *;
    rewrite ?Hts in *; try done.
  all: try (by destruct (Hacc _ Hsel) as [st' Hst']; rewrite Hinit in Hst').
  all: exfalso;
    match goal with Hn : ¬ (_ ∈ dirs _) |- _ => apply Hn, Hsub, Hmade end.
Qed.

(** X8: [basicConfig] is called with [force=self.colab]; when the root logger
    has a handler already and [colab] is off, the handler stays, whatever the
    outcome of the construction. *)
Theorem post_init_keeps_first_log_handler self f w r w' :
  log_handler w = Some f -> colab self = false ->
  post_init self w = (r, w') ->
  log_handler w' = Some f.
Proof.
  intros Hh Hc E. construction E; simpl; rewrite ?Hh, ?Hc; done.
Qed.

(** X9: the constructor never touches the model, the results, the helpers,
    the gradient mode or the availability of CUDA; of the configuration it
    can change the optimizer, the device and [save_path_final] only: every
    other field is as it was passed in. *)
Theorem post_init_leaves_alone self w r w' :
  post_init self w = (r, w') ->
  (parameters w' = parameters w /\ grad w' = grad w
   /\ training w' = training w /\ placed_on w' = placed_on w
   /\ results w' = results w /\ events w' = events w
   /\ grad_enabled w' = grad_enabled w
   /\ cuda_available w' = cuda_available w)
  /\ (forall self', r = Ok self' ->
      training_loader self' = training_loader self
      /\ validation_loader self' = validation_loader self
      /\ lr self' = lr self /\ epochs self' = epochs self
      /\ save_model self' = save_model self
      /\ colab self' = colab self
      /\ zip_result self' = zip_result self
      /\ save_path self' = save_path self
      /\ model_name self' = model_name self
      /\ classification_metrics self' = classification_metrics self
      /\ class_names self' = class_names self
      /\ progress_bar self' = progress_bar self
      /\ checkpoint_epochs self' = checkpoint_epochs self).
Proof.
  intros E.
  construction E; (split; [done|]); intros self' Hr; simplify_eq; by simpl.
Qed.

(** ** One pass of [run_epoch] *)

Lemma lookup_loss_after_entries config prefix acc (d : gmap string (list rval)) :
  foldl push d (epoch_entries config prefix acc) !! (prefix +:+ "_loss")
  = Some (default [] (d !! (prefix +:+ "_loss"))
          ++ [RFloat (np_mean (running_loss acc))]).
Proof.
  unfold epoch_entries. destruct (classification_metrics config); simpl.
  - unfold push at 1. simpl. rewrite lookup_insert_eq. do 2 f_equal.
    unfold push. simpl.
    rewrite !lookup_insert_ne
      by (intros E%string_app_inv_head; discriminate). done.
  - unfold push. simpl. by rewrite lookup_insert_eq.
Qed.

Lemma for_each_run_batch_frames config bs acc w r w' :
  for_each (run_batch config) bs acc w = (r, w') ->
  results w' = results w /\ ticks w' = ticks w /\ log w' = log w
  /\ events w' = events w.
Proof.
  intros E.
  assert (Hp : forall X (f : World -> X),
            (forall st p g w, f (set_opt_state st (set_model p g w)) = f w) ->
            (forall p g w, f (set_model p g w) = f w) ->
            f w' = f w).
  { intros X f H1 H2.
    assert (Hf : preserves f (for_each (run_batch config) bs acc))
      by (apply preserves_for_each; intros; by apply preserves_run_batch).
    by apply Hf in E. }
  split_and!; by apply Hp.
Qed.

Lemma run_batch_train_state config acc b w acc' w' :
  training w = true ->
  run_batch config acc b w = (Ok acc', w') ->
  model_state w' = train_step config (model_state w) b /\ training w' = true.
Proof.
  intros Hmode E. unfold run_batch in E.
  step E as p w1 E1. step E as mode w2 E2. rewrite Hmode in E.
  step E as u w3 E3.
  assert (w' = w3) as -> by (destruct (_ && _); by prim E).
  step E3 as u1 w4 E4. step E3 as u2 w5 E5.
  unfold optimizer_step_call in E5. unfold optimizer_zero_grad_call in E3.
  destruct (optimizer config); [by prim E5|].
  unfold model_state, train_step, moved_input, moved_target. simpl in *.
  destruct (optimizer_step _ _ _) as [p' st'] eqn:Es. simpl in E5.
  injection E5 as <-. prim E3. simpl. done.
Qed.

Lemma for_each_run_batch_train_state config bs : forall acc w acc' w',
  training w = true ->
  for_each (run_batch config) bs acc w = (Ok acc', w') ->
  model_state w' = foldl (train_step config) (model_state w) bs.
Proof.
  induction bs as [|b bs IH]; intros acc w acc' w' Hmode E; simpl in E.
  - by prim E.
  - step E as acc1 w1 E1.
    apply run_batch_train_state in E1 as [Hs Hm]; [|done].
    simpl. rewrite <- Hs. by eapply IH.
Qed.

Lemma run_epoch_empty_run config epoch prefix w :
  selected_loader config prefix = Some (Some []) ->
  (forall k, k ∈ active_keys config prefix -> is_Some (results w !! k)) ->
  run_epoch config epoch prefix w
  = (Raise (UnboundLocalError "x"),
     finished_world config epoch prefix (clock (ticks w)) (mkAcc [] [] [] None)
       (set_ticks (S (ticks w)) w)).
Proof.
  intros Hsel Hk. rewrite run_epoch_unfold. run. rewrite Hsel. run.
  by rewrite finish_epoch_run by exact Hk.
Qed.

(** X10: a pass over an empty loader draws no batch, so the loop variable [x]
    is unbound at the [return]: the pass raises [UnboundLocalError], after the
    mean of the empty loss list has been appended to the loss series. *)
Theorem run_epoch_empty_loader config epoch prefix w l :
  selected_loader config prefix = Some (Some []) ->
  classification_metrics config = false ->
  results w !! (prefix +:+ "_loss") = Some l ->
  exists w',
    run_epoch config epoch prefix w = (Raise (UnboundLocalError "x"), w')
    /\ results w' !! (prefix +:+ "_loss") = Some (l ++ [RFloat (np_mean [])]).
Proof.
  intros Hsel Hcm Hl. rewrite run_epoch_empty_run; [|done|].
  - eexists. split; [reflexivity|].
    unfold finished_world. simpl. rewrite lookup_loss_after_entries.
    simpl. by rewrite Hl.
  - unfold active_keys. rewrite Hcm. simpl. intros k Hk.
    apply elem_of_cons in Hk as [->|Hk]; [eauto|by apply elem_of_nil in Hk].
Qed.

(** X11: when [results] has no [<prefix>_loss] series the pass raises
    [KeyError] for it, but only after the batch loop: the store at the raise
    is the one the loop left, one clock reading later, so in training mode
    every step of the pass has been applied to the model. *)
Theorem run_epoch_missing_series config epoch prefix batches w :
  selected_loader config prefix = Some (Some batches) ->
  (exists k, optimizer config = OptObj k) ->
  classification_metrics config = false ->
  results w !! (prefix +:+ "_loss") = None ->
  exists acc w1,
    for_each (run_batch config) batches (mkAcc [] [] [] None)
      (set_ticks (S (ticks w)) w) = (Ok acc, w1)
    /\ run_epoch config epoch prefix w
       = (Raise (KeyError (prefix +:+ "_loss")), set_ticks (S (ticks w1)) w1)
    /\ (training w = true ->
        model_state w1 = foldl (train_step config) (model_state w) batches).
Proof.
  intros Hsel [k Ho] Hcm Hnone. rewrite run_epoch_unfold. run. rewrite Hsel. run.
  destruct (for_each_run_batch_total config k batches (mkAcc [] [] [] None)
              (set_ticks (S (ticks w)) w) Ho) as (acc & w1 & E1 & Hr & _).
  exists acc, w1. split; [exact E1|]. rewrite (bind_ok _ _ _ _ _ E1).
  split.
  - unfold finish_epoch. rewrite Hcm. run.
    unfold mbind at 1, M_bind at 1, results_append. simpl. rewrite Hr. simpl.
    by rewrite Hnone.
  - intros Hmode. by apply for_each_run_batch_train_state in E1.
Qed.

(** X12: in evaluation mode the entry appended to [<prefix>_loss] is the mean
    of the losses of the batches, each computed under the parameters the model
    had when the pass started. *)
Theorem run_epoch_eval_mean_loss config epoch prefix batches w r w' :
  training w = false ->
  selected_loader config prefix = Some (Some batches) ->
  run_epoch config epoch prefix w = (Ok r, w') ->
  exists l,
    results w !! (prefix +:+ "_loss") = Some l
    /\ results w' !! (prefix +:+ "_loss")
       = Some (l ++ [RFloat (np_mean (batch_loss config (parameters w) false
                                        <$> batches))]).
Proof.
  intros Hmode Hsel E. destruct r as [[t vr] x].
  apply run_epoch_ok_inv in E
    as (bs & acc & w1 & Hsel' & Eloop & Hk & _ & _ & _ & ->).
  rewrite Hsel in Hsel'. injection Hsel' as <-.
  rewrite for_each_run_batch_eval_acc in Eloop by exact Hmode.
  injection Eloop as <- <-.
  destruct (Hk (prefix +:+ "_loss")) as [l Hl].
  { unfold active_keys. apply elem_of_app. right. apply elem_of_cons. by left. }
  exists l. split; [exact Hl|]. unfold finished_world. simpl.
  rewrite lookup_loss_after_entries. simpl in *. by rewrite Hl.
Qed.

(** X13: the [x] a completed pass returns is the input of the last batch of
    the loader its prefix selects, after [moveTo]. *)
Theorem run_epoch_sample_is_last_input config epoch prefix w t vr x w' :
  run_epoch config epoch prefix w = (Ok (t, vr, x), w') ->
  exists batches b,
    selected_loader config prefix = Some (Some batches)
    /\ last batches = Some b
    /\ x = moved_input config b.
Proof.
  intros E. apply run_epoch_ok_inv in E
    as (bs & acc & w1 & Hsel & Eloop & _ & Hx & _).
  apply for_each_run_batch_ok_inv in Eloop as (_ & Hlast & _).
  rewrite Hx in Hlast. unfold last_input in Hlast. simpl in Hlast.
  destruct (last bs) as [b|] eqn:Hb; [|done].
  exists bs, b. by injection Hlast as ->.
Qed.


(** X15: a completed pass takes two clock readings and returns their
    difference; it logs the "finished epoch" line for a training pass without
    progress bar and the "last" line for the validation pass of the last
    epoch, nothing else. *)
Theorem run_epoch_clock_and_log config epoch prefix w t vr x w' :
  run_epoch config epoch prefix w = (Ok (t, vr, x), w') ->
  t = scalar_sub (clock (S (ticks w))) (clock (ticks w))
  /\ ticks w' = S (S (ticks w))
  /\ log w' = log w ++ epoch_messages config epoch prefix t.
Proof.
  intros E. apply run_epoch_ok_inv in E
    as (bs & acc & w1 & _ & Eloop & _ & _ & -> & _ & ->).
  apply for_each_run_batch_frames in Eloop as (_ & Ht & Hl & _).
  simpl in *. rewrite Ht, Hl. done.
Qed.

Lemma run_epoch_preserves_inactive config epoch prefix k :
  k ∉ active_keys config prefix ->
  preserves (fun w => results w !! k) (run_epoch config epoch prefix).
Proof.
  intros Hk. rewrite run_epoch_unfold. unfold finish_epoch, active_keys in *.
  destruct (classification_metrics config); simpl in Hk;
    repeat first
      [ apply preserves_run_batch; reflexivity
      | apply preserves_time_time; reflexivity
      | apply preserves_logging_info; reflexivity
      | apply preserves_lookup_results_append; intros ->; apply Hk;
        repeat constructor
      | progress frame ].
Qed.

(** X16: whatever its outcome, a pass calls no helper, keeps the set of
    series, changes no series but the ones it appends to, and leaves the
    model's mode, the gradient mode, the directories, the handler and the
    placement alone. *)
Theorem run_epoch_leaves_alone config epoch prefix w r w' :
  run_epoch config epoch prefix w = (r, w') ->
  events w' = events w
  /\ series_keys w' = series_keys w
  /\ (forall k, k ∉ active_keys config prefix ->
        results w' !! k = results w !! k)
  /\ training w' = training w
  /\ grad_enabled w' = grad_enabled w
  /\ dirs w' = dirs w
  /\ log_handler w' = log_handler w
  /\ placed_on w' = placed_on w.
Proof.
  intros E.
  assert (Hp : forall X (f : World -> X),
            (forall st p g w, f (set_opt_state st (set_model p g w)) = f w) ->
            (forall p g w, f (set_model p g w) = f w) ->
            (forall n w, f (set_ticks n w) = f w) ->
            (forall l w, f (set_log l w) = f w) ->
            (forall r w, f (set_results r w) = f w) ->
            f w' = f w).
  { intros X f H1 H2 H3 H4 H5.
    assert (Hf : preserves f (run_epoch config epoch prefix)).
    { apply preserves_run_epoch; try assumption.
      intros. by apply preserves_results_append. }
    by apply Hf in E. }
  split_and!; try (by apply Hp).
  - by apply run_epoch_preserves_dom in E.
  - intros k Hk. by apply (run_epoch_preserves_inactive _ _ _ _ Hk) in E.
Qed.

(** X17: in training mode the model state after a completed pass is the fold
    over the batches, in loader order, of one step: [backward], then
    [optimizer.step()], then [zero_grad()]. *)
Theorem run_epoch_training_steps config epoch prefix batches w r w' :
  training w = true ->
  selected_loader config prefix = Some (Some batches) ->
  run_epoch config epoch prefix w = (Ok r, w') ->
  model_state w' = foldl (train_step config) (model_state w) batches.
Proof.
  intros Hmode Hsel E. destruct r as [[t vr] x].
  apply run_epoch_ok_inv in E
    as (bs & acc & w1 & Hsel' & Eloop & _ & _ & _ & _ & ->).
  rewrite Hsel in Hsel'. injection Hsel' as <-.
  by apply for_each_run_batch_train_state in Eloop.
Qed.

(** ** Every tracked series grows by one entry per epoch *)

Lemma lookup_foldl_push_notin kvs : forall (d : gmap string (list rval)) k,
  k ∉ kvs.*1 -> foldl push d kvs !! k = d !! k.
Proof.
  induction kvs as [|kv kvs IH]; intros d k Hk; simpl; [done|].
  rewrite fmap_cons, not_elem_of_cons in Hk. destruct Hk as [Hne Hk].
  rewrite IH by done. unfold push. by rewrite lookup_insert_ne.
Qed.

Lemma lookup_foldl_push_in kvs : forall (d : gmap string (list rval)) k,
  NoDup kvs.*1 -> k ∈ kvs.*1 ->
  exists v, foldl push d kvs !! k = Some (default [] (d !! k) ++ [v]).
Proof.
  induction kvs as [|kv kvs IH]; intros d k Hnd Hk; simpl.
  - by apply elem_of_nil in Hk.
  - rewrite fmap_cons in Hnd, Hk. apply NoDup_cons in Hnd as [Hnotin Hnd].
    apply elem_of_cons in Hk as [->|Hk].
    + rewrite lookup_foldl_push_notin by done. exists kv.2.
      unfold push. by rewrite lookup_insert_eq.
    + destruct (IH (push d kv) k Hnd Hk) as [v Hv]. exists v. rewrite Hv.
      unfold push. rewrite lookup_insert_ne; [done|].
      intros Heq. apply Hnotin. by rewrite Heq.
Qed.

Lemma epoch_entries_keys config prefix acc :
  (epoch_entries config prefix acc).*1 = active_keys config prefix.
Proof. unfold epoch_entries, active_keys. by destruct (classification_metrics config). Qed.

Lemma NoDup_active_keys config prefix : NoDup (active_keys config prefix).
Proof.
  unfold active_keys. destruct (classification_metrics config); simpl.
  - repeat (apply NoDup_cons; split;
      [intros Hin;
       repeat (apply elem_of_cons in Hin as
         [Hin%string_app_inv_head|Hin]; [discriminate Hin|]);
       by apply elem_of_nil in Hin|]).
    apply NoDup_nil_2.
  - apply NoDup_singleton.
Qed.

(** One pass appends one entry to each of its series and leaves the others as
    they were. *)
Lemma run_epoch_ok_series config epoch prefix w r w' k :
  run_epoch config epoch prefix w = (Ok r, w') ->
  if decide (k ∈ active_keys config prefix)
  then exists l v, results w !! k = Some l /\ results w' !! k = Some (l ++ [v])
  else results w' !! k = results w !! k.
Proof.
  intros E. destruct r as [[t vr] x].
  apply run_epoch_ok_inv in E
    as (bs & acc & w1 & _ & Eloop & Hk & _ & _ & _ & ->).
  apply for_each_run_batch_frames in Eloop as (Hr & _). simpl in Hr.
  unfold finished_world. simpl. rewrite Hr in *.
  destruct (decide _) as [Hin|Hnotin].
  - destruct (Hk k Hin) as [l Hl]. exists l.
    destruct (lookup_foldl_push_in (epoch_entries config prefix acc)
                (results w) k) as [v Hv].
    + rewrite epoch_entries_keys. apply NoDup_active_keys.
    + by rewrite epoch_entries_keys.
    + exists v. rewrite Hv, Hl. done.
  - apply lookup_foldl_push_notin. by rewrite epoch_entries_keys.
Qed.

Lemma validation_pass_ok_series config loc epoch w vr w' k :
  validation_pass config loc epoch w = (Ok vr, w') ->
  if decide (is_not_None (validation_loader config) = true
             /\ k ∈ active_keys config "validation")
  then exists l v, results w !! k = Some l /\ results w' !! k = Some (l ++ [v])
  else results w' !! k = results w !! k.
Proof.
  unfold validation_pass. intros E.
  destruct (is_not_None (validation_loader config)) eqn:Hv.
  - step E as u w1 E1. step E as r w2 E2. destruct r as [[t vr'] x]. prim E.
    unfold with_no_grad in E2.
    destruct (run_epoch _ _ _ _) as [r3 w3] eqn:E3. simplify_eq.
    pose proof (run_epoch_ok_series _ _ _ _ _ _ k E3) as Hs. simpl in *.
    destruct (decide (k ∈ _)); destruct (decide (_ /\ _)) as [[_ ?]|Hn];
      try done.
    destruct Hn. done.
  - prim E. destruct (decide _) as [[? _]|]; done.
Qed.

(** The tracked names are the two epoch series and the series of the
    passes that run. *)
Lemma to_track_cases config k :
  k ∈ to_track config <->
  k = "epoch" \/ k = "epoch_time" \/ k ∈ active_keys config "training"
  \/ (is_not_None (validation_loader config) = true
      /\ k ∈ active_keys config "validation").
Proof.
  unfold to_track, active_keys.
  destruct (is_not_None (validation_loader config)),
    (classification_metrics config); simpl;
    rewrite ?elem_of_cons, ?elem_of_nil; intuition discriminate.
Qed.

Lemma active_keys_prefix config prefix k :
  k ∈ active_keys config prefix -> exists s, k = prefix +:+ s /\ s <> "".
Proof.
  unfold active_keys. destruct (classification_metrics config); simpl;
    rewrite ?elem_of_cons, ?elem_of_nil; intros Hk;
    repeat destruct Hk as [->|Hk]; try done; eexists; split; try reflexivity;
    done.
Qed.

Lemma active_keys_disjoint config k :
  k ∈ active_keys config "training" -> k ∈ active_keys config "validation" ->
  False.
Proof.
  intros (s1 & -> & _)%active_keys_prefix (s2 & E & _)%active_keys_prefix.
  discriminate E.
Qed.

Lemma active_keys_not_epoch config prefix k :
  prefix = "training" \/ prefix = "validation" ->
  k ∈ active_keys config prefix -> k <> "epoch" /\ k <> "epoch_time".
Proof.
  intros Hp (s & -> & Hs)%active_keys_prefix.
  destruct Hp as [-> | ->]; split; discriminate.
Qed.

Lemma train_epoch_ok_series config loc epoch w loc' w' k :
  train_epoch config loc epoch w = (Ok loc', w') ->
  k ∈ to_track config ->
  exists l v, results w !! k = Some l /\ results w' !! k = Some (l ++ [v]).
Proof.
  intros E Hk. unfold train_epoch in E.
  step E as u w1 E1. step E as r1 w2 E2. destruct r1 as [[epoch_time vr0] x].
  step E as row w2' Erow.
  step E as vr w3 E3. step E as u1 w4 E4. step E as u2 w5 E5.
  step E as u3 w6 E6. prim E. destruct u1, u2, u3.
  apply results_append_ok in E4 as (le & Hle & ->).
  apply results_append_ok in E5 as (lt & Hlt & ->).
  simpl in Hlt. rewrite lookup_insert_ne in Hlt by done.
  assert (Hres : results w' = <["epoch_time":=lt ++ [RFloat epoch_time]]>
                               (<["epoch":=le ++ [RInt (epoch + 1)]]> (results w3))).
  { destruct (checkpointed config epoch).
    - by apply save_checkpoint_ok in E6 as [-> _].
    - by prim E6. }
  pose proof (run_epoch_ok_series _ _ _ _ _ _ k E2) as H2.
  pose proof (validation_pass_ok_series _ _ _ _ _ _ k E3) as H3.
  simpl in H2. rewrite Hres. clear Hres E6 E2 E3.
  apply to_track_cases in Hk as [->|[->|[Hk|[Hv Hk]]]].
  - rewrite decide_False in H2
      by (intros [? _]%(active_keys_not_epoch _ "training"); auto).
    rewrite decide_False in H3
      by (intros [_ [? _]%(active_keys_not_epoch _ "validation")]; auto).
    exists le. eexists. rewrite <- H2, <- H3, Hle. split; [done|].
    rewrite lookup_insert_ne by done. by rewrite lookup_insert_eq.
  - rewrite decide_False in H2
      by (intros [_ ?]%(active_keys_not_epoch _ "training"); auto).
    rewrite decide_False in H3
      by (intros [_ [_ ?]%(active_keys_not_epoch _ "validation")]; auto).
    exists lt. eexists. rewrite <- H2, <- H3, Hlt. split; [done|].
    by rewrite lookup_insert_eq.
  - destruct (active_keys_not_epoch config "training" k) as [? ?]; auto.
    rewrite decide_True in H2 by done.
    rewrite decide_False in H3
      by (intros [_ ?]; by eapply active_keys_disjoint).
    destruct H2 as (l & v & Hl & Hl'). exists l, v. split; [done|].
    rewrite !lookup_insert_ne by done. by rewrite H3.
  - destruct (active_keys_not_epoch config "validation" k) as [? ?]; auto.
    rewrite decide_False in H2
      by (intros ?; by eapply active_keys_disjoint).
    rewrite decide_True in H3 by done.
    destruct H3 as (l & v & Hl & Hl'). exists l, v. rewrite <- H2.
    split; [done|]. by rewrite !lookup_insert_ne by done.
Qed.

Lemma epochs_loop_ok_series config k es : forall loc w loc' w' l,
  for_each (train_epoch config) es loc w = (Ok loc', w') ->
  k ∈ to_track config ->
  results w !! k = Some l ->
  exists l', results w' !! k = Some (l ++ l') /\ length l' = length es.
Proof.
  induction es as [|e es IH]; intros loc w loc' w' l E Hk Hl; simpl in E.
  - prim E. exists []. by rewrite app_nil_r.
  - step E as loc1 w1 E1.
    destruct (train_epoch_ok_series _ _ _ _ _ _ k E1 Hk) as (l0 & v & Hl0 & Hl1).
    rewrite Hl in Hl0. injection Hl0 as <-.
    destruct (IH _ _ _ _ _ E Hk Hl1) as (l' & Hl' & Hlen).
    exists (v :: l'). rewrite Hl', <- app_assoc. simpl. by rewrite Hlen.
Qed.

Lemma train_ok_results config w w' :
  train config w = (Ok tt, w') ->
  exists loc w4,
    for_each (train_epoch config) (range (epochs config))
      (mkLocals scalar_zero None None)
      (set_placed_on (device config)
         (set_results (fresh_results (to_track config))
            (set_log (log w ++ [LogText "starting training"]) w)))
    = (Ok loc, w4)
    /\ results w' = results w4.
Proof.
  intros E. unfold train in E.
  step E as u1 w1 E1. step E as u2 w2 E2. step E as u3 w3 E3.
  step E as loc w4 E4. exists loc, w4. split; [exact E4|].
  revert E.
  match goal with |- ?m _ = _ -> _ => assert (Hp : preserves results m) end.
  { repeat first [ apply save_checkpoint_preserves_results
                 | apply report_classification_preserves_results
                 | progress frame ]. }
  apply Hp.
Qed.

(** X18: after a run that completes every tracked series has one entry per
    epoch. *)
Theorem train_series_one_entry_per_epoch config w w' k :
  train config w = (Ok tt, w') ->
  k ∈ to_track config ->
  exists l, results w' !! k = Some l /\ length l = Z.to_nat (epochs config).
Proof.
  intros E Hk. apply train_ok_results in E as (loc & w4 & E4 & ->).
  destruct (epochs_loop_ok_series _ k _ _ _ _ _ [] E4 Hk) as (l & Hl & Hlen).
  { simpl. rewrite lookup_fresh_results. by rewrite decide_True. }
  exists l. by rewrite Hl, Hlen, length_range.
Qed.

(** X19: whatever the outcome of [train], the keys of [results] are the
    tracked names: the dictionary is made afresh and nothing adds a key. *)
Theorem train_results_hold_tracked_series config w r w' :
  train config w = (r, w') ->
  series_keys w' = list_to_set (to_track config).
Proof.
  intros E. apply set_eq. intros k. unfold series_keys.
  rewrite elem_of_dom, elem_of_list_to_set. by eapply train_series_keys.
Qed.

Lemma elem_of_range_inv e n : e ∈ range n -> (0 <= e < n)%Z.
Proof.
  unfold range. intros (i & -> & Hi%elem_of_seq)%list_elem_of_fmap. lia.
Qed.

(** X20: the checkpoints of a run that completes are the epoch indices of
    [range(epochs)] that [checkpoint_epochs] lists, in order, then "last"
    when [save_model] holds; an index outside the run triggers nothing. *)
Theorem train_checkpoint_schedule config w w' :
  train config w = (Ok tt, w') ->
  checkpoints w' =
    checkpoints w
    ++ (TagEpoch <$> List.filter (checkpointed config) (range (epochs config)))
    ++ (if save_model config then [TagLast] else [])
  /\ (forall e, TagEpoch e ∈ checkpoints w' ->
        TagEpoch e ∈ checkpoints w
        \/ (0 <= e < epochs config)%Z /\ checkpointed config e = true).
Proof.
  intros E. apply train_tags in E. split; [exact E|].
  intros e. rewrite E, !elem_of_app. intros [Hin|[Hin|Hin]].
  - by left.
  - right. apply list_elem_of_fmap in Hin as (e' & [= <-] & Hin).
    apply list_elem_of_In, filter_In in Hin as [Hin Hc].
    split; [|done]. by apply elem_of_range_inv, list_elem_of_In.
  - destruct (save_model config).
    + apply elem_of_cons in Hin as [Hin|Hin]; [discriminate|].
      by apply elem_of_nil in Hin.
    + by apply elem_of_nil in Hin.
Qed.

Lemma run_epoch_preserves_mode config epoch prefix :
  preserves training (run_epoch config epoch prefix).
Proof.
  apply preserves_run_epoch; try reflexivity.
  intros. by apply preserves_results_append.
Qed.

Lemma validation_pass_ok_inv config loc epoch w vr w' :
  validation_pass config loc epoch w = (Ok vr, w') ->
  events w' = events w
  /\ (is_not_None (validation_loader config) = true ->
      training w' = false
      /\ exists s, vr = Some s
         /\ (epoch <> (epochs config - 1)%Z -> s = None)
         /\ (epoch = (epochs config - 1)%Z -> is_Some s))
  /\ (is_not_None (validation_loader config) = false ->
      training w' = training w /\ vr = validation_result loc).
Proof.
  intros E. split; [by apply validation_pass_preserves_events in E|].
  unfold validation_pass in E.
  destruct (is_not_None (validation_loader config)).
  - split; [intros _|done].
    step E as u w1 E1. step E as r w2 E2. destruct r as [[t s] x]. prim E.
    unfold with_no_grad in E2.
    destruct (run_epoch _ _ _ _) as [r3 w3] eqn:E3. simplify_eq.
    pose proof (run_epoch_preserves_mode _ _ _ _ _ _ E3) as Hm.
    apply run_epoch_ok_inv in E3 as (bs & acc & w4 & _ & _ & _ & _ & _ & Hs & _).
    simpl in *. split; [done|]. exists s. split; [done|].
    rewrite Hs. unfold epoch_snapshot. simpl. rewrite andb_true_r.
    split; intros He.
    + by rewrite (proj2 (Z.eqb_neq _ _)) by done.
    + rewrite (proj2 (Z.eqb_eq _ _)) by done. eauto.
  - split; [done|intros _]. by prim E.
Qed.

(** X21: the checkpoint of a listed epoch is the one helper call of the
    iteration; it is passed [results] with the epoch's entries appended, and,
    with a validation loader, [None] as [validation_result] unless the epoch
    is the last. *)
Theorem train_epoch_checkpoint_payload config loc epoch w loc' w' :
  train_epoch config loc epoch w = (Ok loc', w') ->
  checkpointed config epoch = true ->
  exists vr xs,
    events w' = events w ++ [SaveCheckpoint (TagEpoch epoch) (results w') vr xs]
    /\ validation_result loc' = Some vr
    /\ x_sample loc' = Some xs
    /\ (exists l, results w' !! "epoch" = Some (l ++ [RInt (epoch + 1)]))
    /\ (is_not_None (validation_loader config) = true ->
        epoch <> (epochs config - 1)%Z -> vr = None).
Proof.
  intros E Hc. pose proof E as Hok. unfold train_epoch in E.
  step E as u w1 E1. step E as r1 w2 E2. destruct r1 as [[epoch_time vr0] x].
  step E as row w2' Erow.
  step E as vr w3 E3. step E as u1 w4 E4. step E as u2 w5 E5.
  step E as u3 w6 E6. prim E. destruct u1, u2, u3.
  rewrite Hc in E6. unfold save_checkpoint in E6.
  step E6 as res w7 E7. step E6 as vr' w8 E8. step E6 as xs w9 E9. prim E6.
  apply train_epoch_ok in Hok as ((l & _ & Hl) & _).
  simpl in *. exists vr', row.
  apply validation_pass_ok_inv in E3 as (Hev3 & Hval & _).
  apply run_epoch_preserves_events in E2.
  assert (He5 : events w9 = events w).
  { apply results_append_ok in E4 as (le & Hle & ->).
    apply results_append_ok in E5 as (lt & Hlt & ->).
    simpl. by rewrite Hev3, E2. }
  rewrite He5. simplify_eq. split_and!; try done.
  - by exists l.
  - intros Hv Hne. destruct (Hval Hv) as (_ & s & [= ->] & Hnone & _). auto.
Qed.

(** ** Runs without epochs, without batches, without a validation loader *)

(** Lines 163-172: two notices, then the latency helper, whose outcome is
    the outcome of the run; the results and the model are left alone. *)
Lemma measure_run config loc w :
  exists w1,
    results w1 = results w /\ model_state w1 = model_state w
    /\ forall r, time_pipeline config w1 = r ->
       exists w',
         (logging_info (LogFinishedTraining (time_training loc));;
          p ← gets parameters;
          logging_info (LogModelSize (compute_size p));;
          latency ← time_pipeline_call config;
          logging_info (LogLatency latency.1 latency.2);;
          if zip_result config then emit ZipResults else mret tt) w
         = (match r with Ok _ => Ok tt | Raise e => Raise e end, w')
         /\ results w' = results w /\ model_state w' = model_state w.
Proof.
  eexists. split_and!.
  3:{ intros [lat|e] Hr.
      - destruct (zip_result config); eexists;
          (split; [run; unfold mbind at 1, M_bind at 1, time_pipeline_call;
                   rewrite Hr; run; reflexivity|done]).
      - eexists.
        split; [run; unfold mbind at 1, M_bind at 1, time_pipeline_call;
                rewrite Hr; reflexivity|done]. }
  all: reflexivity.
Qed.


Lemma report_classification_unbound config loc w :
  validation_result loc = None ->
  report_classification config loc w
  = (Raise (UnboundLocalError "validation_result"), w).
Proof. intros Hvr. unfold report_classification. rewrite Hvr. reflexivity. Qed.

(** X23: [classification_metrics] without a validation loader: the report
    block unpacks [validation_result], which only the validation branch binds,
    so [train] never returns; with a bound optimizer and a non-empty training
    loader whose last input can be sliced it ends in [UnboundLocalError]. *)
Theorem classification_metrics_without_validation config w :
  validation_loader config = None ->
  classification_metrics config = true ->
  (forall r w', train config w = (r, w') -> forall u, r <> Ok u)
  /\ ((exists k, optimizer config = OptObj k) ->
      training_loader config <> [] ->
      sliceable config ->
      exists w', train config w
                 = (Raise (UnboundLocalError "validation_result"), w')).
Proof.
  intros Hv Hcm. split.
  - intros r w' E u ->. unfold train in E.
    step E as u1 w1 E1. step E as u2 w2 E2. step E as u3 w3 E3.
    step E as loc w4 E4.
    apply epochs_loop_without_validation in E4 as [_ Hok]; [|done..].
    destruct (Hok _ eq_refl) as [Hvr _].
    step E as u4 w5 E5. rewrite Hcm in E.
    by rewrite (bind_raise _ _ _ _ _
                  (report_classification_unbound _ _ _ Hvr)) in E.
  - intros [k Ho] Hl Hsl. unfold train. run.
    match goal with
    | |- context [(for_each _ _ _ ≫= _) ?w0] =>
        destruct (epochs_loop_without_validation_total config k
                    (range (epochs config)) (mkLocals scalar_zero None None) w0)
          as (w1 & E1);
          [done|reflexivity|done|done|done
          |apply (tracked_fresh_results config w)|]
    end.
    destruct (existsb (checkpointed config) (range (epochs config))).
    + rewrite (bind_raise _ _ _ _ _ E1). eauto.
    + destruct E1 as (loc & E1 & Hvr). rewrite (bind_ok _ _ _ _ _ E1); run.
      destruct (save_model config).
      * rewrite (bind_raise _ _ _ _ _ (save_checkpoint_unbound _ _ _ Hvr)).
        eauto.
      * run. rewrite Hcm.
        rewrite (bind_raise _ _ _ _ _
                   (report_classification_unbound _ _ _ Hvr)).
        eauto.
Qed.

(** X24: without a validation loader, when nothing reads
    [validation_result] ([save_model] and [classification_metrics] off, no
    epoch of the run listed for a checkpoint), the optimizer is bound and the
    training loader is not empty and can be sliced, [train] runs every epoch
    and reaches the latency helper: the outcome of the run is the helper's. *)
Theorem train_without_validation_outcome config k w :
  validation_loader config = None ->
  save_model config = false ->
  classification_metrics config = false ->
  (forall e, (0 <= e < epochs config)%Z -> checkpointed config e = false) ->
  optimizer config = OptObj k ->
  training_loader config <> [] ->
  sliceable config ->
  exists w1 w',
    train config w
    = (match time_pipeline config w1 with
       | Ok _ => Ok tt
       | Raise e => Raise e
       end, w')
    /\ model_state w1 = model_state w'
    /\ results w' !! "epoch"
       = Some ((fun e => RInt (e + 1)) <$> range (epochs config)).
Proof.
  intros Hv Hs Hcm Hck Ho Hl Hsl. rewrite train_unfold. run.
  match goal with
  | |- context [(for_each _ _ _ ≫= _) ?w0] =>
      destruct (epochs_loop_without_validation_total config k
                  (range (epochs config)) (mkLocals scalar_zero None None) w0)
        as (w2 & E1);
        [done|reflexivity|done|done|done
        |apply (tracked_fresh_results config w)|]
  end.
  destruct (existsb (checkpointed config) (range (epochs config))) eqn:Hex.
  { apply existsb_exists in Hex as (e & He & Hce).
    rewrite Hck in Hce; [done|].
    by apply elem_of_range_inv, list_elem_of_In. }
  destruct E1 as (loc & E1 & Hvr). rewrite (bind_ok _ _ _ _ _ E1).
  apply epochs_loop_ok in E1 as (He & _). simpl in He.
  specialize (He []). rewrite lookup_fresh_results in He.
  rewrite decide_True in He by apply to_track_epoch.
  specialize (He eq_refl). simpl in He.
  unfold finish_train. rewrite Hs, Hcm, !run_ret.
  destruct (measure_run config loc w2) as (w1 & Hr1 & Hm1 & Hrun).
  destruct (Hrun _ eq_refl) as (w' & E & Hr & Hm).
  exists w1, w'. split; [exact E|]. rewrite Hm1, Hm, Hr. done.
Qed.

(** X25: with an empty training loader the first training pass raises
    [UnboundLocalError] for [x]: [training_loss] holds the mean of no losses,
    the "epoch" series is still empty, no helper has been called. *)
Theorem train_empty_training_loader config w :
  training_loader config = [] ->
  classification_metrics config = false ->
  (1 <= epochs config)%Z ->
  exists w',
    train config w = (Raise (UnboundLocalError "x"), w')
    /\ results w' !! "training_loss" = Some [RFloat (np_mean [])]
    /\ results w' !! "epoch" = Some []
    /\ events w' = events w.
Proof.
  intros Hl _ HE. unfold train. run.
  destruct (range_pos _ HE) as [rest ->]. cbn [for_each]. run.
  unfold train_epoch. run.
  match goal with
  | |- context [(run_epoch _ _ _ ≫= _) ?w0] =>
      rewrite (bind_raise _ _ _ _ _
                 (run_epoch_empty_run config 0 "training" w0
                    ltac:(unfold selected_loader; simpl; by rewrite Hl)
                    ltac:(intros k Hk; apply (tracked_fresh_results config w);
                          apply to_track_cases; auto)))
  end.
  eexists. split; [reflexivity|]. unfold finished_world. simpl.
  split_and!; [| |done].
  - rewrite (lookup_loss_after_entries config "training"). simpl.
    rewrite lookup_fresh_results, decide_True; [done|].
    apply to_track_cases. right. right. left.
    unfold active_keys. apply elem_of_app. right. apply elem_of_cons. by left.
  - rewrite lookup_foldl_push_notin.
    + rewrite lookup_fresh_results, decide_True; [done|]. apply to_track_epoch.
    + rewrite epoch_entries_keys.
      intros [? _]%(active_keys_not_epoch config "training"); auto.
Qed.

(** ** Modes *)

Lemma train_epoch_ok_mode config loc epoch w loc' w' :
  train_epoch config loc epoch w = (Ok loc', w') ->
  training w' = negb (is_not_None (validation_loader config)).
Proof.
  intros E. unfold train_epoch in E.
  step E as u w1 E1. step E as r1 w2 E2. destruct r1 as [[epoch_time vr0] x].
  step E as row w2' Erow.
  step E as vr w3 E3. step E as u1 w4 E4. step E as u2 w5 E5.
  step E as u3 w6 E6. prim E.
  apply run_epoch_preserves_mode in E2. simpl in E2.
  apply validation_pass_ok_inv in E3 as (_ & Hval & Hnoval).
  frame_in E4 training. frame_in E5 training.
  assert (E6' : training w' = training w5).
  { destruct (checkpointed config epoch); [|by prim E6].
    unfold save_checkpoint in E6. by frame_in E6 training. }
  rewrite E6', E5, E4.
  destruct (is_not_None (validation_loader config)); simpl.
  - by destruct Hval.
  - destruct Hnoval as [-> _]; done.
Qed.

Lemma epochs_loop_ok_mode config es : forall loc w loc' w',
  for_each (train_epoch config) es loc w = (Ok loc', w') ->
  es <> [] ->
  training w' = negb (is_not_None (validation_loader config)).
Proof.
  induction es as [|e es IH]; intros loc w loc' w' E Hne; [done|].
  simpl in E. step E as loc1 w1 E1. destruct es as [|e' es'].
  - simpl in E. prim E. by eapply train_epoch_ok_mode.
  - by eapply IH.
Qed.

(** X26: a run of at least one epoch leaves the model in evaluation mode when
    there is a validation loader and in training mode when there is none. *)
Theorem train_leaves_model_mode config w w' :
  (1 <= epochs config)%Z ->
  train config w = (Ok tt, w') ->
  training w' = negb (is_not_None (validation_loader config)).
Proof.
  intros HE E. unfold train in E.
  step E as u1 w1 E1. step E as u2 w2 E2. step E as u3 w3 E3.
  step E as loc w4 E4.
  apply epochs_loop_ok_mode in E4;
    [|destruct (range_pos _ HE) as [rest ->]; done].
  rewrite <- E4. revert E.
  match goal with |- ?m _ = _ -> _ => assert (Hp : preserves training m) end.
  { unfold save_checkpoint, report_classification. frame. }
  apply Hp.
Qed.

Lemma with_no_grad_restores {A} (body : M A) :
  preserves grad_enabled (with_no_grad body).
Proof.
  intros w r w' E. unfold with_no_grad in E.
  destruct (body _) as [r1 w1]. by simplify_eq.
Qed.

(** X27: whatever the outcome of [train], also when the validation pass
    raises, the gradient mode is the one from before the call. *)
Theorem train_restores_grad_mode config w r w' :
  train config w = (r, w') -> grad_enabled w' = grad_enabled w.
Proof.
  revert w r w'. change (preserves grad_enabled (train config)).
  unfold train, train_epoch, validation_pass, save_checkpoint,
    report_classification.
  repeat first
    [ apply with_no_grad_restores
    | apply preserves_run_epoch;
        [reflexivity..|intros; by apply preserves_results_append]
    | progress frame ].
Qed.

(** ** Helper calls and the closing log lines *)

(** A computation followed by one that extends an observation by [ev] on
    success only. *)
Lemma then_appends_on_ok {A B} (ev : list event) (m : M A) (k : A -> M B) :
  preserves events m ->
  (forall a w r w', k a w = (r, w') ->
     events w' = events w ++ match r with Ok _ => ev | Raise _ => [] end) ->
  forall w r w', (m ≫= k) w = (r, w') ->
    events w' = events w ++ match r with Ok _ => ev | Raise _ => [] end.
Proof.
  intros Hm Hk w r w' E. step E as a w1 E1.
  - apply Hk in E. apply Hm in E1. by rewrite E, E1.
  - apply Hm in E1. by rewrite E1, app_nil_r.
Qed.

(** X28: with [save_model] off and no [checkpoint_epochs], the only helper
    [train] can call is [zip_results], after everything else and only when
    the run completes. *)
Theorem train_without_save_model_events config w r w' :
  save_model config = false ->
  checkpoint_epochs config = None ->
  train config w = (r, w') ->
  events w' =
  events w ++ (if zip_result config
               then match r with Ok _ => [ZipResults] | Raise _ => [] end
               else []).
Proof.
  intros Hs Hc. unfold train, report_classification. rewrite Hs.
  destruct (zip_result config).
  - revert w r w'.
    repeat (apply then_appends_on_ok;
            [ repeat first [ apply preserves_for_each; intros ? ?
                           | by apply train_epoch_preserves_events
                           | progress frame ]
            | intros ? ]).
    intros w r w' E. prim E. done.
  - intros E. rewrite app_nil_r. revert E.
    match goal with |- ?m _ = _ -> _ => assert (Hp : preserves events m) end.
    { repeat first [ apply preserves_for_each; intros ? ?
                   | by apply train_epoch_preserves_events
                   | progress frame ]. }
    apply Hp.
Qed.

Lemma train_epoch_ok_time config loc epoch w loc' w' :
  train_epoch config loc epoch w = (Ok loc', w') ->
  exists t l,
    results w !! "epoch_time" = Some l
    /\ results w' !! "epoch_time" = Some (l ++ [RFloat t])
    /\ time_training loc' = scalar_add (time_training loc) t
    /\ t = scalar_sub (clock (S (ticks w))) (clock (ticks w)).
Proof.
  intros E. unfold train_epoch in E.
  step E as u w1 E1. step E as r1 w2 E2. destruct r1 as [[epoch_time vr0] x].
  step E as row w2' Erow.
  step E as vr w3 E3. step E as u1 w4 E4. step E as u2 w5 E5.
  step E as u3 w6 E6. prim E. destruct u1, u2, u3.
  pose proof (run_epoch_ok_series _ _ _ _ _ _ "epoch_time" E2) as H2.
  pose proof (validation_pass_ok_series _ _ _ _ _ _ "epoch_time" E3) as H3.
  rewrite decide_False in H2
    by (intros [_ ?]%(active_keys_not_epoch _ "training"); auto).
  rewrite decide_False in H3
    by (intros [_ [_ ?]%(active_keys_not_epoch _ "validation")]; auto).
  apply run_epoch_ok_inv in E2 as (bs & acc & w7 & _ & Eloop & _ & _ & Ht & _).
  apply for_each_run_batch_frames in Eloop as (_ & Hticks & _).
  apply results_append_ok in E4 as (le & Hle & ->).
  apply results_append_ok in E5 as (lt & Hlt & ->).
  simpl in *. rewrite lookup_insert_ne in Hlt by done.
  assert (Hres : results w' = <["epoch_time":=lt ++ [RFloat epoch_time]]>
                               (<["epoch":=le ++ [RInt (epoch + 1)]]> (results w3))).
  { destruct (checkpointed config epoch).
    - by apply save_checkpoint_ok in E6 as [-> _].
    - by prim E6. }
  exists epoch_time, lt. rewrite Hres, lookup_insert_eq, <- H2, <- H3.
  split_and!; try done. by rewrite Ht, Hticks.
Qed.

Lemma epochs_loop_ok_time config es : forall loc w loc' w' l,
  for_each (train_epoch config) es loc w = (Ok loc', w') ->
  results w !! "epoch_time" = Some l ->
  exists ts,
    results w' !! "epoch_time" = Some (l ++ (RFloat <$> ts))
    /\ time_training loc' = foldl scalar_add (time_training loc) ts
    /\ length ts = length es.
Proof.
  induction es as [|e es IH]; intros loc w loc' w' l E Hl; simpl in E.
  - prim E. exists []. simpl. by rewrite app_nil_r.
  - step E as loc1 w1 E1.
    apply train_epoch_ok_time in E1 as (t & l0 & Hl0 & Hl1 & Ht & _).
    rewrite Hl in Hl0. injection Hl0 as <-.
    destruct (IH _ _ _ _ _ E Hl1) as (ts & Hts & Hsum & Hlen).
    exists (t :: ts). rewrite Hts, <- app_assoc. simpl.
    by rewrite Hsum, Ht, Hlen.
Qed.

(** X29: the training time in the closing log line is the sum of the
    [epoch_time] series; the two lines after it report the size of the
    trained model and the latency the helper returned for it. *)
Theorem train_reports_sum_of_epoch_times config w w' :
  train config w = (Ok tt, w') ->
  exists ts before w1 latency,
    results w' !! "epoch_time" = Some (RFloat <$> ts)
    /\ length ts = Z.to_nat (epochs config)
    /\ time_pipeline config w1 = Ok latency
    /\ model_state w1 = model_state w'
    /\ log w' =
       before ++ [LogFinishedTraining (foldl scalar_add scalar_zero ts);
                  LogModelSize (compute_size (parameters w'));
                  LogLatency latency.1 latency.2].
Proof.
  intros E. pose proof E as Hres.
  apply train_ok_results in Hres as (loc0 & w0 & E0 & Hres).
  unfold train in E.
  step E as u1 w1 E1. step E as u2 w2 E2. step E as u3 w3 E3.
  step E as loc w4 E4. rewrite E0 in E4. injection E4 as <- <-.
  apply epochs_loop_ok_time with (l := []) in E0 as (ts & Hts & Hsum & Hlen).
  2:{ simpl. rewrite lookup_fresh_results, decide_True; [done|].
      apply to_track_epoch_time. }
  step E as u4 w5 E5. step E as u5 w6 E6. step E as u6 w7 E7.
  step E as p w8 E8. step E as u7 w9 E9. step E as lat w10 E10.
  step E as u8 w11 E11.
  match goal with
  | Hlat : time_pipeline _ ?w1 = Ok ?l |- _ => exists ts, (log w6), w1, l
  end.
  rewrite Hres, Hts, Hlen, length_range. simpl in *.
  rewrite <- Hsum. split_and!; try done.
  - destruct (zip_result config); by prim E.
  - destruct (zip_result config); prim E; simpl; by rewrite <- !app_assoc.
Qed.

(** ** Construction followed by training *)

(** X30: construction followed by training: with a recognised or given
    optimizer, non-empty loaders, a training sample that can be sliced, at
    least one epoch, and a latency helper that returns for the constructed
    configuration, [train] on the constructed configuration returns, with the
    model placed on the resolved device. *)
Theorem constructed_config_trains self w self' w1 v :
  post_init self w = (Ok self', w1) ->
  (optimizer self = OptStr "SGD" \/ optimizer self = OptStr "AdamW"
   \/ exists k, optimizer self = OptObj k) ->
  validation_loader self = Some v -> v <> [] ->
  training_loader self <> [] ->
  classification_metrics self = false ->
  sliceable self' ->
  latency_measured self' ->
  (1 <= epochs self)%Z ->
  exists w2 d,
    train self' w1 = (Ok tt, w2)
    /\ (d = cpu \/ d = cuda0)
    /\ device self' = DevTorch d
    /\ placed_on w2 = Some (DevTorch d).
Proof.
  intros E Ho Hv Hne Hl _ Hsl Hlat HE.
  assert (Hself : (exists k, optimizer self' = OptObj k)
                  /\ validation_loader self' = validation_loader self
                  /\ training_loader self' = training_loader self
                  /\ epochs self' = epochs self
                  /\ device self'
                     = DevTorch (resolved_device (device self) (cuda_available w))).
  { clear Hsl Hlat. construction E; simpl; (split; [|done]); eauto.
    all: unfold selected_optimizer in Hsel;
      destruct Ho as [Ho|[Ho|[k Ho]]]; rewrite Ho in *; eauto; done. }
  destruct Hself as ([k Ho'] & Hv' & Hl' & HE' & Hd').
  destruct (train_completes self' k v w1) as (w2 & E2);
    [congruence..|done|done|lia|].
  exists w2, (resolved_device (device self) (cuda_available w)).
  split_and!; try done.
  - unfold resolved_device. destruct (_ && _); auto.
  - rewrite <- Hd'. revert E2. unfold train. intros E2.
    step E2 as u1 w3 E3. step E2 as u2 w4 E4. step E2 as u3 w5 E5.
    revert E2.
    match goal with |- ?m _ = _ -> _ => assert (Hp : preserves placed_on m) end.
    { unfold train_epoch, validation_pass, save_checkpoint,
        report_classification.
      repeat first
        [ apply preserves_run_epoch;
            [reflexivity..|intros; by apply preserves_results_append]
        | progress frame ]. }
    intros E2. by apply Hp in E2.
Qed.

End Behaviour.

(** * Concrete runs of the toy instance *)

Module Examples.
Import Demo.

(** C1, as stated, fails: constructed with the selector "Adam", the
    configuration still holds the string, the only notice logged is the
    device's, the optimizer state is the initial one, and the following
    [train] raises at the first optimizer step. *)
Lemma unrecognized_optimizer_no_fallback :
  (post_init adam_config world0).1 = Ok (constructed adam_config)
  /\ constructed adam_config
     = config (OptStr "Adam") (DevTorch cpu) None 2 false None
  /\ optimizer (constructed adam_config) = OptStr "Adam"
  /\ log (post_init adam_config world0).2 = [LogUsingDevice cpu]
  /\ opt_state (post_init adam_config world0).2 = opt_state world0
  /\ (train (constructed adam_config) (post_init adam_config world0).2).1
     = Raise (AttributeError "str" "step").
Proof. vm_compute. repeat split. Qed.

(** The selector "Adam" on the toy instance. *)
Lemma unrecognized_optimizer_left_unbound_at_adam :
  optimizer (constructed adam_config) = OptStr "Adam"
  /\ opt_state (post_init adam_config world0).2 = opt_state world0
  /\ (exists d, log (post_init adam_config world0).2
                = log world0 ++ [LogUsingDevice d])
  /\ (training_loader (constructed adam_config) <> [] ->
      (1 <= epochs (constructed adam_config))%Z ->
      forall w0, exists w1,
        train (constructed adam_config) w0
        = (Raise (AttributeError "str" "step"), w1)).
Proof.
  apply (unrecognized_optimizer_left_unbound adam_config "Adam" world0).
  - reflexivity.
  - discriminate.
  - discriminate.
  - apply outcome_pair. vm_compute. reflexivity.
Defined.

(** The selector "tpu" resolves to the CPU. *)
Lemma post_init_device_at_tpu :
  device (constructed tpu_config) = DevTorch cpu.
Proof.
  assert (E : post_init tpu_config world0
              = (Ok (constructed tpu_config), (post_init tpu_config world0).2))
    by (apply outcome_pair; vm_compute; reflexivity).
  destruct (post_init_device_cpu_or_cuda0 _ _ _ _ E) as (_ & _ & Hcpu & _).
  apply Hcpu; discriminate.
Defined.

(** Two epochs give two entries in each series. *)
Lemma train_epoch_series_lengths_at_2 :
  exists le lt,
    results (train plain_config world0).2 !! "epoch" = Some le
    /\ results (train plain_config world0).2 !! "epoch_time" = Some lt
    /\ Z.of_nat (length le) = 2%Z
    /\ Z.of_nat (length lt) = 2%Z.
Proof.
  apply (train_epoch_series_lengths plain_config world0).
  - vm_compute. discriminate.
  - apply outcome_pair. vm_compute. reflexivity.
Defined.

(** C3, as stated, fails: after two epochs the "epoch" series is [1, 2],
    not the epoch indices [0, 1]. *)
Lemma epoch_series_is_not_the_indices :
  (train plain_config world0).1 = Ok tt
  /\ results (train plain_config world0).2 !! "epoch" = Some [RInt 1; RInt 2]
  /\ results (train plain_config world0).2 !! "epoch"
     <> Some (RInt <$> [0; 1]%Z).
Proof. vm_compute. repeat split. discriminate. Qed.

(** Two epochs record the numbers 1 and 2. *)
Lemma train_epoch_series_one_based_at_2 :
  results (train plain_config world0).2 !! "epoch" = Some [RInt 1; RInt 2].
Proof.
  apply (train_epoch_series_one_based plain_config world0).
  - vm_compute. discriminate.
  - apply outcome_pair. vm_compute. reflexivity.
Defined.


(** A validation pass over two batches leaves the model as it was. *)
Lemma run_epoch_eval_keeps_parameters_at_two_batches :
  parameters (run_epoch validating_config 0 "validation" world_eval).2 = 2%Z
  /\ grad (run_epoch validating_config 0 "validation" world_eval).2 = 0%Z
  /\ opt_state (run_epoch validating_config 0 "validation" world_eval).2 = 0.
Proof.
  apply (run_epoch_eval_keeps_parameters validating_config 0 "validation"
           world_eval
           (run_epoch validating_config 0 "validation" world_eval).1).
  - reflexivity.
  - apply outcome_pair. vm_compute. reflexivity.
Defined.

(** The validation pass of the last of two epochs returns the snapshot. *)
Lemma run_epoch_snapshot_at_last_epoch :
  exists batches acc w1,
    ("validation" = "training" /\ batches = training_loader validating_config
     \/ "validation" = "validation"
        /\ validation_loader validating_config = Some batches)
    /\ for_each (run_batch validating_config) batches (mkAcc [] [] [] None)
         (set_ticks (S (ticks world_eval)) world_eval) = (Ok acc, w1)
    /\ (empty_snapshot = Some (y_true acc, as_labels (y_pred acc))
          /\ 1%Z = (epochs validating_config - 1)%Z
          /\ "validation" = "validation"
        \/ empty_snapshot = None
          /\ ~ (1%Z = (epochs validating_config - 1)%Z
                /\ "validation" = "validation")).
Proof.
  apply (run_epoch_snapshot validating_config 1 "validation" world_eval
           1%Z empty_snapshot 2%Z
           (run_epoch validating_config 1 "validation" world_eval).2).
  apply outcome_pair. vm_compute. reflexivity.
Defined.

(** Three validation losses with a loader; no such series without one. *)
Lemma train_validation_series_at_3 :
  (exists l, results (train checkpointing_config world0).2 !! "validation_loss"
             = Some l /\ Z.of_nat (length l) = 3%Z)
  /\ results (train plain_config world0).2 !! "validation_loss" = None.
Proof.
  split.
  - apply (proj1 (train_validation_series checkpointing_config world0)
             [(3, 4)]%Z).
    + reflexivity.
    + vm_compute. discriminate.
    + apply outcome_pair. vm_compute. reflexivity.
  - apply (proj2 (train_validation_series plain_config world0)
             (train plain_config world0).1).
    + reflexivity.
    + apply outcome_pair. vm_compute. reflexivity.
    + reflexivity.
Defined.



(** The same run, evaluated: it stops at the checkpoint of epoch 0. *)
Example unvalidated_run_outcome :
  (train unvalidated_config world0).1
  = Raise (UnboundLocalError "validation_result")
  /\ checkpoints (train unvalidated_config world0).2 = [].
Proof. vm_compute. split; reflexivity. Qed.

(** A prefix other than "training" and "validation". *)
Example run_epoch_unknown_prefix :
  (run_epoch validating_config 0 "test" world_eval).1
  = Raise (UnboundLocalError "data_loader").
Proof. vm_compute. reflexivity. Qed.

(** A training batch of one dimension: the run stops at the slice of line
    112, before the checkpoint trigger. *)
Example flat_sample_outcome :
  ~ sliceable flat_config
  /\ (train flat_config world0).1
     = Raise (IndexError "too many indices for tensor")
  /\ checkpoints (train flat_config world0).2 = [].
Proof.
  split; [|vm_compute; split; reflexivity].
  intros Hsl. destruct (Hsl (-1, 1)%Z eq_refl) as [row Hrow]. discriminate Hrow.
Qed.

(** A negative learning rate: the constructor of the optimizer raises and
    the construction with it. *)
Example negative_rate_outcome :
  ~ optimizer_accepted negative_rate_config world0
  /\ (post_init negative_rate_config world0).1
     = Raise (ValueError "torch.optim").
Proof.
  split; [|vm_compute; reflexivity].
  intros Hacc. destruct (Hacc SGD eq_refl) as [st Hst]. discriminate Hst.
Qed.

End Examples.

(** * The further properties on the toy instance *)

Module Instances.
Import Demo.

(** "SGD" on the toy instance. *)
Lemma post_init_binds_sgd_on_demo :
  optimizer (constructed gpu_config) = OptObj SGD
  /\ optimizer_init SGD (parameters world0) (lr gpu_config)
     = Some (opt_state (post_init gpu_config world0).2).
Proof.
  apply (post_init_binds_recognised_optimizer gpu_config SGD world0).
  - left. split; reflexivity.
  - apply outcome_pair. vm_compute. reflexivity.
Defined.

(** "gpu" without CUDA resolves to the CPU. *)
Lemma post_init_gpu_without_cuda :
  device (constructed gpu_config)
  = DevTorch (if cuda_available world0 then cuda0 else cpu)
  /\ log (post_init gpu_config world0).2
     = log world0
       ++ [LogUsingDevice (if cuda_available world0 then cuda0 else cpu)].
Proof.
  apply (post_init_gpu_selector gpu_config world0).
  - left. reflexivity.
  - apply outcome_pair. vm_compute. reflexivity.
Defined.


Lemma post_init_save_model_default_path :
  exists w',
    post_init pathless_config world0 = (Raise (TypeError "Path(None)"), w')
    /\ dirs w' = dirs world0
    /\ log_handler w' = log_handler world0
    /\ log w' = log world0.
Proof.
  apply (post_init_save_model_without_path pathless_config world0).
  - intros k _. by eexists.
  - reflexivity.
  - reflexivity.
Defined.

Lemma post_init_existing_directory_on_demo :
  exists w',
    post_init saving_config world_with_run_directory
    = (Raise (FileExistsError
                (run_directory saving_config "runs" world_with_run_directory)),
       w')
    /\ dirs w' = dirs world_with_run_directory
    /\ log_handler w' = log_handler world_with_run_directory
    /\ log w' = log world_with_run_directory.
Proof.
  apply (post_init_existing_directory saving_config "runs"
           world_with_run_directory).
  - intros k _. by eexists.
  - reflexivity.
  - reflexivity.
  - apply elem_of_singleton. reflexivity.
Defined.

(** The toy construction makes "runs" and the run directory below it. *)
Lemma post_init_creates_run_directory_on_demo :
  exists base,
    save_path saving_config = Some base
    /\ (run_directory saving_config base world0 ∉ dirs world0)
    /\ dirs (post_init saving_config world0).2
       = {[run_directory saving_config base world0]}
         ∪ list_to_set (parents (run_directory saving_config base world0))
         ∪ dirs world0
    /\ save_path_final (constructed saving_config)
       = Some (run_directory saving_config base world0)
    /\ ticks (post_init saving_config world0).2 = S (ticks world0)
    /\ can_open (joinpath (run_directory saving_config base world0) LOG_FILE)
       = true
    /\ log_handler (post_init saving_config world0).2
       = Some (handler_after (colab saving_config)
                 (joinpath (run_directory saving_config base world0) LOG_FILE)
                 (log_handler world0)).
Proof.
  apply (post_init_creates_run_directory saving_config world0).
  - reflexivity.
  - apply outcome_pair. vm_compute. reflexivity.
Defined.

Lemma post_init_twice_on_demo :
  exists path w3,
    post_init saving_config (post_init saving_config world0).2
    = (Raise (FileExistsError path), w3)
    /\ save_path_final (constructed saving_config) = Some path.
Proof.
  apply (post_init_twice_same_timestamp saving_config world0
           (constructed saving_config) (post_init saving_config world0).2).
  - reflexivity.
  - apply outcome_pair. vm_compute. reflexivity.
  - intros k _. by eexists.
  - reflexivity.
  - reflexivity.
Defined.

Lemma post_init_keeps_first_log_handler_on_demo :
  log_handler (post_init gpu_config world_logging).2 = Some "first.log".
Proof.
  apply (post_init_keeps_first_log_handler gpu_config "first.log"
           world_logging (post_init gpu_config world_logging).1).
  - reflexivity.
  - reflexivity.
  - apply outcome_pair. reflexivity.
Defined.

Lemma post_init_leaves_alone_on_demo :
  (parameters (post_init gpu_config world0).2 = parameters world0
   /\ grad (post_init gpu_config world0).2 = grad world0
   /\ training (post_init gpu_config world0).2 = training world0
   /\ placed_on (post_init gpu_config world0).2 = placed_on world0
   /\ results (post_init gpu_config world0).2 = results world0
   /\ events (post_init gpu_config world0).2 = events world0
   /\ grad_enabled (post_init gpu_config world0).2 = grad_enabled world0
   /\ cuda_available (post_init gpu_config world0).2 = cuda_available world0)
  /\ (forall self', (post_init gpu_config world0).1 = Ok self' ->
      training_loader self' = training_loader gpu_config
      /\ validation_loader self' = validation_loader gpu_config
      /\ lr self' = lr gpu_config /\ epochs self' = epochs gpu_config
      /\ save_model self' = save_model gpu_config
      /\ colab self' = colab gpu_config
      /\ zip_result self' = zip_result gpu_config
      /\ save_path self' = save_path gpu_config
      /\ model_name self' = model_name gpu_config
      /\ classification_metrics self' = classification_metrics gpu_config
      /\ class_names self' = class_names gpu_config
      /\ progress_bar self' = progress_bar gpu_config
      /\ checkpoint_epochs self' = checkpoint_epochs gpu_config).
Proof.
  apply (post_init_leaves_alone gpu_config world0).
  apply outcome_pair. reflexivity.
Defined.

Lemma run_epoch_empty_loader_on_demo :
  exists w',
    run_epoch empty_config 0 "training" world_training
    = (Raise (UnboundLocalError "x"), w')
    /\ results w' !! "training_loss" = Some ([] ++ [RFloat (np_mean [])]).
Proof.
  apply (run_epoch_empty_loader empty_config 0 "training" world_training []);
    reflexivity.
Defined.

(** Two training steps take the parameter from 2 to 4 before the missing
    series is noticed. *)
Lemma run_epoch_missing_series_on_demo :
  (run_epoch plain_config 0 "training" world_fitting).1
  = Raise (KeyError "training_loss")
  /\ model_state (run_epoch plain_config 0 "training" world_fitting).2
     = foldl (train_step plain_config) (model_state world_fitting) two_batches
  /\ model_state world_fitting = (2%Z, 0%Z, 0)
  /\ foldl (train_step plain_config) (model_state world_fitting) two_batches
     = (4%Z, 0%Z, 2).
Proof.
  destruct (run_epoch_missing_series plain_config 0 "training" two_batches
              world_fitting) as (acc & w1 & _ & E & Hstate).
  - reflexivity.
  - exists SGD. reflexivity.
  - reflexivity.
  - reflexivity.
  - rewrite E. split_and!; [reflexivity| |reflexivity|reflexivity].
    apply Hstate. reflexivity.
Defined.

Lemma run_epoch_eval_mean_loss_on_demo :
  exists l,
    results world_eval !! "validation_loss" = Some l
    /\ results (run_epoch validating_config 0 "validation" world_eval).2
         !! "validation_loss"
       = Some (l ++ [RFloat (np_mean (batch_loss validating_config
                                        (parameters world_eval) false
                                        <$> two_batches))]).
Proof.
  apply (run_epoch_eval_mean_loss validating_config 0 "validation"
           two_batches world_eval (1%Z, None, 2%Z)).
  - reflexivity.
  - reflexivity.
  - apply outcome_pair. vm_compute. reflexivity.
Defined.

Lemma run_epoch_sample_on_demo :
  exists batches b,
    selected_loader validating_config "validation" = Some (Some batches)
    /\ last batches = Some b
    /\ 2%Z = moved_input validating_config b.
Proof.
  apply (run_epoch_sample_is_last_input validating_config 0 "validation"
           world_eval 1%Z None 2%Z
           (run_epoch validating_config 0 "validation" world_eval).2).
  apply outcome_pair. vm_compute. reflexivity.
Defined.


Lemma run_epoch_clock_and_log_on_demo :
  1%Z = scalar_sub (clock (S (ticks world_eval))) (clock (ticks world_eval))
  /\ ticks (run_epoch validating_config 1 "validation" world_eval).2
     = S (S (ticks world_eval))
  /\ log (run_epoch validating_config 1 "validation" world_eval).2
     = log world_eval ++ epoch_messages validating_config 1 "validation" 1%Z.
Proof.
  apply (run_epoch_clock_and_log validating_config 1 "validation" world_eval
           1%Z empty_snapshot 2%Z).
  apply outcome_pair. vm_compute. reflexivity.
Defined.

Lemma run_epoch_leaves_alone_on_demo :
  events (run_epoch plain_config 0 "training" world_training).2
  = events world_training
  /\ series_keys (run_epoch plain_config 0 "training" world_training).2
     = series_keys world_training
  /\ (forall k, k ∉ active_keys plain_config "training" ->
        results (run_epoch plain_config 0 "training" world_training).2 !! k
        = results world_training !! k)
  /\ training (run_epoch plain_config 0 "training" world_training).2
     = training world_training
  /\ grad_enabled (run_epoch plain_config 0 "training" world_training).2
     = grad_enabled world_training
  /\ dirs (run_epoch plain_config 0 "training" world_training).2
     = dirs world_training
  /\ log_handler (run_epoch plain_config 0 "training" world_training).2
     = log_handler world_training
  /\ placed_on (run_epoch plain_config 0 "training" world_training).2
     = placed_on world_training.
Proof.
  apply (run_epoch_leaves_alone plain_config 0 "training" world_training
           (run_epoch plain_config 0 "training" world_training).1).
  apply outcome_pair. reflexivity.
Defined.

Lemma run_epoch_training_steps_on_demo :
  model_state (run_epoch plain_config 0 "training" world_training).2
  = foldl (train_step plain_config) (model_state world_training) two_batches.
Proof.
  apply (run_epoch_training_steps plain_config 0 "training" two_batches
           world_training (1%Z, None, 2%Z)).
  - reflexivity.
  - reflexivity.
  - apply outcome_pair. vm_compute. reflexivity.
Defined.

Lemma train_series_one_entry_per_epoch_on_demo :
  exists l,
    results (train checkpointing_config world0).2 !! "training_loss" = Some l
    /\ length l = Z.to_nat (epochs checkpointing_config).
Proof.
  apply (train_series_one_entry_per_epoch checkpointing_config world0).
  - apply outcome_pair. vm_compute. reflexivity.
  - unfold to_track. simpl. repeat constructor.
Defined.

Lemma train_results_hold_tracked_series_on_demo :
  series_keys (train unvalidated_config world0).2
  = list_to_set (to_track unvalidated_config).
Proof.
  apply (train_results_hold_tracked_series unvalidated_config world0
           (train unvalidated_config world0).1).
  apply outcome_pair. reflexivity.
Defined.

Lemma train_checkpoint_schedule_on_demo :
  checkpoints (train checkpointing_config world0).2 =
    checkpoints world0
    ++ (TagEpoch <$> List.filter (checkpointed checkpointing_config)
                       (range (epochs checkpointing_config)))
    ++ (if save_model checkpointing_config then [TagLast] else [])
  /\ (forall e, TagEpoch e ∈ checkpoints (train checkpointing_config world0).2 ->
        TagEpoch e ∈ checkpoints world0
        \/ (0 <= e < epochs checkpointing_config)%Z
           /\ checkpointed checkpointing_config e = true).
Proof.
  apply (train_checkpoint_schedule checkpointing_config world0).
  apply outcome_pair. vm_compute. reflexivity.
Defined.

Lemma train_epoch_checkpoint_payload_on_demo :
  exists vr xs,
    events (train_epoch checkpointing_config locals_before 0 world_tracking).2
    = events world_tracking
      ++ [SaveCheckpoint (TagEpoch 0)
            (results (train_epoch checkpointing_config
                        locals_before 0 world_tracking).2) vr xs]
    /\ validation_result locals_after = Some vr
    /\ x_sample locals_after = Some xs
    /\ (exists l,
          results (train_epoch checkpointing_config locals_before 0
                     world_tracking).2 !! "epoch"
          = Some (l ++ [RInt (0 + 1)]))
    /\ (is_not_None (validation_loader checkpointing_config) = true ->
        0%Z <> (epochs checkpointing_config - 1)%Z -> vr = None).
Proof.
  apply (train_epoch_checkpoint_payload checkpointing_config
           locals_before 0 world_tracking).
  - apply outcome_pair. vm_compute. reflexivity.
  - reflexivity.
Defined.


Lemma classification_metrics_without_validation_on_demo :
  (forall r w', train metrics_config world0 = (r, w') -> forall u, r <> Ok u)
  /\ ((exists k, optimizer metrics_config = OptObj k) ->
      training_loader metrics_config <> [] ->
      sliceable metrics_config ->
      exists w', train metrics_config world0
                 = (Raise (UnboundLocalError "validation_result"), w')).
Proof.
  apply (classification_metrics_without_validation metrics_config world0);
    reflexivity.
Defined.

(** Two epochs without a validation loader end at the latency helper. *)
Lemma train_without_validation_outcome_on_demo :
  exists w1 w',
    train plain_config world0
    = (match time_pipeline plain_config w1 with
       | Ok _ => Ok tt
       | Raise e => Raise e
       end, w')
    /\ model_state w1 = model_state w'
    /\ results w' !! "epoch"
       = Some ((fun e => RInt (e + 1)) <$> range (epochs plain_config)).
Proof.
  apply (train_without_validation_outcome plain_config SGD world0);
    try reflexivity.
  - discriminate.
  - intros b [= <-]. by eexists.
Defined.

Lemma train_empty_training_loader_on_demo :
  exists w',
    train empty_config world0 = (Raise (UnboundLocalError "x"), w')
    /\ results w' !! "training_loss" = Some [RFloat (np_mean [])]
    /\ results w' !! "epoch" = Some []
    /\ events w' = events world0.
Proof.
  apply (train_empty_training_loader empty_config world0).
  - reflexivity.
  - reflexivity.
  - vm_compute. discriminate.
Defined.

Lemma train_leaves_model_mode_on_demo :
  training (train validating_config world0).2
  = negb (is_not_None (validation_loader validating_config)).
Proof.
  apply (train_leaves_model_mode validating_config world0).
  - vm_compute. discriminate.
  - apply outcome_pair. vm_compute. reflexivity.
Defined.

Lemma train_restores_grad_mode_on_demo :
  grad_enabled (train validating_config world0).2 = grad_enabled world0.
Proof.
  apply (train_restores_grad_mode validating_config world0
           (train validating_config world0).1).
  apply outcome_pair. reflexivity.
Defined.

Lemma train_without_save_model_events_on_demo :
  events (train plain_config world0).2 =
  events world0
  ++ (if zip_result plain_config
      then match (train plain_config world0).1 with
           | Ok _ => [ZipResults]
           | Raise _ => []
           end
      else []).
Proof.
  apply (train_without_save_model_events plain_config world0).
  - reflexivity.
  - reflexivity.
  - apply outcome_pair. reflexivity.
Defined.

Lemma train_reports_sum_of_epoch_times_on_demo :
  exists ts before w1 latency,
    results (train validating_config world0).2 !! "epoch_time"
    = Some (RFloat <$> ts)
    /\ length ts = Z.to_nat (epochs validating_config)
    /\ time_pipeline validating_config w1 = Ok latency
    /\ model_state w1 = model_state (train validating_config world0).2
    /\ log (train validating_config world0).2 =
       before
       ++ [LogFinishedTraining (foldl scalar_add scalar_zero ts);
           LogModelSize
             (compute_size (parameters (train validating_config world0).2));
           LogLatency latency.1 latency.2].
Proof.
  apply (train_reports_sum_of_epoch_times validating_config world0).
  apply outcome_pair. vm_compute. reflexivity.
Defined.

Lemma constructed_config_trains_on_demo :
  exists w2 d,
    train (constructed selecting_config) (post_init selecting_config world0).2
    = (Ok tt, w2)
    /\ (d = cpu \/ d = cuda0)
    /\ device (constructed selecting_config) = DevTorch d
    /\ placed_on w2 = Some (DevTorch d).
Proof.
  apply (constructed_config_trains selecting_config world0
           (constructed selecting_config)
           (post_init selecting_config world0).2 two_batches).
  - apply outcome_pair. vm_compute. reflexivity.
  - left. reflexivity.
  - reflexivity.
  - discriminate.
  - discriminate.
  - reflexivity.
  - intros b [= <-]. by eexists.
  - intros w. by eexists.
  - vm_compute. discriminate.
Defined.

End Instances.
